(** * Fadecandy device interface: a shallow embedding of server/src/fcdevice.cpp

    The development follows the C++ translation unit function by function:
    the rapidjson values the device is configured with, OPC messages, the
    pixel mapper ([opcMapPixelColors], [opcSetPixelColors]), the USB transfer
    manager ([submitTransfer], [completeTransfer], [flush],
    [writeFramebuffer]), the OPC dispatcher ([writeMessage], [opcSysEx] and
    its two handlers) and the colour curve of [writeColorCorrection].

    Conventions.
    - A C++ [unsigned] is a [Z] in [0, 2^32); every operation that can wrap
      is written with [u32].  A [uint8_t] is a [Z] in [0, 256).
    - A [double] is modelled by a real number: arithmetic is exact, so the
      rounding error of IEEE binary64 (relative 2^-53) is not represented.
    - A function whose C++ behaviour can be undefined (an access outside a
      buffer, a floating-point value converted to an integer type that cannot
      hold it) returns [option]; [None] is undefined behaviour.
    - What the process exchanges with libusb and with [std::clog] is explicit:
      the status returned by [libusb_submit_transfer] is an argument, the
      transfers libusb accepted are appended to [usbOut] together with a
      snapshot of the buffer they point at, and diagnostics are appended to
      [clog]. *)

From Stdlib Require Import ZArith List Lia Reals Lra String.
From stdpp Require Import gmap list.

Open Scope Z_scope.

#[local] Set Warnings "-register-all".
#[local] Set Warnings "-notation-overridden".
#[local] Set Warnings "-ambiguous-paths".

(** ** Machine integers *)

Definition u32 (z : Z) : Z := z mod 2 ^ 32.
Definition u8 (z : Z) : Z := z mod 2 ^ 8.

(** ** rapidjson values

    Only what fcdevice.cpp asks of a [rapidjson::Value]: its kind, the size
    and elements of an array, the members of an object, and a number read as
    an [unsigned] or as a [double].  The source calls an accessor only after
    the matching test ([IsUint] before [GetUint], [IsArray] and [Size] before
    an index); on a value of another kind the accessors below return a
    default. *)

Inductive Value : Type :=
| Null
| False_
| True_
| Int (z : Z)
| Double (x : R)
| String_ (s : string)
| Array (elements : list Value)
| Object (members : list (string * Value)).

Definition IsNull (v : Value) : bool := match v with Null => true | _ => false end.
Definition IsTrue (v : Value) : bool := match v with True_ => true | _ => false end.
Definition IsFalse (v : Value) : bool := match v with False_ => true | _ => false end.
Definition IsArray (v : Value) : bool := match v with Array _ => true | _ => false end.
Definition IsObject (v : Value) : bool := match v with Object _ => true | _ => false end.
Definition IsNumber (v : Value) : bool :=
  match v with Int _ | Double _ => true | _ => false end.

(** An integer literal that fits 32 unsigned bits. *)
Definition IsUint (v : Value) : bool :=
  match v with Int z => (0 <=? z) && (z <? 2 ^ 32) | _ => false end.

Definition GetUint (v : Value) : Z := match v with Int z => z | _ => 0 end.

Definition GetDouble (v : Value) : R :=
  match v with Int z => IZR z | Double x => x | _ => 0%R end.

Definition Size (v : Value) : Z :=
  match v with Array l => Z.of_nat (length l) | _ => 0 end.

(** [v[i]] on an array. *)
Definition at_ (v : Value) (i : Z) : Value :=
  match v with Array l => nth (Z.to_nat i) l Null | _ => Null end.

(** [v["name"]] on an object: the member, or a null value when absent. *)
Fixpoint find_member (name : string) (ms : list (string * Value)) : Value :=
  match ms with
  | [] => Null
  | (k, v) :: ms' => if String.eqb k name then v else find_member name ms'
  end.

Definition member (v : Value) (name : string) : Value :=
  match v with Object ms => find_member name ms | _ => Null end.

(** ** OPC messages *)

(** Modelled from the spec: [OPC::Message] is declared in opc.h, which is not
    part of the sources.  The wire format has a one-byte channel, a one-byte
    command and a two-byte length followed by that many payload bytes;
    [data] is the payload and [msg_length] is [msg.length()]. *)
Record Message : Type := {
  channel : Z;
  command : Z;
  data : list Z
}.

Definition msg_length (msg : Message) : Z := Z.of_nat (length (data msg)).

(** ** Transfers and the device *)

(** Modelled from the spec: the enumeration is declared in fcdevice.h.  The
    source names [FRAME]; every other transfer (LUT, configuration) is built
    without a type argument and takes the default branch of the switch in
    [flush]. *)
Inductive PacketType : Type := OTHER | FRAME.

#[global] Instance PacketType_eq_dec : EqDecision PacketType.
Proof. solve_decision. Defined.

(** The device buffer a transfer was built on. *)
Inductive Buffer : Type := BufFirmwareConfig | BufColorLUT | BufFramebuffer.

Record Transfer : Type := {
  buffer : Buffer;
  type : PacketType;
  finished : bool
}.

(** An RGB triple of bytes. *)
Abbreviation Pixel := (Z * Z * Z)%type (only parsing).

(** What libusb copied when it accepted a transfer. *)
Inductive Payload : Type :=
| FirmwareConfigData (bytes : list Z)
| ColorLUTData (packets : list (list Z))
| FramebufferData (pixels : list Pixel).

(** Lines written to [std::clog], one constructor per output statement of
    the source (the statement for a bad [linearCutoff] prints the text of
    the one for [linearSlope]). *)
Inductive Diag : Type :=
| ErrorSubmittingTransfer (r : Z)
| UnsupportedCommand (c : Z)
| SysExTooShort
| UnsupportedMappingInstruction
| ColorParseError (offset : Z) (err : string)
| GammaMustBeNumber
| LinearSlopeMustBeNumber
| LinearCutoffMustBeNumber
| WhitepointMustBeList
| ColorMustBeObject
| LedConfigInvalid.

(** Transfers live on the heap; [mPending] is a [std::set<Transfer*>], here
    the finite map from the addresses in the set to the objects they point
    at.  The framebuffer is kept per pixel, the granularity of [fbPixel];
    packet headers, which no function below reads, are left out. *)
Record FCDevice : Type := {
  mVerbose : bool;
  mConfigMap : option Value;
  mFirmwareConfig : list Z;
  mFramebuffer : list Pixel;
  mColorLUT : list (list Z);
  mPending : gmap positive Transfer;
  mNumFramesPending : Z;
  mFrameWaitingForSubmit : bool;
  usbOut : list (PacketType * Payload);
  clog : list Diag
}.

Definition set_mConfigMap (v : option Value) (d : FCDevice) : FCDevice :=
  {| mVerbose := mVerbose d; mConfigMap := v;
     mFirmwareConfig := mFirmwareConfig d; mFramebuffer := mFramebuffer d;
     mColorLUT := mColorLUT d; mPending := mPending d;
     mNumFramesPending := mNumFramesPending d;
     mFrameWaitingForSubmit := mFrameWaitingForSubmit d;
     usbOut := usbOut d; clog := clog d |}.

Definition set_mFirmwareConfig (v : list Z) (d : FCDevice) : FCDevice :=
  {| mVerbose := mVerbose d; mConfigMap := mConfigMap d;
     mFirmwareConfig := v; mFramebuffer := mFramebuffer d;
     mColorLUT := mColorLUT d; mPending := mPending d;
     mNumFramesPending := mNumFramesPending d;
     mFrameWaitingForSubmit := mFrameWaitingForSubmit d;
     usbOut := usbOut d; clog := clog d |}.

Definition set_mFramebuffer (v : list Pixel) (d : FCDevice) : FCDevice :=
  {| mVerbose := mVerbose d; mConfigMap := mConfigMap d;
     mFirmwareConfig := mFirmwareConfig d; mFramebuffer := v;
     mColorLUT := mColorLUT d; mPending := mPending d;
     mNumFramesPending := mNumFramesPending d;
     mFrameWaitingForSubmit := mFrameWaitingForSubmit d;
     usbOut := usbOut d; clog := clog d |}.

Definition set_mColorLUT (v : list (list Z)) (d : FCDevice) : FCDevice :=
  {| mVerbose := mVerbose d; mConfigMap := mConfigMap d;
     mFirmwareConfig := mFirmwareConfig d; mFramebuffer := mFramebuffer d;
     mColorLUT := v; mPending := mPending d;
     mNumFramesPending := mNumFramesPending d;
     mFrameWaitingForSubmit := mFrameWaitingForSubmit d;
     usbOut := usbOut d; clog := clog d |}.

Definition set_mPending (v : gmap positive Transfer) (d : FCDevice) : FCDevice :=
  {| mVerbose := mVerbose d; mConfigMap := mConfigMap d;
     mFirmwareConfig := mFirmwareConfig d; mFramebuffer := mFramebuffer d;
     mColorLUT := mColorLUT d; mPending := v;
     mNumFramesPending := mNumFramesPending d;
     mFrameWaitingForSubmit := mFrameWaitingForSubmit d;
     usbOut := usbOut d; clog := clog d |}.

Definition set_mNumFramesPending (v : Z) (d : FCDevice) : FCDevice :=
  {| mVerbose := mVerbose d; mConfigMap := mConfigMap d;
     mFirmwareConfig := mFirmwareConfig d; mFramebuffer := mFramebuffer d;
     mColorLUT := mColorLUT d; mPending := mPending d;
     mNumFramesPending := v;
     mFrameWaitingForSubmit := mFrameWaitingForSubmit d;
     usbOut := usbOut d; clog := clog d |}.

Definition set_mFrameWaitingForSubmit (v : bool) (d : FCDevice) : FCDevice :=
  {| mVerbose := mVerbose d; mConfigMap := mConfigMap d;
     mFirmwareConfig := mFirmwareConfig d; mFramebuffer := mFramebuffer d;
     mColorLUT := mColorLUT d; mPending := mPending d;
     mNumFramesPending := mNumFramesPending d;
     mFrameWaitingForSubmit := v;
     usbOut := usbOut d; clog := clog d |}.

Definition set_usbOut (v : list (PacketType * Payload)) (d : FCDevice) : FCDevice :=
  {| mVerbose := mVerbose d; mConfigMap := mConfigMap d;
     mFirmwareConfig := mFirmwareConfig d; mFramebuffer := mFramebuffer d;
     mColorLUT := mColorLUT d; mPending := mPending d;
     mNumFramesPending := mNumFramesPending d;
     mFrameWaitingForSubmit := mFrameWaitingForSubmit d;
     usbOut := v; clog := clog d |}.

Definition set_clog (v : list Diag) (d : FCDevice) : FCDevice :=
  {| mVerbose := mVerbose d; mConfigMap := mConfigMap d;
     mFirmwareConfig := mFirmwareConfig d; mFramebuffer := mFramebuffer d;
     mColorLUT := mColorLUT d; mPending := mPending d;
     mNumFramesPending := mNumFramesPending d;
     mFrameWaitingForSubmit := mFrameWaitingForSubmit d;
     usbOut := usbOut d; clog := v |}.

(** [std::clog << ...] *)
Definition log (m : Diag) (d : FCDevice) : FCDevice :=
  set_clog (clog d ++ [m]) d.

(** [if (mVerbose) std::clog << ...] *)
Definition log_verbose (m : Diag) (d : FCDevice) : FCDevice :=
  if mVerbose d then log m d else d.

(** ** Checked memory accesses of the pixel copy *)

(** [inPtr[j]]: a byte of the message payload. *)
Definition read_byte (src : list Z) (off : Z) : option Z :=
  if 0 <=? off then src !! Z.to_nat off else None.

(** The three stores through [fbPixel(outIndex)]. *)
Definition store_pixel (fb : list Pixel) (outIndex : Z) (px : Pixel)
  : option (list Pixel) :=
  if (0 <=? outIndex) && (outIndex <? Z.of_nat (length fb))
  then Some (<[Z.to_nat outIndex := px]> fb)
  else None.

(** The loop [while (count--) { ... }] of [opcMapPixelColors]; [inPtr] is the
    offset of the read pointer from [msg.data]. *)
Fixpoint copy_pixels (count : nat) (src : list Z) (inPtr outIndex : Z)
    (fb : list Pixel) : option (list Pixel) :=
  match count with
  | O => Some fb
  | S count' =>
      r ← read_byte src inPtr;
      g ← read_byte src (inPtr + 1);
      b ← read_byte src (inPtr + 2);
      fb' ← store_pixel fb outIndex (r, g, b);
      copy_pixels count' src (inPtr + 3) (u32 (outIndex + 1)) fb'
  end.

(** ** The colour curve of [writeColorCorrection] *)

(** [pow] of math.h on the reals.  [None] is a result that is not a finite
    number: an infinity ([pow(0, y)] for negative [y]) or a NaN (a negative
    base with an exponent that is not an integer). *)
Definition pow (x y : R) : option R :=
  if Rlt_dec 0 x then Some (Rpower x y)
  else if Req_dec_T x 0 then
    if Rlt_dec 0 y then Some 0%R
    else if Req_dec_T y 0 then Some 1%R
    else None
  else
    if Req_dec_T y (IZR (Int_part y)) then
      Some (if Z.even (Int_part y) then Rpower (- x) y
            else (- Rpower (- x) y)%R)
    else None.

(** [a / b] on doubles, finite exactly when the divisor is not zero. *)
Definition fdiv (a b : R) : option R :=
  if Req_dec_T b 0 then None else Some (a / b)%R.

(** Conversion of a [double] to an integral type truncates toward zero. *)
Definition truncate (v : R) : Z :=
  if Rle_dec 0 v then Int_part v else - Int_part (- v).

(** The implicit conversion to [int64_t]: undefined when the truncated value
    is not representable. *)
Definition to_int64 (v : R) : option Z :=
  let z := truncate v in
  if (- 2 ^ 63 <=? z) && (z <? 2 ^ 63) then Some z else None.

Record ColorParams : Type := {
  gamma : R;
  whitepoint : R * R * R;
  linearSlope : R;
  linearCutoff : R
}.

(** [whitepoint[channel]] *)
Definition whitepoint_at (p : ColorParams) (channel : Z) : R :=
  let '(w0, w1, w2) := whitepoint p in
  if channel =? 0 then w0 else if channel =? 1 then w1 else w2.

(** [double input = (entry << 8) / 65535.0; input *= whitepoint[channel];] *)
Definition lut_input (p : ColorParams) (channel entry : Z) : R :=
  (IZR (u32 (Z.shiftl entry 8)) / 65535 * whitepoint_at p channel)%R.

(** The branch taken while the entry is in the linear section. *)
Definition linear_output (p : ColorParams) (input : R) : R :=
  (input * linearSlope p)%R.

(** The other branch. *)
Definition nonlinear_output (p : ColorParams) (input : R) : option R :=
  let nonlinearInput := (input - linearSlope p * linearCutoff p)%R in
  let scale := (1 - linearCutoff p)%R in
  q ← fdiv nonlinearInput scale;
  w ← pow q (gamma p);
  Some (linearCutoff p + w * scale)%R.

Definition curve_output (p : ColorParams) (input : R) : option R :=
  if Rle_dec (input * linearSlope p) (linearCutoff p)
  then Some (linear_output p input)
  else nonlinear_output p input.

(** What the rounding and clamping statements make of one [output]. *)
Inductive Quantized : Type :=
| Stored (intValue : Z)
| ConversionOverflow
| NotFinite.

(** [int64_t longValue = (output * 0xFFFF) + 0.5;]
    [int intValue = std::max<int64_t>(0, std::min<int64_t>(0xFFFF, longValue));] *)
Definition quantize (output : option R) : Quantized :=
  match output with
  | None => NotFinite
  | Some output =>
      match to_int64 (output * 65535 + 0.5)%R with
      | Some longValue => Stored (Z.max 0 (Z.min 65535 longValue))
      | None => ConversionOverflow
      end
  end.

Definition lut_entry (p : ColorParams) (channel entry : Z) : Quantized :=
  quantize (curve_output p (lut_input p channel entry)).

(** The two bytes of an entry, low byte first. *)
Definition entry_bytes (intValue : Z) : Z * Z :=
  (u8 intValue, u8 (Z.shiftr intValue 8)).

Section Device.

(** Constants of fcdevice.h and opc.h, which are not part of the sources. *)
Variable NUM_PIXELS : Z.
Variable MAX_FRAMES_PENDING : Z.
Variable LUT_ENTRIES : Z.
Variable LUT_PACKETS : Z.
Variable sizeof_data : Z.
Variable FCSetGlobalColorCorrection : Z.
Variable FCSetFirmwareConfiguration : Z.
Variable CFLAG_NO_ACTIVITY_LED : Z.
Variable CFLAG_LED_CONTROL : Z.

(** A constant of libusb.h. *)
Variable LIBUSB_ERROR_PIPE : Z.

(** [operator new]: the address of the next [Transfer], given the addresses
    in use.  The live transfers are those of [mPending]: a transfer leaves
    the set only when it is deleted. *)
Variable alloc : gset positive -> positive.

(** [rapidjson::Document::ParseInsitu] on the bytes of the text. *)
Inductive ParseResult : Type :=
| ParseOk (doc : Value)
| ParseError (offset : Z) (err : string).

Variable ParseInsitu : list Z -> ParseResult.

(** ** Pixel mapping *)

(** The four clamps of [opcMapPixelColors], every intermediate result taken
    as the 32-bit unsigned value the C++ expression has. *)
Definition clampMapping (msgPixelCount firstOPC firstOut count : Z)
  : Z * Z * Z :=
  let firstOPC := Z.min firstOPC msgPixelCount in
  let firstOut := Z.min firstOut (u32 NUM_PIXELS) in
  let count := Z.min count (u32 (msgPixelCount - firstOPC)) in
  let count := Z.min count (u32 (NUM_PIXELS - firstOut)) in
  (firstOPC, firstOut, count).

Definition opcMapPixelColors (msg : Message) (inst : Value) (d : FCDevice)
  : option FCDevice :=
  let msgPixelCount := u32 (msg_length msg / 3) in
  if IsArray inst && (Size inst =? 4) then
    let vChannel := at_ inst 0 in
    let vFirstOPC := at_ inst 1 in
    let vFirstOut := at_ inst 2 in
    let vCount := at_ inst 3 in
    if IsUint vChannel && IsUint vFirstOPC && IsUint vFirstOut && IsUint vCount
    then
      if negb (GetUint vChannel =? channel msg) then Some d
      else
        let '(firstOPC, firstOut, count) :=
          clampMapping msgPixelCount (GetUint vFirstOPC) (GetUint vFirstOut)
                       (GetUint vCount) in
        fb ← copy_pixels (Z.to_nat count) (data msg) (u32 (firstOPC * 3))
                         firstOut (mFramebuffer d);
        Some (set_mFramebuffer fb d)
    else Some (log_verbose UnsupportedMappingInstruction d)
  else Some (log_verbose UnsupportedMappingInstruction d).

(** The loop of [opcSetPixelColors] over the elements of the map. *)
Fixpoint map_instructions (msg : Message) (insts : list Value) (d : FCDevice)
  : option FCDevice :=
  match insts with
  | [] => Some d
  | inst :: insts' =>
      d' ← opcMapPixelColors msg inst d;
      map_instructions msg insts' d'
  end.

(** A null [mConfigMap] is [None].  The loop calls [map.Size()] and
    [map[i]] with no test of [map.IsArray()]: for a bound map that is not an
    array the source defines no behaviour, and neither does the model. *)
Definition opcSetPixelColors (msg : Message) (d : FCDevice) : option FCDevice :=
  match mConfigMap d with
  | None => Some d
  | Some map =>
      match map with
      | Array insts => map_instructions msg insts d
      | _ => None
      end
  end.

(** ** Transfer manager *)

(** What libusb copies out of the buffer of a transfer it accepts. *)
Definition snapshot (b : Buffer) (d : FCDevice) : Payload :=
  match b with
  | BufFirmwareConfig => FirmwareConfigData (mFirmwareConfig d)
  | BufColorLUT => ColorLUTData (mColorLUT d)
  | BufFramebuffer => FramebufferData (mFramebuffer d)
  end.

(** [new Transfer(this, buffer, length, type)] *)
Definition new_Transfer (b : Buffer) (ty : PacketType) (d : FCDevice)
  : positive * Transfer :=
  (alloc (dom (mPending d)),
   {| buffer := b; type := ty; finished := false |}).

(** [r] is the value of [libusb_submit_transfer(fct->transfer)]. *)
Definition submitTransfer (r : Z) (fct : positive * Transfer) (d : FCDevice)
  : bool * FCDevice :=
  if r <? 0 then
    (false,
     if mVerbose d && negb (r =? LIBUSB_ERROR_PIPE)
     then log (ErrorSubmittingTransfer r) d
     else d)
  else
    (true,
     set_mPending (<[fct.1 := fct.2]> (mPending d))
       (set_usbOut (usbOut d ++ [(type fct.2, snapshot (buffer fct.2) d)]) d)).

(** The completion callback libusb runs for the transfer at [fct]. *)
Definition completeTransfer (fct : positive) (d : FCDevice) : FCDevice :=
  set_mPending
    (alter (fun t => {| buffer := buffer t; type := type t; finished := true |})
           fct (mPending d))
    d.

Definition writeFramebuffer (r : Z) (d : FCDevice) : FCDevice :=
  if MAX_FRAMES_PENDING <=? mNumFramesPending d then
    set_mFrameWaitingForSubmit true d
  else
    let '(ok, d) := submitTransfer r (new_Transfer BufFramebuffer FRAME d) d in
    if ok then
      set_mNumFramesPending (mNumFramesPending d + 1)
        (set_mFrameWaitingForSubmit false d)
    else d.

(** The body of the loop of [flush] for the element [current] of the set. *)
Definition flush_erase (d : FCDevice) (current : positive * Transfer)
  : FCDevice :=
  if finished current.2 then
    let d :=
      match type current.2 with
      | FRAME => set_mNumFramesPending (mNumFramesPending d - 1) d
      | _ => d
      end in
    set_mPending (delete current.1 (mPending d)) d
  else d.

(** [r] is the status libusb returns if the pass submits a frame. *)
Definition flush (r : Z) (d : FCDevice) : FCDevice :=
  let d := foldl flush_erase d (map_to_list (mPending d)) in
  if mFrameWaitingForSubmit d && (mNumFramesPending d <? MAX_FRAMES_PENDING)
  then writeFramebuffer r d
  else d.

Definition writeFirmwareConfiguration (r : Z) (d : FCDevice) : FCDevice :=
  (submitTransfer r (new_Transfer BufFirmwareConfig OTHER d) d).2.

(** The destructor asks libusb to cancel every pending transfer and frees
    none: the result pairs the cancellation requests with the device. *)
Definition destroy (d : FCDevice) : list positive * FCDevice :=
  ((map_to_list (mPending d)).*1, d).

(** The constructor. *)
Definition FCDevice_new (verbose : bool) : FCDevice :=
  {| mVerbose := verbose;
     mConfigMap := None;
     mFirmwareConfig := replicate (Z.to_nat sizeof_data) 0;
     mFramebuffer := replicate (Z.to_nat NUM_PIXELS) (0, 0, 0);
     mColorLUT :=
       replicate (Z.to_nat LUT_PACKETS) (replicate (Z.to_nat sizeof_data) 0);
     mPending := ∅;
     mNumFramesPending := 0;
     mFrameWaitingForSubmit := false;
     usbOut := [];
     clog := [] |}.

Definition configureDevice (r : Z) (config : Value) (d : FCDevice) : FCDevice :=
  let led := member config "led" in
  let d :=
    if negb (IsTrue led || IsFalse led || IsNull led)
    then log LedConfigInvalid d else d in
  let flags :=
    Z.lor (if IsNull led then 0 else CFLAG_NO_ACTIVITY_LED)
          (if IsTrue led then CFLAG_LED_CONTROL else 0) in
  writeFirmwareConfiguration r
    (set_mFirmwareConfig (<[0%nat := u8 flags]> (mFirmwareConfig d)) d).

(** The number of transfers of type [FRAME] in the set. *)
Definition framesInFlight (pending : gmap positive Transfer) : Z :=
  Z.of_nat (size (filter (fun kv => type kv.2 = FRAME) pending)).

(** ** Colour correction *)

Definition default_params : ColorParams :=
  {| gamma := 1; whitepoint := (1, 1, 1)%R; linearSlope := 1; linearCutoff := 0 |}.

(** The JSON part of [writeColorCorrection]: the parameters, and the device
    with the diagnostics written. *)
Definition parseColor (color : Value) (d : FCDevice) : ColorParams * FCDevice :=
  if IsObject color then
    let vGamma := member color "gamma" in
    let vWhitepoint := member color "whitepoint" in
    let vLinearSlope := member color "linearSlope" in
    let vLinearCutoff := member color "linearCutoff" in
    let '(gamma_, d) :=
      if IsNumber vGamma then (GetDouble vGamma, d)
      else if negb (IsNull vGamma) && mVerbose d
           then (1%R, log GammaMustBeNumber d) else (1%R, d) in
    let '(linearSlope_, d) :=
      if IsNumber vLinearSlope then (GetDouble vLinearSlope, d)
      else if negb (IsNull vLinearSlope) && mVerbose d
           then (1%R, log LinearSlopeMustBeNumber d) else (1%R, d) in
    let '(linearCutoff_, d) :=
      if IsNumber vLinearCutoff then (GetDouble vLinearCutoff, d)
      else if negb (IsNull vLinearCutoff) && mVerbose d
           then (0%R, log LinearCutoffMustBeNumber d) else (0%R, d) in
    let '(whitepoint_, d) :=
      if IsArray vWhitepoint && (Size vWhitepoint =? 3)
         && IsNumber (at_ vWhitepoint 0) && IsNumber (at_ vWhitepoint 1)
         && IsNumber (at_ vWhitepoint 2)
      then ((GetDouble (at_ vWhitepoint 0), GetDouble (at_ vWhitepoint 1),
             GetDouble (at_ vWhitepoint 2)), d)
      else if negb (IsNull vWhitepoint) && mVerbose d
           then ((1, 1, 1)%R, log WhitepointMustBeList d)
           else ((1, 1, 1)%R, d) in
    ({| gamma := gamma_; whitepoint := whitepoint_;
        linearSlope := linearSlope_; linearCutoff := linearCutoff_ |}, d)
  else if negb (IsNull color) && mVerbose d
       then (default_params, log ColorMustBeObject d)
       else (default_params, d).

(** [packet->data[byteOffset] = v] for the packet at index [packet] of
    [mColorLUT]. *)
Definition store_byte (packets : list (list Z)) (packet byteOffset v : Z)
  : option (list (list Z)) :=
  pk ← packets !! Z.to_nat packet;
  if byteOffset <? Z.of_nat (length pk)
  then Some (<[Z.to_nat packet := <[Z.to_nat byteOffset := v]> pk]> packets)
  else None.

Definition firstByteOffset : Z := 1.

(** The body of the inner loop: the state is the packets, the index of
    [packet] in [mColorLUT] and [byteOffset].  [value channel entry] stands
    for the statements that compute [intValue]; what follows them does not
    depend on how it was computed. *)
Definition lut_store_with (value : Z -> Z -> Quantized) (channel : Z)
    (st : list (list Z) * Z * Z) (entry : Z) : option (list (list Z) * Z * Z) :=
  let '(packets, packet, byteOffset) := st in
  match value channel entry with
  | Stored intValue =>
      packets ← store_byte packets packet byteOffset (entry_bytes intValue).1;
      let byteOffset := u32 (byteOffset + 1) in
      packets ← store_byte packets packet byteOffset (entry_bytes intValue).2;
      let byteOffset := u32 (byteOffset + 1) in
      if sizeof_data <=? byteOffset
      then Some (packets, packet + 1, firstByteOffset)
      else Some (packets, packet, byteOffset)
  | _ => None
  end.

Fixpoint lut_loop {A : Type} (body : A -> Z -> option A) (st : A)
    (indices : list Z) : option A :=
  match indices with
  | [] => Some st
  | i :: indices' => st' ← body st i; lut_loop body st' indices'
  end.

(** [for (channel = 0; channel < 3; channel++)]
    [for (entry = 0; entry < LUT_ENTRIES; entry++)] *)
Definition fill_lut_with (value : Z -> Z -> Quantized)
    (packets : list (list Z)) : option (list (list Z)) :=
  st ← lut_loop
         (fun st channel =>
            lut_loop (lut_store_with value channel) st
                     (Z.of_nat <$> seq 0 (Z.to_nat LUT_ENTRIES)))
         (packets, 0, firstByteOffset) [0; 1; 2];
  Some st.1.1.

(** The loops with [intValue] computed from the parameters [p]. *)
Definition fill_lut (p : ColorParams) (packets : list (list Z))
  : option (list (list Z)) :=
  fill_lut_with (lut_entry p) packets.

Definition writeColorCorrection (r : Z) (color : Value) (d : FCDevice)
  : option FCDevice :=
  let '(p, d) := parseColor color d in
  packets ← fill_lut p (mColorLUT d);
  let d := set_mColorLUT packets d in
  Some (submitTransfer r (new_Transfer BufColorLUT OTHER d) d).2.

(** ** OPC dispatch *)

(** Modelled from the spec: the command codes of opc.h, 0 for
    set-pixel-colors and 0xFF for system-exclusive. *)
Definition SetPixelColors : Z := 0.
Definition SystemExclusive : Z := 255.

Definition opcSetGlobalColorCorrection (r : Z) (msg : Message) (d : FCDevice)
  : option FCDevice :=
  let text := drop 4 (data msg) in
  match ParseInsitu text with
  | ParseError offset err => Some (log_verbose (ColorParseError offset err) d)
  | ParseOk doc => writeColorCorrection r doc d
  end.

Definition opcSetFirmwareConfiguration (r : Z) (msg : Message) (d : FCDevice)
  : FCDevice :=
  let n := Z.to_nat (Z.min sizeof_data (msg_length msg - 4)) in
  writeFirmwareConfiguration r
    (set_mFirmwareConfig
       (take n (drop 4 (data msg)) ++ drop n (mFirmwareConfig d)) d).

(** The big-endian extension identifier in the first four payload bytes. *)
Definition sysex_id (msg : Message) : Z :=
  let byte i := nth i (data msg) 0 in
  Z.lor (Z.lor (Z.lor (u32 (Z.shiftl (byte 0%nat) 24))
                      (u32 (Z.shiftl (byte 1%nat) 16)))
               (u32 (Z.shiftl (byte 2%nat) 8)))
        (byte 3%nat).

Definition opcSysEx (r : Z) (msg : Message) (d : FCDevice) : option FCDevice :=
  if msg_length msg <? 4 then Some (log_verbose SysExTooShort d)
  else
    let id := sysex_id msg in
    if id =? FCSetGlobalColorCorrection then opcSetGlobalColorCorrection r msg d
    else if id =? FCSetFirmwareConfiguration
         then Some (opcSetFirmwareConfiguration r msg d)
         else Some d.

Definition writeMessage (r : Z) (msg : Message) (d : FCDevice)
  : option FCDevice :=
  if command msg =? SetPixelColors then
    d ← opcSetPixelColors msg d;
    Some (writeFramebuffer r d)
  else if command msg =? SystemExclusive then opcSysEx r msg d
  else Some (log_verbose (UnsupportedCommand (command msg)) d).

(** ** Notions used to state the properties *)

(** The invariant of the frame counter. *)
Definition frames_consistent (d : FCDevice) : Prop :=
  mNumFramesPending d = framesInFlight (mPending d)
  /\ 0 <= mNumFramesPending d <= MAX_FRAMES_PENDING.

(** No transfer of the set has completed. *)
Definition none_finished (d : FCDevice) : Prop :=
  forall fct t, mPending d !! fct = Some t -> finished t = false.

(** What the loop of [flush] leaves of the set. *)
Definition erase_finished (pending : gmap positive Transfer)
    (current : positive * Transfer) : gmap positive Transfer :=
  if finished current.2 then delete current.1 pending else pending.

Definition is_finished_frame (current : positive * Transfer) : bool :=
  finished current.2 && bool_decide (type current.2 = FRAME).

(** The number of completed frame transfers among [l]. *)
Definition finished_frames (l : list (positive * Transfer)) : Z :=
  Z.of_nat (length (List.filter is_finished_frame l)).

(** The operations a session goes through.  [OpBindMap] is the assignment
    to [mConfigMap] made by [matchConfiguration]. *)
Inductive Op : Type :=
| OpWriteMessage (r : Z) (msg : Message)
| OpWriteFramebuffer (r : Z)
| OpWriteColorCorrection (r : Z) (color : Value)
| OpWriteFirmwareConfiguration (r : Z)
| OpConfigureDevice (r : Z) (config : Value)
| OpBindMap (map : option Value)
| OpCompleteTransfer (fct : positive)
| OpFlush (r : Z)
| OpDestroy.

Definition step (op : Op) (d : FCDevice) : option FCDevice :=
  match op with
  | OpWriteMessage r msg => writeMessage r msg d
  | OpWriteFramebuffer r => Some (writeFramebuffer r d)
  | OpWriteColorCorrection r color => writeColorCorrection r color d
  | OpWriteFirmwareConfiguration r => Some (writeFirmwareConfiguration r d)
  | OpConfigureDevice r config => Some (configureDevice r config d)
  | OpBindMap map => Some (set_mConfigMap map d)
  | OpCompleteTransfer fct => Some (completeTransfer fct d)
  | OpFlush r => Some (flush r d)
  | OpDestroy => Some (destroy d).2
  end.

Fixpoint run (ops : list Op) (d : FCDevice) : option FCDevice :=
  match ops with
  | [] => Some d
  | op :: ops' => d' ← step op d; run ops' d'
  end.

(** A client that draws the frames [frames] one after the other: each frame
    is put in the framebuffer and [writeFramebuffer] is called, libusb
    answering [r] to the submission if there is one. *)
Definition draw_frames (frames : list (list Pixel * Z)) (d : FCDevice)
  : FCDevice :=
  foldl (fun d f => writeFramebuffer f.2 (set_mFramebuffer f.1 d)) d frames.

(** Reap passes and completions, the operations libusb drives. *)
Definition is_reap (op : Op) : Prop :=
  match op with
  | OpCompleteTransfer _ | OpFlush _ => True
  | _ => False
  end.

(** The device with its diagnostics forgotten. *)
Definition forget_clog (d : FCDevice) : FCDevice := set_clog [] d.

(** Completions delivered in turn for the transfers at [done]. *)
Definition complete_all (done : list positive) (d : FCDevice) : FCDevice :=
  foldl (fun d fct => completeTransfer fct d) d done.




(** The RGB triple number [i] of a payload. *)
Definition source_pixel (src : list Z) (i : Z) : option Pixel :=
  r ← read_byte src (3 * i);
  g ← read_byte src (3 * i + 1);
  b ← read_byte src (3 * i + 2);
  Some (r, g, b).



(** Everything of the device but the framebuffer and the log. *)
Definition forget_pixels (d : FCDevice) : FCDevice :=
  set_mFramebuffer [] (set_clog [] d).

(** The four bytes of a 32-bit identifier, most significant first. *)
Definition be32 (id : Z) : list Z :=
  [id / 2 ^ 24 mod 256; id / 2 ^ 16 mod 256; id / 2 ^ 8 mod 256; id mod 256].

(** [packets[packet].data[byteOffset]] *)
Definition lut_byte (packets : list (list Z)) (packet byteOffset : Z)
  : option Z :=
  pk ← packets !! Z.to_nat packet; pk !! Z.to_nat byteOffset.

(** The loops have gone through the first [k] entries of the table, [E] of
    them to a packet: where the loop state stands, where the entries written
    are, and that every other byte is as in [packets0]. *)
Definition lut_filled (E : Z) (value : Z -> Z -> Quantized)
    (packets0 : list (list Z)) (k : Z) (st : list (list Z) * Z * Z) : Prop :=
  let '(packets, packet, byteOffset) := st in
  (exists m, 0 <= m < E /\ 0 <= packet /\ k = packet * E + m
             /\ byteOffset = 1 + 2 * m)
  /\ length packets = length packets0
  /\ Forall (fun pk => Z.of_nat (length pk) = sizeof_data) packets
  /\ (forall ch e i s v,
        0 <= e < LUT_ENTRIES -> 0 <= s < E -> 0 <= i ->
        ch * LUT_ENTRIES + e = i * E + s -> i * E + s < k ->
        value ch e = Stored v ->
        lut_byte packets i (1 + 2 * s) = Some (entry_bytes v).1
        /\ lut_byte packets i (2 + 2 * s) = Some (entry_bytes v).2)
  /\ (forall i o, 0 <= i -> 0 <= o ->
        (o = 0 \/ exists s, 0 <= s /\ (o = 1 + 2 * s \/ o = 2 + 2 * s)
                            /\ k <= i * E + s) ->
        lut_byte packets i o = lut_byte packets0 i o).

(** From [d] to [d'] the verbosity is kept, and nothing is written to the
    log if it is off. *)
Definition quiet (d d' : FCDevice) : Prop :=
  mVerbose d' = mVerbose d /\ (mVerbose d = false -> clog d' = clog d).

(** * Properties *)

(** Two devices built by the setters are compared field by field. *)
Ltac unfold_setters :=
  unfold log_verbose, log, set_clog, set_usbOut, set_mFrameWaitingForSubmit,
    set_mNumFramesPending, set_mPending, set_mColorLUT, set_mFramebuffer,
    set_mFirmwareConfig, set_mConfigMap in *;
  cbn [mVerbose mConfigMap mFirmwareConfig mFramebuffer mColorLUT mPending
       mNumFramesPending mFrameWaitingForSubmit usbOut clog] in *.

Ltac device_eq d :=
  destruct d; unfold_setters; f_equal; try lia.

(** ** Machine integers *)

Lemma u32_small z : 0 <= z < 2 ^ 32 -> u32 z = z.
Proof. intros H. unfold u32. now apply Z.mod_small. Qed.

Lemma u32_range z : 0 <= u32 z < 2 ^ 32.
Proof. unfold u32. apply Z.mod_pos_bound. lia. Qed.

(** ** Pixel mapping *)

Example copy_pixels_faults_on_short_source :
  copy_pixels 1 [1; 2] 0 0 [(0, 0, 0)] = None.
Proof. reflexivity. Qed.

Example copy_pixels_faults_past_framebuffer :
  copy_pixels 1 [1; 2; 3] 0 1 [(0, 0, 0)] = None.
Proof. reflexivity. Qed.

Lemma read_byte_in_bounds (src : list Z) off :
  0 <= off < Z.of_nat (length src) -> is_Some (read_byte src off).
Proof.
  intros H. unfold read_byte.
  destruct (Z.leb_spec 0 off); [|lia].
  apply lookup_lt_is_Some. lia.
Qed.

Lemma store_pixel_in_bounds (fb : list Pixel) i px :
  0 <= i < Z.of_nat (length fb) ->
  store_pixel fb i px = Some (<[Z.to_nat i := px]> fb).
Proof.
  intros H. unfold store_pixel.
  destruct (Z.leb_spec 0 i); [|lia].
  destruct (Z.ltb_spec i (Z.of_nat (length fb))); [|lia].
  reflexivity.
Qed.

(** The copy loop runs to completion, and keeps the size of the framebuffer,
    whenever the ranges it is asked to touch lie inside the two buffers. *)
Lemma copy_pixels_in_bounds (count : nat) (src : list Z) :
  forall inPtr outIndex (fb : list Pixel),
    0 <= inPtr ->
    inPtr + 3 * Z.of_nat count <= Z.of_nat (length src) ->
    0 <= outIndex ->
    outIndex + Z.of_nat count <= Z.of_nat (length fb) ->
    Z.of_nat (length fb) < 2 ^ 32 ->
    exists fb', copy_pixels count src inPtr outIndex fb = Some fb'
                /\ length fb' = length fb.
Proof.
  induction count as [|count IH]; intros inPtr outIndex fb Hin Hsrc Hout Hdst Hfb.
  - exists fb. split; reflexivity.
  - cbn [copy_pixels].
    destruct (read_byte_in_bounds src inPtr) as [r ->]; [lia|].
    destruct (read_byte_in_bounds src (inPtr + 1)) as [g ->]; [lia|].
    destruct (read_byte_in_bounds src (inPtr + 2)) as [b ->]; [lia|].
    cbn [mbind option_bind].
    rewrite store_pixel_in_bounds by lia.
    cbn [mbind option_bind].
    rewrite u32_small by lia.
    destruct (IH (inPtr + 3) (outIndex + 1) (<[Z.to_nat outIndex := (r, g, b)]> fb))
      as (fb' & Hcopy & Hlen); rewrite ?length_insert; try lia.
    exists fb'. split; [exact Hcopy|].
    rewrite Hlen. apply length_insert.
Qed.

(** Conversely, a copy that completes stayed inside the two buffers: the
    checked accesses fail as soon as one of them leaves its buffer. *)
Lemma copy_pixels_Some_bounds (count : nat) (src : list Z) :
  forall inPtr outIndex (fb fb' : list Pixel),
    0 <= inPtr -> 0 <= outIndex ->
    outIndex + Z.of_nat count <= 2 ^ 32 ->
    copy_pixels count src inPtr outIndex fb = Some fb' ->
    (0 < count)%nat ->
    inPtr + 3 * Z.of_nat count <= Z.of_nat (length src)
    /\ outIndex + Z.of_nat count <= Z.of_nat (length fb).
Proof.
  induction count as [|count IH]; intros inPtr outIndex fb fb' Hin Hout Hwrap Hcopy Hpos.
  - lia.
  - cbn [copy_pixels] in Hcopy.
    destruct (read_byte src inPtr) as [r|]; [|discriminate].
    destruct (read_byte src (inPtr + 1)) as [g|]; [|discriminate].
    destruct (read_byte src (inPtr + 2)) as [b|] eqn:Hb; [|discriminate].
    cbn [mbind option_bind] in Hcopy.
    unfold store_pixel in Hcopy.
    destruct (Z.leb_spec 0 outIndex); [|lia].
    destruct (Z.ltb_spec outIndex (Z.of_nat (length fb))) as [Hlt|];
      [|discriminate].
    cbn [andb mbind option_bind] in Hcopy.
    unfold read_byte in Hb.
    destruct (Z.leb_spec 0 (inPtr + 2)); [|discriminate].
    apply lookup_lt_Some in Hb.
    destruct count as [|count'].
    + lia.
    + rewrite u32_small in Hcopy by lia.
      apply IH in Hcopy; [|lia..].
      rewrite length_insert in Hcopy. lia.
Qed.

Lemma IsUint_Int z : 0 <= z < 2 ^ 32 -> IsUint (Int z) = true.
Proof.
  intros H. unfold IsUint. apply andb_true_intro.
  split; [apply Z.leb_le | apply Z.ltb_lt]; lia.
Qed.

(** [opcMapPixelColors] on an instruction of the recognised shape. *)
Lemma opcMapPixelColors_rule (msg : Message) (d : FCDevice)
    (ch firstOPC firstOut count : Z) :
  IsUint (Int ch) = true -> IsUint (Int firstOPC) = true ->
  IsUint (Int firstOut) = true -> IsUint (Int count) = true ->
  opcMapPixelColors msg (Array [Int ch; Int firstOPC; Int firstOut; Int count]) d =
    if negb (ch =? channel msg) then Some d
    else
      let '(o, t, c) :=
        clampMapping (u32 (msg_length msg / 3)) firstOPC firstOut count in
      fb ← copy_pixels (Z.to_nat c) (data msg) (u32 (o * 3)) t (mFramebuffer d);
      Some (set_mFramebuffer fb d).
Proof.
  intros H1 H2 H3 H4. unfold opcMapPixelColors.
  change (at_ (Array [Int ch; Int firstOPC; Int firstOut; Int count]) 0)
    with (Int ch).
  change (at_ (Array [Int ch; Int firstOPC; Int firstOut; Int count]) 1)
    with (Int firstOPC).
  change (at_ (Array [Int ch; Int firstOPC; Int firstOut; Int count]) 2)
    with (Int firstOut).
  change (at_ (Array [Int ch; Int firstOPC; Int firstOut; Int count]) 3)
    with (Int count).
  rewrite H1, H2, H3, H4. reflexivity.
Qed.

(** ** The frame counter *)

Lemma framesInFlight_empty : framesInFlight ∅ = 0.
Proof. unfold framesInFlight. now rewrite map_filter_empty, map_size_empty. Qed.

Lemma framesInFlight_nonneg (pending : gmap positive Transfer) :
  0 <= framesInFlight pending.
Proof. unfold framesInFlight. lia. Qed.

Lemma framesInFlight_insert (pending : gmap positive Transfer) fct t :
  pending !! fct = None ->
  framesInFlight (<[fct := t]> pending) =
    framesInFlight pending + (if decide (type t = FRAME) then 1 else 0).
Proof.
  intros Hfree. unfold framesInFlight.
  rewrite map_filter_insert. cbn [snd].
  destruct (decide (type t = FRAME)).
  - rewrite map_size_insert_None; [lia|].
    apply map_lookup_filter_None. now left.
  - rewrite delete_id by exact Hfree. lia.
Qed.

Lemma framesInFlight_delete (pending : gmap positive Transfer) fct t :
  pending !! fct = Some t ->
  framesInFlight (delete fct pending) =
    framesInFlight pending - (if decide (type t = FRAME) then 1 else 0).
Proof.
  intros Hin. unfold framesInFlight.
  rewrite map_filter_delete, map_size_delete.
  destruct (decide (type t = FRAME)) as [Hty|Hty].
  - assert (Hf : filter (fun kv : positive * Transfer => type kv.2 = FRAME)
                   pending !! fct = Some t).
    { apply map_lookup_filter_Some. now split. }
    rewrite Hf.
    assert (size (filter (fun kv : positive * Transfer => type kv.2 = FRAME)
                    pending) <> 0%nat).
    { intros Hz. apply map_size_empty_inv in Hz. rewrite Hz in Hf.
      now rewrite lookup_empty in Hf. }
    lia.
  - assert (Hf : filter (fun kv : positive * Transfer => type kv.2 = FRAME)
                   pending !! fct = None).
    { apply map_lookup_filter_None. right. intros x Hx.
      rewrite Hin in Hx. injection Hx as <-. exact Hty. }
    rewrite Hf. cbn. lia.
Qed.

Lemma framesInFlight_alter (pending : gmap positive Transfer) fct f :
  (forall t, type (f t) = type t) ->
  framesInFlight (alter f fct pending) = framesInFlight pending.
Proof.
  intros Hf. rewrite alter_alt.
  destruct (pending !! fct) as [t|] eqn:Hin; [|reflexivity].
  rewrite <- (insert_delete_eq pending fct (f t)).
  rewrite framesInFlight_insert by apply lookup_delete_eq.
  rewrite (framesInFlight_delete pending fct t Hin), Hf. lia.
Qed.

(** ** [submitTransfer] *)

Lemma submitTransfer_fails r fct d :
  r < 0 ->
  submitTransfer r fct d =
    (false, if mVerbose d && negb (r =? LIBUSB_ERROR_PIPE)
            then log (ErrorSubmittingTransfer r) d else d).
Proof.
  intros Hr. unfold submitTransfer.
  destruct (Z.ltb_spec r 0); [reflexivity | lia].
Qed.

Lemma submitTransfer_succeeds r fct d :
  0 <= r ->
  submitTransfer r fct d =
    (true,
     set_mPending (<[fct.1 := fct.2]> (mPending d))
       (set_usbOut (usbOut d ++ [(type fct.2, snapshot (buffer fct.2) d)]) d)).
Proof.
  intros Hr. unfold submitTransfer.
  destruct (Z.ltb_spec r 0); [lia | reflexivity].
Qed.

(** A failed submission changes nothing but the log. *)
Lemma submitTransfer_fails_state r fct d :
  r < 0 -> set_clog (clog d) (submitTransfer r fct d).2 = d.
Proof.
  intros Hr. rewrite submitTransfer_fails by exact Hr. cbn [snd].
  destruct (mVerbose d && negb (r =? LIBUSB_ERROR_PIPE)); now destruct d.
Qed.

Lemma submitTransfer_counter r fct d :
  mNumFramesPending (submitTransfer r fct d).2 = mNumFramesPending d.
Proof.
  unfold submitTransfer. destruct (r <? 0); cbn [snd]; [|reflexivity].
  now destruct (mVerbose d && negb (r =? LIBUSB_ERROR_PIPE)).
Qed.

(** ** [writeFramebuffer] *)

Lemma writeFramebuffer_at_cap r d :
  MAX_FRAMES_PENDING <= mNumFramesPending d ->
  writeFramebuffer r d = set_mFrameWaitingForSubmit true d.
Proof.
  intros Hcap. unfold writeFramebuffer.
  destruct (Z.leb_spec MAX_FRAMES_PENDING (mNumFramesPending d)); [reflexivity | lia].
Qed.

Lemma writeFramebuffer_submits r d :
  mNumFramesPending d < MAX_FRAMES_PENDING -> 0 <= r ->
  writeFramebuffer r d =
    set_mNumFramesPending (mNumFramesPending d + 1)
      (set_mFrameWaitingForSubmit false
         (set_mPending
            (<[alloc (dom (mPending d)) :=
                 {| buffer := BufFramebuffer; type := FRAME; finished := false |}]>
               (mPending d))
            (set_usbOut
               (usbOut d ++ [(FRAME, FramebufferData (mFramebuffer d))]) d))).
Proof.
  intros Hcap Hr. unfold writeFramebuffer.
  destruct (Z.leb_spec MAX_FRAMES_PENDING (mNumFramesPending d)); [lia|].
  rewrite submitTransfer_succeeds by exact Hr. reflexivity.
Qed.

Lemma writeFramebuffer_fails r d :
  mNumFramesPending d < MAX_FRAMES_PENDING -> r < 0 ->
  writeFramebuffer r d =
    if mVerbose d && negb (r =? LIBUSB_ERROR_PIPE)
    then log (ErrorSubmittingTransfer r) d else d.
Proof.
  intros Hcap Hr. unfold writeFramebuffer.
  destruct (Z.leb_spec MAX_FRAMES_PENDING (mNumFramesPending d)); [lia|].
  rewrite submitTransfer_fails by exact Hr. reflexivity.
Qed.

Lemma writeFramebuffer_framebuffer r d :
  mFramebuffer (writeFramebuffer r d) = mFramebuffer d.
Proof.
  unfold writeFramebuffer, submitTransfer.
  destruct (MAX_FRAMES_PENDING <=? mNumFramesPending d); [reflexivity|].
  destruct (r <? 0); [|reflexivity].
  now destruct (mVerbose d && negb (r =? LIBUSB_ERROR_PIPE)).
Qed.

(** ** [flush] *)

Lemma flush_erase_eq d current :
  flush_erase d current =
    set_mNumFramesPending
      (mNumFramesPending d - finished_frames [current])
      (set_mPending (erase_finished (mPending d) current) d).
Proof.
  unfold flush_erase, erase_finished, finished_frames, is_finished_frame.
  cbn [List.filter].
  destruct (finished current.2); cbn [andb].
  - destruct (type current.2).
    + rewrite bool_decide_eq_false_2 by discriminate.
      cbn [length]. device_eq d.
    + rewrite bool_decide_eq_true_2 by reflexivity.
      cbn [length]. device_eq d.
  - cbn [length]. device_eq d.
Qed.

Lemma finished_frames_cons current l :
  finished_frames (current :: l) = finished_frames [current] + finished_frames l.
Proof.
  unfold finished_frames. cbn [List.filter].
  destruct (is_finished_frame current); cbn [length]; lia.
Qed.

Lemma finished_frames_nonneg l : 0 <= finished_frames l.
Proof. unfold finished_frames. lia. Qed.

(** The loop of [flush] over the elements [l]: only the set and the counter
    change. *)
Lemma flush_loop_eq l : forall d,
  foldl flush_erase d l =
    set_mNumFramesPending (mNumFramesPending d - finished_frames l)
      (set_mPending (foldl erase_finished (mPending d) l) d).
Proof.
  induction l as [|current l IH]; intros d.
  - unfold finished_frames. cbn [foldl List.filter length]. device_eq d.
  - cbn [foldl]. rewrite IH, flush_erase_eq.
    rewrite (finished_frames_cons current l).
    device_eq d.
Qed.

Lemma erase_finished_lookup_other l : forall (pending : gmap positive Transfer) fct,
  fct ∉ l.*1 ->
  foldl erase_finished pending l !! fct = pending !! fct.
Proof.
  induction l as [|[a t] l IH]; intros pending fct Hnotin; [reflexivity|].
  cbn [foldl]. rewrite fmap_cons in Hnotin. cbn in Hnotin.
  apply not_elem_of_cons in Hnotin as [Hne Hnotin].
  rewrite IH by exact Hnotin.
  unfold erase_finished. cbn [fst snd].
  destruct (finished t); [|reflexivity].
  now apply lookup_delete_ne.
Qed.

(** Erasing the completed transfers among distinct elements of the set
    lowers the number of frames in flight by the completed frames. *)
Lemma framesInFlight_erase_finished l :
  forall pending : gmap positive Transfer,
    NoDup l.*1 ->
    (forall fct t, (fct, t) ∈ l -> pending !! fct = Some t) ->
    framesInFlight (foldl erase_finished pending l) =
      framesInFlight pending - finished_frames l.
Proof.
  induction l as [|[a t] l IH]; intros pending Hnodup Hin.
  - unfold finished_frames. cbn. lia.
  - rewrite fmap_cons in Hnodup. cbn in Hnodup.
    apply NoDup_cons in Hnodup as [Hfresh Hnodup].
    cbn [foldl]. rewrite finished_frames_cons.
    assert (Hat : pending !! a = Some t) by (apply Hin; left).
    rewrite IH; [|exact Hnodup|].
    + unfold erase_finished at 1, finished_frames at 2, is_finished_frame.
      cbn [fst snd List.filter].
      destruct (finished t); cbn [andb].
      * rewrite (framesInFlight_delete pending a t Hat).
        destruct (decide (type t = FRAME)) as [Hty|Hty].
        -- rewrite bool_decide_eq_true_2 by exact Hty. cbn. lia.
        -- rewrite bool_decide_eq_false_2 by exact Hty. cbn. lia.
      * cbn. lia.
    + intros fct t' Hel.
      assert (Hne : fct <> a).
      { intros ->. apply Hfresh. apply list_elem_of_fmap.
        exists (a, t'). split; [reflexivity | exact Hel]. }
      unfold erase_finished. cbn [fst snd].
      destruct (finished t).
      * rewrite lookup_delete_ne by congruence. apply Hin. now right.
      * apply Hin. now right.
Qed.

Lemma finished_frames_none l :
  (forall current, current ∈ l -> finished current.2 = false) ->
  finished_frames l = 0 /\
  forall pending : gmap positive Transfer, foldl erase_finished pending l = pending.
Proof.
  induction l as [|current l IH]; intros Hnone.
  - split; reflexivity.
  - destruct IH as [IHn IHp]; [intros c Hc; apply Hnone; now right|].
    assert (Hc : finished current.2 = false) by (apply Hnone; left).
    split.
    + rewrite finished_frames_cons, IHn.
      unfold finished_frames, is_finished_frame. cbn [List.filter].
      now rewrite Hc.
    + intros pending. cbn [foldl]. unfold erase_finished at 2.
      rewrite Hc. apply IHp.
Qed.

Lemma finished_frames_some l current :
  current ∈ l -> finished current.2 = true -> type current.2 = FRAME ->
  0 < finished_frames l.
Proof.
  intros Hel Hfin Hty. induction l as [|c l IH]; [inversion Hel|].
  rewrite finished_frames_cons.
  apply elem_of_cons in Hel as [<-|Hel].
  - pose proof (finished_frames_nonneg l).
    unfold finished_frames at 1, is_finished_frame. cbn [List.filter].
    rewrite Hfin, bool_decide_eq_true_2 by exact Hty. cbn. lia.
  - specialize (IH Hel). pose proof (finished_frames_nonneg [c]). lia.
Qed.

Lemma pending_list_facts (d : FCDevice) :
  NoDup (map_to_list (mPending d)).*1 /\
  forall fct t, (fct, t) ∈ map_to_list (mPending d) -> mPending d !! fct = Some t.
Proof.
  split; [apply NoDup_fst_map_to_list|].
  intros fct t. apply elem_of_map_to_list.
Qed.

(** With nothing completed the loop of [flush] erases nothing. *)
Lemma flush_loop_idle d :
  none_finished d ->
  foldl flush_erase d (map_to_list (mPending d)) = d.
Proof.
  intros Hnone. rewrite flush_loop_eq.
  destruct (finished_frames_none (map_to_list (mPending d))) as [-> ->].
  - intros [fct t] Hel. apply elem_of_map_to_list in Hel.
    apply (Hnone fct t Hel).
  - device_eq d.
Qed.

(** The loop of [flush] keeps the counter equal to the frames in flight and
    never raises it. *)
Lemma flush_loop_consistent d :
  frames_consistent d ->
  frames_consistent (foldl flush_erase d (map_to_list (mPending d)))
  /\ mNumFramesPending (foldl flush_erase d (map_to_list (mPending d)))
     = mNumFramesPending d - finished_frames (map_to_list (mPending d)).
Proof.
  intros [Hn Hrange]. rewrite flush_loop_eq.
  destruct (pending_list_facts d) as [Hnodup Hin].
  pose proof (framesInFlight_erase_finished _ (mPending d) Hnodup Hin) as Hcount.
  pose proof (finished_frames_nonneg (map_to_list (mPending d))).
  pose proof (framesInFlight_nonneg
                (foldl erase_finished (mPending d) (map_to_list (mPending d)))).
  unfold frames_consistent. unfold_setters. lia.
Qed.

Lemma completeTransfer_consistent fct d :
  frames_consistent d -> frames_consistent (completeTransfer fct d).
Proof.
  intros [Hn Hrange]. unfold frames_consistent, completeTransfer.
  unfold_setters. now rewrite framesInFlight_alter.
Qed.

(** The invariant only reads the set and the counter. *)
Lemma frames_consistent_same d d' :
  mPending d' = mPending d -> mNumFramesPending d' = mNumFramesPending d ->
  frames_consistent d -> frames_consistent d'.
Proof. unfold frames_consistent. now intros -> ->. Qed.

(** C4, amended. A reap pass over a set in which no transfer has completed
    leaves the whole device unchanged when no frame is waiting below the cap;
    when a frame is waiting below the cap the pass is exactly a call of
    [writeFramebuffer]. *)
Theorem flush_idle (r : Z) (d : FCDevice) :
  none_finished d ->
  (mFrameWaitingForSubmit d = false
   \/ MAX_FRAMES_PENDING <= mNumFramesPending d ->
   flush r d = d)
  /\ (mFrameWaitingForSubmit d = true
      /\ mNumFramesPending d < MAX_FRAMES_PENDING ->
      flush r d = writeFramebuffer r d).
Proof.
  intros Hnone. unfold flush. rewrite (flush_loop_idle d Hnone).
  split.
  - intros [->|Hcap]; [reflexivity|].
    destruct (Z.ltb_spec (mNumFramesPending d) MAX_FRAMES_PENDING); [lia|].
    now rewrite andb_false_r.
  - intros [-> Hcap].
    destruct (Z.ltb_spec (mNumFramesPending d) MAX_FRAMES_PENDING); [|lia].
    reflexivity.
Qed.

(** ** A failed frame submission *)

Lemma completeTransfer_forget_clog fct d d' :
  forget_clog d = forget_clog d' ->
  forget_clog (completeTransfer fct d) = forget_clog (completeTransfer fct d').
Proof.
  unfold forget_clog, completeTransfer. intros H.
  destruct d, d'. unfold_setters. now inversion H.
Qed.

Lemma writeFramebuffer_forget_clog r d d' :
  forget_clog d = forget_clog d' ->
  forget_clog (writeFramebuffer r d) = forget_clog (writeFramebuffer r d').
Proof.
  intros H.
  assert (Hn : mNumFramesPending d = mNumFramesPending d')
    by (apply (f_equal mNumFramesPending) in H; exact H).
  assert (Hv : mVerbose d = mVerbose d')
    by (apply (f_equal mVerbose) in H; exact H).
  assert (Hp : mPending d = mPending d')
    by (apply (f_equal mPending) in H; exact H).
  assert (Hf : mFramebuffer d = mFramebuffer d')
    by (apply (f_equal mFramebuffer) in H; exact H).
  assert (Ho : usbOut d = usbOut d')
    by (apply (f_equal usbOut) in H; exact H).
  destruct (Z.le_gt_cases MAX_FRAMES_PENDING (mNumFramesPending d)) as [Hcap|Hcap].
  - rewrite !writeFramebuffer_at_cap by lia.
    unfold forget_clog in *. destruct d, d'. unfold_setters. now inversion H.
  - destruct (Z.lt_ge_cases r 0) as [Hr|Hr].
    + rewrite !writeFramebuffer_fails by lia. rewrite <- Hv.
      unfold forget_clog in *.
      destruct (mVerbose d && negb (r =? LIBUSB_ERROR_PIPE));
        destruct d, d'; unfold_setters; now inversion H.
    + rewrite !writeFramebuffer_submits by lia.
      rewrite <- Hn, <- Hp, <- Hf, <- Ho.
      unfold forget_clog in *. destruct d, d'. unfold_setters. now inversion H.
Qed.

Lemma flush_forget_clog r d d' :
  forget_clog d = forget_clog d' ->
  forget_clog (flush r d) = forget_clog (flush r d').
Proof.
  intros H. unfold flush. rewrite !flush_loop_eq.
  assert (Hp : mPending d = mPending d')
    by (apply (f_equal mPending) in H; exact H).
  assert (Hn : mNumFramesPending d = mNumFramesPending d')
    by (apply (f_equal mNumFramesPending) in H; exact H).
  rewrite <- Hp, <- Hn.
  set (n := mNumFramesPending d - finished_frames (map_to_list (mPending d))).
  set (pending := foldl erase_finished (mPending d) (map_to_list (mPending d))).
  assert (Hloop :
    forget_clog (set_mNumFramesPending n (set_mPending pending d)) =
    forget_clog (set_mNumFramesPending n (set_mPending pending d'))).
  { clearbody n pending. unfold forget_clog in *.
    destruct d, d'. unfold_setters. now inversion H. }
  assert (Hw : mFrameWaitingForSubmit
                 (set_mNumFramesPending n (set_mPending pending d)) =
               mFrameWaitingForSubmit
                 (set_mNumFramesPending n (set_mPending pending d')))
    by (apply (f_equal mFrameWaitingForSubmit) in Hloop; exact Hloop).
  assert (Hn' : mNumFramesPending
                 (set_mNumFramesPending n (set_mPending pending d)) =
               mNumFramesPending
                 (set_mNumFramesPending n (set_mPending pending d')))
    by reflexivity.
  rewrite <- Hw, <- Hn'.
  destruct (mFrameWaitingForSubmit _ && _).
  - now apply writeFramebuffer_forget_clog.
  - exact Hloop.
Qed.

Lemma run_reap_forget_clog ops : forall d d',
  Forall is_reap ops ->
  forget_clog d = forget_clog d' ->
  exists d1 d1', run ops d = Some d1 /\ run ops d' = Some d1'
                 /\ forget_clog d1 = forget_clog d1'.
Proof.
  induction ops as [|op ops IH]; intros d d' Hreap H.
  - exists d, d'. split; [reflexivity|]. split; [reflexivity | exact H].
  - apply Forall_cons in Hreap as [Hop Hreap].
    destruct op; try contradiction; cbn [run step mbind option_bind].
    + apply IH; [exact Hreap | now apply completeTransfer_forget_clog].
    + apply IH; [exact Hreap | now apply flush_forget_clog].
Qed.

(** While no frame is waiting, completions and reap passes hand nothing to
    libusb. *)
Lemma run_reap_not_waiting ops : forall d,
  Forall is_reap ops ->
  mFrameWaitingForSubmit d = false ->
  exists d1, run ops d = Some d1 /\ usbOut d1 = usbOut d
             /\ mFrameWaitingForSubmit d1 = false.
Proof.
  induction ops as [|op ops IH]; intros d Hreap Hw.
  - exists d. split; [reflexivity|]. split; [reflexivity | exact Hw].
  - apply Forall_cons in Hreap as [Hop Hreap].
    destruct op; try contradiction; cbn [run step mbind option_bind].
    + destruct (IH (completeTransfer fct d) Hreap) as (d1 & Hrun & Hout & Hw1);
        [exact Hw|].
      exists d1. split; [exact Hrun|]. split; [exact Hout | exact Hw1].
    + assert (Hflush : usbOut (flush r d) = usbOut d
                       /\ mFrameWaitingForSubmit (flush r d) = false).
      { unfold flush. rewrite flush_loop_eq. unfold_setters.
        cbn [mFrameWaitingForSubmit]. rewrite Hw. cbn [andb].
        unfold_setters. now split. }
      destruct Hflush as [Hout Hw'].
      destruct (IH (flush r d) Hreap Hw') as (d1 & Hrun & Hout1 & Hw1).
      exists d1. split; [exact Hrun|]. split; [congruence | exact Hw1].
Qed.

(** A reap pass that finds a frame waiting below the cap submits the
    framebuffer as it is at that moment. *)
Lemma flush_resubmits_below_cap r d :
  mFrameWaitingForSubmit d = true ->
  mNumFramesPending d < MAX_FRAMES_PENDING ->
  0 <= r ->
  usbOut (flush r d) = usbOut d ++ [(FRAME, FramebufferData (mFramebuffer d))]
  /\ mFrameWaitingForSubmit (flush r d) = false.
Proof.
  intros Hw Hcap Hr.
  pose proof (finished_frames_nonneg (map_to_list (mPending d))) as Hff.
  unfold flush. rewrite flush_loop_eq.
  set (n := mNumFramesPending d - finished_frames (map_to_list (mPending d))).
  set (pending := foldl erase_finished (mPending d) (map_to_list (mPending d))).
  assert (Hcond :
    mFrameWaitingForSubmit (set_mNumFramesPending n (set_mPending pending d))
    && (mNumFramesPending (set_mNumFramesPending n (set_mPending pending d))
        <? MAX_FRAMES_PENDING) = true).
  { unfold_setters. rewrite Hw. cbn [andb]. apply Z.ltb_lt. lia. }
  rewrite Hcond.
  rewrite writeFramebuffer_submits; [|unfold_setters; lia|exact Hr].
  unfold_setters. split; reflexivity.
Qed.

(** C10, amended. A call of [writeFramebuffer] below the cap whose
    submission fails changes nothing but the log: the counter is not
    incremented, the waiting flag keeps its value, the set and what libusb
    received are unchanged, so the call schedules no retry of its own and
    every later sequence of completions and reap passes behaves as if it had
    not been made.  If the flag was clear, no later reap pass submits
    anything; if the flag was already set, the retry that was scheduled
    stays so, and the next reap pass whose submission succeeds sends the
    framebuffer. *)
Theorem writeFramebuffer_failure_schedules_nothing (r : Z) (d : FCDevice) :
  mNumFramesPending d < MAX_FRAMES_PENDING -> r < 0 ->
  let d' := writeFramebuffer r d in
  mNumFramesPending d' = mNumFramesPending d
  /\ mFrameWaitingForSubmit d' = mFrameWaitingForSubmit d
  /\ forget_clog d' = forget_clog d
  /\ (forall ops, Forall is_reap ops ->
        exists d1 d1', run ops d = Some d1 /\ run ops d' = Some d1'
                       /\ forget_clog d1' = forget_clog d1)
  /\ (mFrameWaitingForSubmit d = false ->
      forall ops, Forall is_reap ops ->
        exists d1', run ops d' = Some d1' /\ usbOut d1' = usbOut d)
  /\ (mFrameWaitingForSubmit d = true ->
      forall r', 0 <= r' ->
        usbOut (flush r' d') =
          usbOut d ++ [(FRAME, FramebufferData (mFramebuffer d))]).
Proof.
  intros Hcap Hr d'.
  assert (Hd' : forget_clog d' = forget_clog d).
  { unfold d'. rewrite writeFramebuffer_fails by assumption.
    unfold forget_clog.
    destruct (mVerbose d && negb (r =? LIBUSB_ERROR_PIPE)); now destruct d. }
  assert (Hn : mNumFramesPending d' = mNumFramesPending d)
    by (apply (f_equal mNumFramesPending) in Hd'; exact Hd').
  assert (Hw : mFrameWaitingForSubmit d' = mFrameWaitingForSubmit d)
    by (apply (f_equal mFrameWaitingForSubmit) in Hd'; exact Hd').
  assert (Hout : usbOut d' = usbOut d)
    by (apply (f_equal usbOut) in Hd'; exact Hd').
  assert (Hfb : mFramebuffer d' = mFramebuffer d)
    by (apply (f_equal mFramebuffer) in Hd'; exact Hd').
  split; [exact Hn|]. split; [exact Hw|]. split; [exact Hd'|].
  split; [|split].
  - intros ops Hreap.
    destruct (run_reap_forget_clog ops d d' Hreap (eq_sym Hd'))
      as (d1 & d1' & H1 & H1' & Heq).
    exists d1, d1'. split; [exact H1|]. split; [exact H1' | now symmetry].
  - intros Hflag ops Hreap.
    destruct (run_reap_not_waiting ops d' Hreap) as (d1' & Hrun & Hout1 & _);
      [congruence|].
    exists d1'. split; [exact Hrun | congruence].
  - intros Hflag r' Hr'.
    destruct (flush_resubmits_below_cap r' d') as [Hsub _];
      [congruence | lia | exact Hr' |].
    rewrite Hsub, Hout, Hfb. reflexivity.
Qed.

(** ** Completions and resubmission *)

Lemma draw_frames_snoc frames last d :
  draw_frames (frames ++ [last]) d =
    writeFramebuffer last.2 (set_mFramebuffer last.1 (draw_frames frames d)).
Proof. unfold draw_frames. now rewrite foldl_app. Qed.

Lemma completeTransfer_fields fct d :
  mFrameWaitingForSubmit (completeTransfer fct d) = mFrameWaitingForSubmit d
  /\ usbOut (completeTransfer fct d) = usbOut d
  /\ mNumFramesPending (completeTransfer fct d) = mNumFramesPending d.
Proof. unfold completeTransfer. unfold_setters. repeat split. Qed.

Lemma complete_all_fields done : forall d,
  frames_consistent d ->
  frames_consistent (complete_all done d)
  /\ mFrameWaitingForSubmit (complete_all done d) = mFrameWaitingForSubmit d
  /\ usbOut (complete_all done d) = usbOut d.
Proof.
  induction done as [|fct done IH]; intros d Hd.
  - repeat split; apply Hd.
  - unfold complete_all. cbn [foldl]. fold (complete_all done (completeTransfer fct d)).
    destruct (IH (completeTransfer fct d)) as (Hc & Hw & Hout);
      [now apply completeTransfer_consistent|].
    destruct (completeTransfer_fields fct d) as (Hw' & Hout' & _).
    split; [exact Hc|]. split; congruence.
Qed.

(** A transfer of the set whose completion is among [done] is marked. *)
Lemma complete_all_marks done : forall d fct t,
  mPending d !! fct = Some t ->
  fct ∈ done \/ finished t = true ->
  exists t', mPending (complete_all done d) !! fct = Some t'
             /\ finished t' = true /\ type t' = type t.
Proof.
  induction done as [|a done IH]; intros d fct t Hin Hcase.
  - destruct Hcase as [Hel|Hfin]; [inversion Hel|].
    exists t. repeat split; assumption.
  - unfold complete_all. cbn [foldl]. fold (complete_all done (completeTransfer a d)).
    destruct (decide (a = fct)) as [->|Hne].
    + destruct (IH (completeTransfer fct d) fct
                  {| buffer := buffer t; type := type t; finished := true |})
        as (t' & Ht' & Hfin & Hty).
      * unfold completeTransfer. unfold_setters.
        rewrite lookup_alter_eq, Hin. reflexivity.
      * now right.
      * exists t'. repeat split; assumption.
    + destruct (IH (completeTransfer a d) fct t) as (t' & Ht' & Hfin & Hty).
      * unfold completeTransfer. unfold_setters.
        rewrite lookup_alter_ne by exact Hne. exact Hin.
      * destruct Hcase as [Hel|Hfin]; [|now right].
        apply elem_of_cons in Hel as [->|Hel]; [contradiction | now left].
      * exists t'. repeat split; assumption.
Qed.

(** A reap pass that finds a completed frame while a frame is waiting
    submits the framebuffer as it is at that moment. *)
Lemma flush_resubmits r d fct t :
  frames_consistent d ->
  mFrameWaitingForSubmit d = true ->
  mPending d !! fct = Some t -> finished t = true -> type t = FRAME ->
  0 <= r ->
  usbOut (flush r d) = usbOut d ++ [(FRAME, FramebufferData (mFramebuffer d))]
  /\ mFrameWaitingForSubmit (flush r d) = false.
Proof.
  intros [Hn Hrange] Hw Hin Hfin Hty Hr.
  assert (Hff : 0 < finished_frames (map_to_list (mPending d))).
  { apply (finished_frames_some _ (fct, t)); [|exact Hfin|exact Hty].
    now apply elem_of_map_to_list. }
  unfold flush. rewrite flush_loop_eq.
  set (n := mNumFramesPending d - finished_frames (map_to_list (mPending d))).
  set (pending := foldl erase_finished (mPending d) (map_to_list (mPending d))).
  assert (Hcond :
    mFrameWaitingForSubmit (set_mNumFramesPending n (set_mPending pending d))
    && (mNumFramesPending (set_mNumFramesPending n (set_mPending pending d))
        <? MAX_FRAMES_PENDING) = true).
  { unfold_setters. rewrite Hw. cbn [andb]. apply Z.ltb_lt. lia. }
  rewrite Hcond.
  rewrite writeFramebuffer_submits; [|unfold_setters; lia|exact Hr].
  unfold_setters. split; reflexivity.
Qed.

(** ** OPC dispatch *)

(** C3, amended. While no mapping table is bound, the mapping step
    [opcSetPixelColors] of a set-pixel-colors message returns the device
    unchanged; [writeMessage] then still calls [writeFramebuffer], so the
    message has exactly the effect of that call, which leaves the
    framebuffer as it was. *)
Theorem unbound_map_pixel_message (r : Z) (msg : Message) (d : FCDevice) :
  mConfigMap d = None ->
  command msg = SetPixelColors ->
  opcSetPixelColors msg d = Some d
  /\ writeMessage r msg d = Some (writeFramebuffer r d)
  /\ mFramebuffer (writeFramebuffer r d) = mFramebuffer d.
Proof.
  intros Hmap Hcmd.
  assert (Hset : opcSetPixelColors msg d = Some d)
    by (unfold opcSetPixelColors; now rewrite Hmap).
  split; [exact Hset|]. split.
  - unfold writeMessage. rewrite Hcmd, Hset. reflexivity.
  - apply writeFramebuffer_framebuffer.
Qed.

(** C8, amended. When the text of a set-global-color-correction message
    fails to parse, the handler returns the device with nothing changed
    except that, if [mVerbose] is set, the error and its offset are logged:
    the LUT packets keep their contents and no transfer is submitted.  With
    [mVerbose] clear nothing is reported. *)
Theorem color_correction_parse_error (r : Z) (msg : Message) (d : FCDevice)
    (offset : Z) (err : string) :
  ParseInsitu (drop 4 (data msg)) = ParseError offset err ->
  let d' := log_verbose (ColorParseError offset err) d in
  opcSetGlobalColorCorrection r msg d = Some d'
  /\ (command msg = SystemExclusive -> 4 <= msg_length msg ->
      sysex_id msg = FCSetGlobalColorCorrection ->
      writeMessage r msg d = Some d')
  /\ mColorLUT d' = mColorLUT d
  /\ usbOut d' = usbOut d
  /\ mPending d' = mPending d
  /\ forget_clog d' = forget_clog d
  /\ clog d' = (if mVerbose d then clog d ++ [ColorParseError offset err]
                else clog d).
Proof.
  intros Hparse d'.
  assert (Hhandler : opcSetGlobalColorCorrection r msg d = Some d')
    by (unfold opcSetGlobalColorCorrection; now rewrite Hparse).
  split; [exact Hhandler|]. split.
  - intros Hcmd Hlen Hid. unfold writeMessage, opcSysEx.
    rewrite Hcmd. cbn [SystemExclusive SetPixelColors Z.eqb].
    change (255 =? 255) with true. cbv iota.
    destruct (Z.ltb_spec (msg_length msg) 4); [lia|].
    cbv zeta. rewrite Hid, Z.eqb_refl. exact Hhandler.
  - unfold d', log_verbose, forget_clog.
    destruct (mVerbose d); unfold_setters; repeat split; now destruct d.
Qed.

(** ** The invariant along a session *)

Lemma log_verbose_consistent m d :
  frames_consistent d -> frames_consistent (log_verbose m d).
Proof.
  apply frames_consistent_same; unfold log_verbose; now destruct (mVerbose d).
Qed.

Lemma opcMapPixelColors_pending msg inst d d' :
  opcMapPixelColors msg inst d = Some d' ->
  mPending d' = mPending d /\ mNumFramesPending d' = mNumFramesPending d.
Proof.
  unfold opcMapPixelColors.
  destruct (IsArray inst && (Size inst =? 4)).
  - destruct (_ && IsUint (at_ inst 3)).
    + destruct (negb _).
      * intros [= <-]. now split.
      * destruct (clampMapping _ _ _ _) as [[o t] c].
        destruct (copy_pixels _ _ _ _ _) as [fb|]; [|discriminate].
        intros [= <-]. now split.
    + intros [= <-]. unfold log_verbose. now destruct (mVerbose d).
  - intros [= <-]. unfold log_verbose. now destruct (mVerbose d).
Qed.

Lemma map_instructions_pending msg insts : forall d d',
  map_instructions msg insts d = Some d' ->
  mPending d' = mPending d /\ mNumFramesPending d' = mNumFramesPending d.
Proof.
  induction insts as [|inst insts IH]; intros d d'; cbn [map_instructions].
  - intros [= <-]. now split.
  - destruct (opcMapPixelColors msg inst d) as [d1|] eqn:Hmap; [|discriminate].
    cbn [mbind option_bind]. intros Hrest.
    apply opcMapPixelColors_pending in Hmap as [Hp Hn].
    apply IH in Hrest as [Hp' Hn']. split; congruence.
Qed.

Lemma opcSetPixelColors_consistent msg d d' :
  opcSetPixelColors msg d = Some d' ->
  frames_consistent d -> frames_consistent d'.
Proof.
  unfold opcSetPixelColors.
  destruct (mConfigMap d) as [map|]; [|now intros [= <-]].
  destruct map; try (now intros [= <-]).
  intros Hmap. apply map_instructions_pending in Hmap as [Hp Hn].
  now apply frames_consistent_same.
Qed.

Lemma parseColor_pending color d :
  mPending (parseColor color d).2 = mPending d
  /\ mNumFramesPending (parseColor color d).2 = mNumFramesPending d.
Proof.
  unfold parseColor.
  repeat match goal with
  | |- context [if ?c then _ else _] => destruct c
  end; cbn [fst snd]; unfold_setters; now split.
Qed.

(** ** The colour curve *)

Lemma pow_positive_base x y : (0 < x)%R -> pow x y = Some (Rpower x y).
Proof. intros Hx. unfold pow. destruct (Rlt_dec 0 x); [reflexivity | lra]. Qed.


Lemma fdiv_nonzero a b : b <> 0%R -> fdiv a b = Some (a / b)%R.
Proof. intros Hb. unfold fdiv. destruct (Req_dec_T b 0); [contradiction | reflexivity]. Qed.


(** Raising a number of (0, 1] to a power of at least 1 does not raise it. *)
Lemma Rpower_le_base x y :
  (0 < x <= 1)%R -> (1 <= y)%R -> (0 < Rpower x y <= x)%R.
Proof.
  intros [Hx0 Hx1] Hy. split.
  - unfold Rpower. apply exp_pos.
  - rewrite <- (Rpower_1 x Hx0) at 2. unfold Rpower.
    assert (Hln : (ln x <= 0)%R).
    { rewrite <- ln_1. destruct Hx1 as [Hlt| ->]; [|lra].
      left. now apply ln_increasing. }
    assert (Hle : (y * ln x <= 1 * ln x)%R) by nra.
    destruct Hle as [Hlt|Heq].
    + left. now apply exp_increasing.
    + rewrite Heq. lra.
Qed.


(** With a slope other than 1 the nonlinear branch does not start where
    the linear one ends: the source subtracts [linearSlope * linearCutoff]
    from the input, while the branch test changes at
    [linearCutoff / linearSlope].  At [gamma = 1], slope 1/2 and cutoff 1/2
    the output jumps by more than 3/4 between entries 255 and 256. *)
Lemma curve_jumps_when_slope_is_not_one :
  let p := {| gamma := 1; whitepoint := (1, 1, 1)%R;
              linearSlope := 1 / 2; linearCutoff := 1 / 2 |} in
  exists lo hi,
    curve_output p (lut_input p 0 255) = Some lo
    /\ curve_output p (lut_input p 0 256) = Some hi
    /\ (lo < 1 / 2)%R /\ (5 / 4 < hi)%R.
Proof.
  intros p.
  assert (Hin : forall e, 0 <= e < 257 ->
            lut_input p 0 e = (IZR e * 256 / 65535)%R).
  { intros e He. unfold lut_input, whitepoint_at, p. cbn [whitepoint Z.eqb].
    rewrite Z.shiftl_mul_pow2 by lia. rewrite u32_small by lia.
    rewrite mult_IZR. change (2 ^ 8) with 256. field. }
  exists (255 * 256 / 65535 * (1 / 2))%R,
         (1 / 2 + (256 * 256 / 65535 - 1 / 2 * (1 / 2)) / (1 - 1 / 2)
                  * (1 - 1 / 2))%R.
  rewrite !Hin by lia. unfold curve_output, linear_output, nonlinear_output, p.
  cbn [linearSlope linearCutoff gamma].
  split; [|split; [|split; lra]].
  - destruct (Rle_dec (255 * 256 / 65535 * (1 / 2)) (1 / 2)); [reflexivity | lra].
  - destruct (Rle_dec (256 * 256 / 65535 * (1 / 2)) (1 / 2)); [lra|].
    rewrite fdiv_nonzero by lra. cbn [mbind option_bind].
    rewrite pow_positive_base by lra. cbn [mbind option_bind].
    rewrite Rpower_1 by lra. reflexivity.
Qed.

(** For the same reason the base of [pow] can be negative: at
    [gamma = 2.2], slope 2 and cutoff 1/2 the output of entry 64 is a NaN,
    which no integer conversion is defined for. *)
Lemma curve_output_not_a_number :
  let p := {| gamma := 22 / 10; whitepoint := (1, 1, 1)%R;
              linearSlope := 2; linearCutoff := 1 / 2 |} in
  curve_output p (lut_input p 0 64) = None
  /\ lut_entry p 0 64 = NotFinite.
Proof.
  intros p.
  assert (Hin : lut_input p 0 64 = (16384 / 65535)%R).
  { unfold lut_input, whitepoint_at, p. cbn [whitepoint Z.eqb].
    change (u32 (Z.shiftl 64 8)) with 16384. field. }
  assert (Hint : Int_part (22 / 10) = 2).
  { symmetry. apply Int_part_spec. lra. }
  assert (Hout : curve_output p (lut_input p 0 64) = None).
  { rewrite Hin. unfold curve_output, nonlinear_output, p.
    cbn [linearSlope linearCutoff gamma].
    destruct (Rle_dec (16384 / 65535 * 2) (1 / 2)); [lra|].
    rewrite fdiv_nonzero by lra. cbn [mbind option_bind].
    unfold pow.
    destruct (Rlt_dec 0 ((16384 / 65535 - 2 * (1 / 2)) / (1 - 1 / 2))); [lra|].
    destruct (Req_dec_T ((16384 / 65535 - 2 * (1 / 2)) / (1 - 1 / 2)) 0); [lra|].
    rewrite Hint.
    destruct (Req_dec_T (22 / 10) 2); [lra | reflexivity]. }
  split; [exact Hout|].
  unfold lut_entry. now rewrite Hout.
Qed.

(** ** Quantization *)

Lemma truncate_nonneg v : (0 <= v)%R -> truncate v = Int_part v.
Proof. intros Hv. unfold truncate. destruct (Rle_dec 0 v); [reflexivity | lra]. Qed.

Lemma Int_part_ge v z : (IZR z <= v)%R -> z <= Int_part v.
Proof.
  intros Hz. destruct (base_Int_part v) as [_ Hup].
  assert (H : (IZR z < IZR (Int_part v + 1))%R) by (rewrite plus_IZR; lra).
  apply lt_IZR in H. lia.
Qed.

Lemma Int_part_le v z : (v < IZR z)%R -> Int_part v < z.
Proof.
  intros Hz. destruct (base_Int_part v) as [Hlow _].
  apply lt_IZR. lra.
Qed.

(** A value from 2^63 on cannot be converted. *)
Lemma to_int64_overflow v : (IZR (2 ^ 63) <= v)%R -> to_int64 v = None.
Proof.
  intros Hv. unfold to_int64.
  assert (H0 : (0 <= v)%R).
  { assert (0 <= IZR (2 ^ 63))%R by (apply IZR_le; lia). lra. }
  rewrite truncate_nonneg by exact H0.
  pose proof (Int_part_ge v (2 ^ 63) Hv) as Hge.
  destruct (Z.ltb_spec (Int_part v) (2 ^ 63)); [lia|].
  now rewrite andb_false_r.
Qed.

(** A value strictly between -2^63 - 1 and 2^63 converts to its truncation. *)
Lemma to_int64_in_range v :
  (IZR (- 2 ^ 63) - 1 < v < IZR (2 ^ 63))%R ->
  to_int64 v = Some (truncate v).
Proof.
  intros [Hlo Hhi]. unfold to_int64.
  assert (Hrange : - 2 ^ 63 <= truncate v < 2 ^ 63).
  { unfold truncate. destruct (Rle_dec 0 v) as [H0|H0].
    - split.
      + pose proof (Int_part_ge v 0 H0). lia.
      + now apply Int_part_le.
    - assert (Hneg : (0 < - v)%R) by lra. split.
      + assert (Int_part (- v) < 2 ^ 63 + 1); [|lia].
        apply Int_part_le. rewrite plus_IZR.
        rewrite opp_IZR in Hlo. lra.
      + assert (0 <= Int_part (- v)) by (apply Int_part_ge; lra). lia. }
  destruct (Z.leb_spec (- 2 ^ 63) (truncate v)); [|lia].
  destruct (Z.ltb_spec (truncate v) (2 ^ 63)); [|lia].
  reflexivity.
Qed.

(** The two bytes stored for a clamped value put together give it back. *)
Lemma entry_bytes_value v :
  0 <= v <= 65535 ->
  0 <= (entry_bytes v).1 < 256 /\ 0 <= (entry_bytes v).2 < 256
  /\ (entry_bytes v).1 + 256 * (entry_bytes v).2 = v.
Proof.
  intros Hv. unfold entry_bytes, u8. cbn [fst snd].
  rewrite Z.shiftr_div_pow2 by lia.
  change (2 ^ 8) with 256.
  assert (Hhi : (v / 256) mod 256 = v / 256).
  { apply Z.mod_small. Z.to_euclidean_division_equations. lia. }
  rewrite Hhi. Z.to_euclidean_division_equations. lia.
Qed.

(** Within the range of [int64_t] the stored value is the output scaled,
    rounded half up and clamped to [0, 65535]. *)
Lemma quantize_in_range output :
  (IZR (- 2 ^ 63) - 1 < output * 65535 + 0.5 < IZR (2 ^ 63))%R ->
  exists intValue,
    quantize (Some output) = Stored intValue
    /\ 0 <= intValue <= 65535
    /\ intValue = Z.max 0 (Z.min 65535 (truncate (output * 65535 + 0.5)))
    /\ ((0 <= output * 65535 + 0.5)%R ->
        (IZR (truncate (output * 65535 + 0.5)) <= output * 65535 + 0.5
         < IZR (truncate (output * 65535 + 0.5)) + 1)%R).
Proof.
  intros Hrange. unfold quantize.
  rewrite to_int64_in_range by exact Hrange.
  eexists. split; [reflexivity|]. split; [lia|]. split; [reflexivity|].
  intros Hpos. rewrite truncate_nonneg by exact Hpos.
  destruct (base_Int_part (output * 65535 + 0.5)) as [Hlo Hhi]. lra.
Qed.

(** With the white point [1e20, 1e20, 1e20] and the other parameters at
    their defaults, the output of entry 1 is finite but its scaled value is
    beyond [int64_t]: the conversion that precedes the clamp overflows. *)
Lemma lut_entry_overflows :
  let p := {| gamma := 1; whitepoint := (1e20, 1e20, 1e20)%R;
              linearSlope := 1; linearCutoff := 0 |} in
  exists output,
    curve_output p (lut_input p 0 1) = Some output
    /\ (IZR (2 ^ 63) <= output * 65535 + 0.5)%R
    /\ to_int64 (output * 65535 + 0.5) = None
    /\ lut_entry p 0 1 = ConversionOverflow.
Proof.
  intros p.
  assert (Hin : lut_input p 0 1 = (256 / 65535 * 1e20)%R).
  { unfold lut_input, whitepoint_at, p. cbn [whitepoint Z.eqb].
    change (u32 (Z.shiftl 1 8)) with 256. reflexivity. }
  assert (Hout : curve_output p (lut_input p 0 1) = Some (256 / 65535 * 1e20)%R).
  { rewrite Hin. unfold curve_output, nonlinear_output, p.
    cbn [linearSlope linearCutoff gamma].
    destruct (Rle_dec (256 / 65535 * 1e20 * 1) 0); [lra|].
    rewrite fdiv_nonzero by lra. cbn [mbind option_bind].
    rewrite pow_positive_base by lra. cbn [mbind option_bind].
    rewrite Rpower_1 by lra. f_equal. field. }
  assert (Hbig : (IZR (2 ^ 63) <= 256 / 65535 * 1e20 * 65535 + 0.5)%R).
  { change (2 ^ 63) with 9223372036854775808. lra. }
  exists (256 / 65535 * 1e20)%R.
  split; [exact Hout|]. split; [exact Hbig|].
  split; [now apply to_int64_overflow|].
  unfold lut_entry. rewrite Hout. unfold quantize.
  now rewrite to_int64_overflow.
Qed.

(** The loops over the table stop without a result at the first entry that
    has no stored value. *)
Lemma lut_loop_stops {A : Type} (body : A -> Z -> option A) (i : Z) indices :
  (forall st, body st i = None) ->
  i ∈ indices ->
  forall st, lut_loop body st indices = None.
Proof.
  intros Hnone. induction indices as [|j indices IH]; intros Hel st.
  - inversion Hel.
  - cbn [lut_loop]. apply elem_of_cons in Hel as [<-|Hel].
    + now rewrite Hnone.
    + destruct (body st j) as [st'|]; [|reflexivity].
      cbn [mbind option_bind]. now apply IH.
Qed.

Lemma fill_lut_undefined (p : ColorParams) (channel entry : Z) packets :
  channel ∈ [0; 1; 2] ->
  0 <= entry < LUT_ENTRIES ->
  (forall intValue, lut_entry p channel entry <> Stored intValue) ->
  fill_lut p packets = None.
Proof.
  intros Hch Hentry Hbad. unfold fill_lut, fill_lut_with.
  rewrite (lut_loop_stops _ channel [0; 1; 2]); [reflexivity | | exact Hch].
  intros st. apply (lut_loop_stops _ entry).
  - intros [[pk i] off]. unfold lut_store_with.
    destruct (lut_entry p channel entry) as [v| |]; [|reflexivity..].
    now destruct (Hbad v).
  - apply list_elem_of_fmap. exists (Z.to_nat entry). split; [lia|].
    apply elem_of_seq. lia.
Qed.

(** ** The pixel mapper, [NUM_PIXELS] being an unsigned value *)

Section Mapping.

Hypothesis NUM_PIXELS_unsigned : 0 <= NUM_PIXELS < 2 ^ 32.

Lemma clampMapping_spec msgPixelCount firstOPC firstOut count :
  0 <= msgPixelCount < 2 ^ 32 ->
  0 <= firstOPC -> 0 <= firstOut -> 0 <= count ->
  clampMapping msgPixelCount firstOPC firstOut count =
    let o := Z.min firstOPC msgPixelCount in
    let t := Z.min firstOut NUM_PIXELS in
    (o, t, Z.min (Z.min count (msgPixelCount - o)) (NUM_PIXELS - t)).
Proof.
  intros Hm Ho Ht Hc. unfold clampMapping. cbv zeta.
  rewrite (u32_small NUM_PIXELS) by lia.
  rewrite !u32_small by lia.
  reflexivity.
Qed.

(** C1. For a mapping rule with arbitrary unsigned [firstOPC], [firstOut] and
    [count], the clamps of [opcMapPixelColors] never underflow, every source
    byte offset of the copy is below [msgPixelCount * 3] (so inside the
    payload), every destination pixel index is below [NUM_PIXELS], and the
    copy, run with bounds-checked accesses, completes. *)
Theorem opcMapPixelColors_in_bounds (msg : Message) (d : FCDevice)
    (ch firstOPC firstOut count : Z) :
  msg_length msg <= 65535 ->
  Z.of_nat (length (mFramebuffer d)) = NUM_PIXELS ->
  0 <= ch < 2 ^ 32 -> 0 <= firstOPC < 2 ^ 32 ->
  0 <= firstOut < 2 ^ 32 -> 0 <= count < 2 ^ 32 ->
  let msgPixelCount := u32 (msg_length msg / 3) in
  let '(o, t, c) := clampMapping msgPixelCount firstOPC firstOut count in
  (0 <= msgPixelCount - o /\ u32 (msgPixelCount - o) = msgPixelCount - o) /\
  (0 <= NUM_PIXELS - t /\ u32 (NUM_PIXELS - t) = NUM_PIXELS - t) /\
  (forall k j, 0 <= k < c -> 0 <= j < 3 ->
     0 <= u32 (o * 3) + 3 * k + j < msgPixelCount * 3
     /\ msgPixelCount * 3 <= msg_length msg) /\
  (forall k, 0 <= k < c -> 0 <= t + k < NUM_PIXELS) /\
  exists d',
    opcMapPixelColors msg
      (Array [Int ch; Int firstOPC; Int firstOut; Int count]) d = Some d'
    /\ Z.of_nat (length (mFramebuffer d')) = NUM_PIXELS.
Proof.
  intros Hlen Hfb Hch HfirstOPC HfirstOut Hcount msgPixelCount.
  assert (Hlen0 : 0 <= msg_length msg) by (unfold msg_length; lia).
  assert (Hm : msgPixelCount = msg_length msg / 3).
  { unfold msgPixelCount. apply u32_small.
    Z.to_euclidean_division_equations. lia. }
  assert (Hm3 : 0 <= msgPixelCount < 2 ^ 32
                /\ msgPixelCount * 3 <= msg_length msg).
  { rewrite Hm. Z.to_euclidean_division_equations. lia. }
  rewrite clampMapping_spec by lia. cbv zeta.
  set (o := Z.min firstOPC msgPixelCount).
  set (t := Z.min firstOut NUM_PIXELS).
  set (c := Z.min (Z.min count (msgPixelCount - o)) (NUM_PIXELS - t)).
  assert (Ho3 : u32 (o * 3) = o * 3) by (apply u32_small; lia).
  repeat split; try (rewrite ?Ho3; lia); try (apply u32_small; lia).
  rewrite opcMapPixelColors_rule by (apply IsUint_Int; lia).
  change (u32 (msg_length msg / 3)) with msgPixelCount.
  destruct (negb (ch =? channel msg)).
  - exists d. split; [reflexivity | exact Hfb].
  - rewrite clampMapping_spec by lia. cbv zeta. fold o t c. cbv beta iota.
    rewrite Ho3.
    destruct (copy_pixels_in_bounds (Z.to_nat c) (data msg) (o * 3) t
                (mFramebuffer d)) as (fb' & -> & Hfb');
      unfold msg_length in *; try lia.
    exists (set_mFramebuffer fb' d). split; [reflexivity|].
    cbn. lia.
Qed.

(** C7. With the single rule [(1, 0, 0, 2)] bound, a set-pixel-colors
    message on channel 1 carrying the triples (10,20,30) and (40,50,60) puts
    them in pixels 0 and 1 of the framebuffer and leaves the other pixels
    alone; the same message on channel 2 leaves the framebuffer unchanged. *)
Theorem end_to_end_scenario (r : Z) (d : FCDevice) :
  mConfigMap d = Some (Array [Array [Int 1; Int 0; Int 0; Int 2]]) ->
  Z.of_nat (length (mFramebuffer d)) = NUM_PIXELS ->
  2 <= NUM_PIXELS ->
  let msg c :=
    {| channel := c; command := SetPixelColors;
       data := [10; 20; 30; 40; 50; 60] |} in
  (exists d', writeMessage r (msg 1) d = Some d'
              /\ mFramebuffer d' !! 0%nat = Some (10, 20, 30)
              /\ mFramebuffer d' !! 1%nat = Some (40, 50, 60)
              /\ forall i, (2 <= i)%nat ->
                   mFramebuffer d' !! i = mFramebuffer d !! i)
  /\ (exists d', writeMessage r (msg 2) d = Some d'
                 /\ mFramebuffer d' = mFramebuffer d).
Proof.
  intros Hmap Hfb Hpix msg.
  split.
  - exists (writeFramebuffer r
              (set_mFramebuffer
                 (<[1%nat := (40, 50, 60)]> (<[0%nat := (10, 20, 30)]> (mFramebuffer d)))
                 d)).
    split.
    + unfold writeMessage, opcSetPixelColors.
      cbn [command msg SetPixelColors Z.eqb]. rewrite Hmap.
      cbn [map_instructions].
      rewrite opcMapPixelColors_rule by reflexivity.
      cbn [channel msg Z.eqb Pos.eqb negb].
      change (u32 (msg_length (msg 1) / 3)) with 2.
      rewrite clampMapping_spec by lia. cbv zeta.
      replace (Z.min 0 2) with 0 by reflexivity.
      replace (Z.min 0 NUM_PIXELS) with 0 by lia.
      replace (Z.min (Z.min 2 (2 - 0)) (NUM_PIXELS - 0)) with 2 by lia.
      cbv beta iota.
      change (u32 (0 * 3)) with 0.
      change (Z.to_nat 2) with 2%nat.
      cbn [copy_pixels data msg].
      change (read_byte [10; 20; 30; 40; 50; 60] 0) with (Some 10).
      change (read_byte [10; 20; 30; 40; 50; 60] (0 + 1)) with (Some 20).
      change (read_byte [10; 20; 30; 40; 50; 60] (0 + 2)) with (Some 30).
      cbn [mbind option_bind].
      rewrite store_pixel_in_bounds by lia.
      cbn [mbind option_bind].
      change (read_byte [10; 20; 30; 40; 50; 60] (0 + 3)) with (Some 40).
      change (read_byte [10; 20; 30; 40; 50; 60] (0 + 3 + 1)) with (Some 50).
      change (read_byte [10; 20; 30; 40; 50; 60] (0 + 3 + 2)) with (Some 60).
      cbn [mbind option_bind].
      change (u32 (0 + 1)) with 1.
      rewrite store_pixel_in_bounds by (rewrite length_insert; lia).
      reflexivity.
    + rewrite writeFramebuffer_framebuffer. unfold_setters.
      split; [|split].
      * rewrite list_lookup_insert_ne by lia.
        apply list_lookup_insert_eq. lia.
      * apply list_lookup_insert_eq. rewrite length_insert. lia.
      * intros i Hi. rewrite !list_lookup_insert_ne by lia. reflexivity.
  - exists (writeFramebuffer r d). split.
    + unfold writeMessage, opcSetPixelColors.
      cbn [command msg SetPixelColors Z.eqb]. rewrite Hmap.
      cbn [map_instructions].
      rewrite opcMapPixelColors_rule by reflexivity.
      reflexivity.
    + apply writeFramebuffer_framebuffer.
Qed.

End Mapping.

(** ** The frame counter, [operator new] returning an address not in use *)

Section Allocator.

Hypothesis alloc_fresh : forall X : gset positive, alloc X ∉ X.

Lemma new_Transfer_free b ty d :
  mPending d !! (new_Transfer b ty d).1 = None.
Proof. cbn. apply not_elem_of_dom. apply alloc_fresh. Qed.

Lemma submitTransfer_pending r b ty d :
  framesInFlight (mPending (submitTransfer r (new_Transfer b ty d) d).2) =
    framesInFlight (mPending d)
    + (if (submitTransfer r (new_Transfer b ty d) d).1
       then if decide (ty = FRAME) then 1 else 0
       else 0).
Proof.
  unfold submitTransfer. destruct (r <? 0); cbn [fst snd].
  - destruct (mVerbose d && negb (r =? LIBUSB_ERROR_PIPE)); cbn; lia.
  - cbn [mPending set_mPending].
    rewrite framesInFlight_insert by apply new_Transfer_free.
    reflexivity.
Qed.

Lemma writeFramebuffer_consistent r d :
  frames_consistent d -> frames_consistent (writeFramebuffer r d).
Proof.
  intros [Hn Hrange]. unfold frames_consistent.
  destruct (Z.le_gt_cases MAX_FRAMES_PENDING (mNumFramesPending d)) as [Hcap|Hcap].
  - rewrite writeFramebuffer_at_cap by exact Hcap. cbn. lia.
  - destruct (Z.lt_ge_cases r 0) as [Hr|Hr].
    + rewrite writeFramebuffer_fails by assumption.
      destruct (mVerbose d && negb (r =? LIBUSB_ERROR_PIPE)); cbn; lia.
    + rewrite writeFramebuffer_submits by assumption.
      cbn [mNumFramesPending mPending set_mNumFramesPending
           set_mFrameWaitingForSubmit set_mPending set_usbOut].
      rewrite framesInFlight_insert
        by (apply not_elem_of_dom, alloc_fresh).
      cbn [type]. destruct (decide (FRAME = FRAME)); [lia | congruence].
Qed.

Lemma flush_consistent r d :
  frames_consistent d -> frames_consistent (flush r d).
Proof.
  intros Hd. unfold flush.
  destruct (flush_loop_consistent d Hd) as [Hloop _].
  destruct (mFrameWaitingForSubmit _ && (_ <? MAX_FRAMES_PENDING)).
  - now apply writeFramebuffer_consistent.
  - exact Hloop.
Qed.

Lemma submitTransfer_consistent r b ty d :
  ty <> FRAME \/ r < 0 ->
  frames_consistent d ->
  frames_consistent (submitTransfer r (new_Transfer b ty d) d).2.
Proof.
  intros Hcase [Hn Hrange]. unfold frames_consistent.
  rewrite submitTransfer_counter, submitTransfer_pending.
  destruct Hcase as [Hty|Hr].
  - destruct (decide (ty = FRAME)); [contradiction|].
    destruct (submitTransfer r (new_Transfer b ty d) d).1; lia.
  - rewrite submitTransfer_fails by exact Hr. cbn [fst]. lia.
Qed.

Lemma submitTransfer_frame_counter r b d :
  0 <= r ->
  framesInFlight (mPending (submitTransfer r (new_Transfer b FRAME d) d).2) =
    mNumFramesPending (submitTransfer r (new_Transfer b FRAME d) d).2
    + 1 + (framesInFlight (mPending d) - mNumFramesPending d).
Proof.
  intros Hr. rewrite submitTransfer_counter, submitTransfer_pending.
  rewrite submitTransfer_succeeds by exact Hr. cbn [fst].
  destruct (decide (FRAME = FRAME)); [lia | congruence].
Qed.

Lemma writeFirmwareConfiguration_consistent r d :
  frames_consistent d -> frames_consistent (writeFirmwareConfiguration r d).
Proof.
  intros Hd. apply submitTransfer_consistent; [left; discriminate | exact Hd].
Qed.

(** C9, amended. The counter equals the number of [FRAME] transfers in the
    set, and lies between 0 and [MAX_FRAMES_PENDING], after every call of
    [writeFramebuffer], [flush] and the destructor, and after every call of
    [submitTransfer] that fails or submits a transfer that is not a frame.
    A successful [submitTransfer] of a frame, the step inside
    [writeFramebuffer], leaves the counter one short of the set until
    [writeFramebuffer] increments it. *)
Theorem frame_counter_invariant (r : Z) (d : FCDevice) :
  frames_consistent d ->
  frames_consistent (writeFramebuffer r d)
  /\ frames_consistent (flush r d)
  /\ frames_consistent (destroy d).2
  /\ (forall b ty, ty <> FRAME \/ r < 0 ->
        frames_consistent (submitTransfer r (new_Transfer b ty d) d).2)
  /\ (forall b, 0 <= r ->
        framesInFlight
          (mPending (submitTransfer r (new_Transfer b FRAME d) d).2) =
        mNumFramesPending (submitTransfer r (new_Transfer b FRAME d) d).2 + 1).
Proof.
  intros Hd. split; [|split; [|split; [|split]]].
  - now apply writeFramebuffer_consistent.
  - now apply flush_consistent.
  - exact Hd.
  - intros b ty Hcase. now apply submitTransfer_consistent.
  - intros b Hr. rewrite submitTransfer_frame_counter by exact Hr.
    destruct Hd as [Hn _]. lia.
Qed.

(** Frames drawn while the counter stays below the cap are all submitted. *)
Lemma draw_frames_below_cap frames : forall d,
  mNumFramesPending d + Z.of_nat (length frames) <= MAX_FRAMES_PENDING ->
  (forall f, f ∈ frames -> 0 <= f.2) ->
  mNumFramesPending (draw_frames frames d) =
    mNumFramesPending d + Z.of_nat (length frames)
  /\ framesInFlight (mPending (draw_frames frames d)) =
       framesInFlight (mPending d) + Z.of_nat (length frames)
  /\ usbOut (draw_frames frames d) =
       usbOut d ++ List.map (fun f => (FRAME, FramebufferData f.1)) frames.
Proof.
  induction frames as [|f frames IH]; intros d Hcap Hok.
  - unfold draw_frames. cbn [foldl length List.map]. rewrite app_nil_r.
    split; [lia|]. split; [lia | reflexivity].
  - cbn [length] in Hcap. unfold draw_frames. cbn [foldl].
    fold (draw_frames frames (writeFramebuffer f.2 (set_mFramebuffer f.1 d))).
    assert (Hr : 0 <= f.2) by (apply Hok; left).
    assert (Hstep : writeFramebuffer f.2 (set_mFramebuffer f.1 d) = _)
      by (apply writeFramebuffer_submits; [cbn; lia | exact Hr]).
    destruct (IH (writeFramebuffer f.2 (set_mFramebuffer f.1 d)))
      as (Hn & Hfif & Hout).
    + rewrite Hstep. unfold_setters. lia.
    + intros f' Hf'. apply Hok. now right.
    + rewrite Hn, Hfif, Hout. rewrite Hstep. unfold_setters.
      rewrite framesInFlight_insert by (apply not_elem_of_dom, alloc_fresh).
      cbn [type List.map length].
      destruct (decide (FRAME = FRAME)); [|congruence].
      rewrite <- app_assoc. cbn [app]. repeat split; lia.
Qed.

(** C2. With [MAX_FRAMES_PENDING = K], no frame in flight and no completion,
    K + 1 calls of [writeFramebuffer] whose submissions succeed leave K
    frame transfers in the set and the counter at K; the last call submits
    nothing and sets the waiting flag.  When one of these transfers has
    completed, the next [flush] submits one frame, and its content is the
    framebuffer as it is at that time. *)
Theorem backpressure_latest_frame_wins
    (frames : list (list Pixel * Z)) (last : list Pixel * Z) (d : FCDevice) :
  frames_consistent d ->
  mNumFramesPending d = 0 ->
  Z.of_nat (length frames) = MAX_FRAMES_PENDING ->
  (forall f, f ∈ frames ++ [last] -> 0 <= f.2) ->
  let d1 := draw_frames (frames ++ [last]) d in
  framesInFlight (mPending d1) = MAX_FRAMES_PENDING
  /\ mNumFramesPending d1 = MAX_FRAMES_PENDING
  /\ mFrameWaitingForSubmit d1 = true
  /\ usbOut d1 =
       usbOut d ++ List.map (fun f => (FRAME, FramebufferData f.1)) frames
  /\ forall (done : list positive) (fb : list Pixel) (r : Z) fct t,
       mPending d1 !! fct = Some t -> type t = FRAME -> fct ∈ done ->
       0 <= r ->
       let d2 := flush r (set_mFramebuffer fb (complete_all done d1)) in
       usbOut d2 = usbOut d1 ++ [(FRAME, FramebufferData fb)]
       /\ mFrameWaitingForSubmit d2 = false.
Proof.
  intros Hd Hzero Hlen Hok d1.
  destruct (draw_frames_below_cap frames d) as (Hn & Hfif & Hout).
  { lia. }
  { intros f Hf. apply Hok. apply elem_of_app. now left. }
  assert (Hd1 : d1 = set_mFrameWaitingForSubmit true
                       (set_mFramebuffer last.1 (draw_frames frames d))).
  { unfold d1. rewrite draw_frames_snoc.
    apply writeFramebuffer_at_cap.
    change (mNumFramesPending (set_mFramebuffer last.1 (draw_frames frames d)))
      with (mNumFramesPending (draw_frames frames d)).
    lia. }
  destruct Hd as [Hdn Hdrange].
  assert (Hcons : frames_consistent d1).
  { rewrite Hd1. unfold frames_consistent. unfold_setters. lia. }
  split; [|split; [|split; [|split]]].
  - rewrite Hd1. unfold_setters. lia.
  - rewrite Hd1. unfold_setters. lia.
  - rewrite Hd1. reflexivity.
  - rewrite Hd1. unfold_setters. exact Hout.
  - intros done fb r fct t Hin Hty Hel Hr d2.
    destruct (complete_all_fields done d1 Hcons) as (Hc & Hw & Hout').
    destruct (complete_all_marks done d1 fct t Hin (or_introl Hel))
      as (t' & Ht' & Hfin & Hty').
    destruct (flush_resubmits r (set_mFramebuffer fb (complete_all done d1)) fct t')
      as [Hsub Hflag].
    + unfold frames_consistent in *. unfold_setters. exact Hc.
    + unfold_setters. rewrite Hw, Hd1. reflexivity.
    + unfold_setters. exact Ht'.
    + exact Hfin.
    + congruence.
    + exact Hr.
    + unfold d2. rewrite Hsub, Hflag. unfold_setters. rewrite Hout'.
      split; reflexivity.
Qed.

Lemma writeColorCorrection_consistent r color d d' :
  writeColorCorrection r color d = Some d' ->
  frames_consistent d -> frames_consistent d'.
Proof.
  unfold writeColorCorrection.
  destruct (parseColor_pending color d) as [Hp Hn].
  destruct (parseColor color d) as [p d1]. cbn [snd] in Hp, Hn.
  destruct (fill_lut p (mColorLUT d1)) as [packets|]; [|discriminate].
  cbn [mbind option_bind]. intros [= <-] Hd.
  apply (submitTransfer_consistent r BufColorLUT OTHER (set_mColorLUT packets d1)).
  - left. discriminate.
  - revert Hd. now apply frames_consistent_same.
Qed.

Lemma configureDevice_consistent r config d :
  frames_consistent d -> frames_consistent (configureDevice r config d).
Proof.
  intros Hd. unfold configureDevice.
  apply writeFirmwareConfiguration_consistent.
  revert Hd. apply frames_consistent_same; now destruct (negb _).
Qed.

Lemma writeMessage_consistent r msg d d' :
  writeMessage r msg d = Some d' ->
  frames_consistent d -> frames_consistent d'.
Proof.
  unfold writeMessage.
  destruct (command msg =? SetPixelColors).
  - destruct (opcSetPixelColors msg d) as [d1|] eqn:Hset; [|discriminate].
    cbn [mbind option_bind]. intros [= <-] Hd.
    apply writeFramebuffer_consistent.
    now apply (opcSetPixelColors_consistent msg d d1).
  - destruct (command msg =? SystemExclusive).
    + unfold opcSysEx.
      destruct (msg_length msg <? 4).
      { intros [= <-]. apply log_verbose_consistent. }
      cbv zeta.
      destruct (sysex_id msg =? FCSetGlobalColorCorrection).
      { unfold opcSetGlobalColorCorrection.
        destruct (ParseInsitu _) as [doc|offset err].
        - apply writeColorCorrection_consistent.
        - intros [= <-]. apply log_verbose_consistent. }
      destruct (sysex_id msg =? FCSetFirmwareConfiguration).
      { intros [= <-] Hd. unfold opcSetFirmwareConfiguration.
        apply writeFirmwareConfiguration_consistent.
        revert Hd. now apply frames_consistent_same. }
      now intros [= <-].
    + intros [= <-]. apply log_verbose_consistent.
Qed.

Lemma step_consistent op d d' :
  step op d = Some d' -> frames_consistent d -> frames_consistent d'.
Proof.
  destruct op; cbn [step].
  - apply writeMessage_consistent.
  - intros [= <-]. apply writeFramebuffer_consistent.
  - apply writeColorCorrection_consistent.
  - intros [= <-]. apply writeFirmwareConfiguration_consistent.
  - intros [= <-]. apply configureDevice_consistent.
  - intros [= <-]. now apply frames_consistent_same.
  - intros [= <-]. apply completeTransfer_consistent.
  - intros [= <-]. apply flush_consistent.
  - now intros [= <-].
Qed.

(** ** Sessions from the constructor *)

Section Cap.

Hypothesis MAX_FRAMES_PENDING_nonneg : 0 <= MAX_FRAMES_PENDING.

Lemma FCDevice_new_consistent verbose : frames_consistent (FCDevice_new verbose).
Proof.
  unfold frames_consistent, FCDevice_new.
  cbn [mNumFramesPending mPending]. rewrite framesInFlight_empty. lia.
Qed.

(** X16. Every device a session reaches from the constructor satisfies the
    invariant of the frame counter: [mNumFramesPending] is the number of
    frame transfers in the set, and it is between 0 and the cap. *)
Theorem reachable_consistent ops : forall verbose d,
  run ops (FCDevice_new verbose) = Some d -> frames_consistent d.
Proof.
  intros verbose.
  assert (Hgen : forall d0 d, frames_consistent d0 -> run ops d0 = Some d ->
                              frames_consistent d).
  { induction ops as [|op ops IH]; intros d0 d Hd0; cbn [run].
    - now intros [= <-].
    - destruct (step op d0) as [d1|] eqn:Hstep; [|discriminate].
      cbn [mbind option_bind]. apply IH.
      now apply (step_consistent op d0 d1). }
  intros d. apply Hgen. apply FCDevice_new_consistent.
Qed.

End Cap.

End Allocator.

(** ** More on the pixel mapper *)

Lemma read_byte_Some (src : list Z) off x :
  read_byte src off = Some x -> 0 <= off < Z.of_nat (length src).
Proof.
  unfold read_byte. destruct (Z.leb_spec 0 off) as [Hoff|Hoff]; [|discriminate].
  intros Hx. apply lookup_lt_Some in Hx. lia.
Qed.

(** After the loop, pixel [outIndex + k] holds the [k]-th triple read from
    [inPtr] on, and the pixels outside the destination range are as before. *)
Lemma copy_pixels_result (count : nat) (src : list Z) :
  forall inPtr outIndex (fb fb' : list Pixel),
    0 <= inPtr -> 0 <= outIndex ->
    outIndex + Z.of_nat count < 2 ^ 32 ->
    copy_pixels count src inPtr outIndex fb = Some fb' ->
    (forall k, 0 <= k < Z.of_nat count ->
       exists r g b,
         src !! Z.to_nat (inPtr + 3 * k) = Some r
         /\ src !! Z.to_nat (inPtr + 3 * k + 1) = Some g
         /\ src !! Z.to_nat (inPtr + 3 * k + 2) = Some b
         /\ fb' !! Z.to_nat (outIndex + k) = Some (r, g, b))
    /\ (forall i : nat,
          ~ (outIndex <= Z.of_nat i < outIndex + Z.of_nat count) ->
          fb' !! i = fb !! i).
Proof.
  induction count as [|count IH]; intros inPtr outIndex fb fb' Hin Hout Hwrap Hcopy.
  - cbn in Hcopy. injection Hcopy as <-. split; [lia | reflexivity].
  - cbn [copy_pixels] in Hcopy.
    destruct (read_byte src inPtr) as [r|] eqn:Hr; [|discriminate].
    destruct (read_byte src (inPtr + 1)) as [g|] eqn:Hg; [|discriminate].
    destruct (read_byte src (inPtr + 2)) as [b|] eqn:Hb; [|discriminate].
    cbn [mbind option_bind] in Hcopy.
    unfold store_pixel in Hcopy.
    destruct (Z.leb_spec 0 outIndex); [|lia].
    destruct (Z.ltb_spec outIndex (Z.of_nat (length fb))) as [Hlt|];
      [|discriminate].
    cbn [andb mbind option_bind] in Hcopy.
    rewrite u32_small in Hcopy by lia.
    apply IH in Hcopy as [Hcopied Hother]; [|lia..].
    split.
    + intros k Hk. destruct (Z.eq_dec k 0) as [->|Hk0].
      * exists r, g, b.
        unfold read_byte in Hr, Hg, Hb.
        destruct (Z.leb_spec 0 inPtr); [|lia].
        destruct (Z.leb_spec 0 (inPtr + 1)); [|lia].
        destruct (Z.leb_spec 0 (inPtr + 2)); [|lia].
        replace (inPtr + 3 * 0) with inPtr by lia.
        replace (outIndex + 0) with outIndex by lia.
        split; [exact Hr|]. split; [exact Hg|]. split; [exact Hb|].
        rewrite Hother by lia.
        apply list_lookup_insert_eq. lia.
      * destruct (Hcopied (k - 1)) as (r' & g' & b' & Hr' & Hg' & Hb' & Hpx);
          [lia|].
        exists r', g', b'.
        replace (inPtr + 3 * k) with (inPtr + 3 + 3 * (k - 1)) by lia.
        replace (outIndex + k) with (outIndex + 1 + (k - 1)) by lia.
        split; [exact Hr'|]. split; [exact Hg'|]. split; [exact Hb' | exact Hpx].
    + intros i Hi. rewrite Hother by lia.
      apply list_lookup_insert_ne. lia.
Qed.



(** ** A pixel message from end to end *)

Lemma opcMapPixelColors_keeps msg inst d d' :
  opcMapPixelColors msg inst d = Some d' -> forget_pixels d' = forget_pixels d.
Proof.
  unfold opcMapPixelColors.
  destruct (IsArray inst && (Size inst =? 4)).
  - destruct (_ && IsUint (at_ inst 3)).
    + destruct (negb _); [now intros [= <-]|].
      destruct (clampMapping _ _ _ _) as [[o t] c].
      destruct (copy_pixels _ _ _ _ _) as [fb|]; [|discriminate].
      intros [= <-]. now destruct d.
    + intros [= <-]. unfold log_verbose. destruct (mVerbose d); now destruct d.
  - intros [= <-]. unfold log_verbose. destruct (mVerbose d); now destruct d.
Qed.

Lemma opcSetPixelColors_keeps msg d d' :
  opcSetPixelColors msg d = Some d' -> forget_pixels d' = forget_pixels d.
Proof.
  unfold opcSetPixelColors.
  destruct (mConfigMap d) as [map|]; [|now intros [= <-]].
  destruct map; try (now intros [= <-]).
  revert d. induction elements as [|inst insts IH]; intros d; cbn [map_instructions].
  - now intros [= <-].
  - destruct (opcMapPixelColors msg inst d) as [d1|] eqn:Hmap; [|discriminate].
    cbn [mbind option_bind]. intros Hrest.
    apply opcMapPixelColors_keeps in Hmap. apply IH in Hrest. congruence.
Qed.

(** X4. A set-pixel-colors message is mapped first and submitted second:
    when [writeMessage] returns, the framebuffer is the one
    [opcSetPixelColors] produced, and below the cap with the submission
    accepted exactly one frame transfer carrying that framebuffer has been
    handed to libusb and the counter raised by one.  At the cap nothing is
    handed over and the waiting flag is set; when libusb refuses, nothing is
    handed over and counter and flag stay. *)
Theorem pixel_message_submits_mapped_frame (r : Z) (msg : Message)
    (d d' : FCDevice) :
  command msg = SetPixelColors ->
  writeMessage r msg d = Some d' ->
  exists d1,
    opcSetPixelColors msg d = Some d1
    /\ mFramebuffer d' = mFramebuffer d1
    /\ (mNumFramesPending d < MAX_FRAMES_PENDING -> 0 <= r ->
        usbOut d' = usbOut d ++ [(FRAME, FramebufferData (mFramebuffer d1))]
        /\ mNumFramesPending d' = mNumFramesPending d + 1
        /\ mFrameWaitingForSubmit d' = false)
    /\ (MAX_FRAMES_PENDING <= mNumFramesPending d ->
        usbOut d' = usbOut d
        /\ mNumFramesPending d' = mNumFramesPending d
        /\ mFrameWaitingForSubmit d' = true)
    /\ (mNumFramesPending d < MAX_FRAMES_PENDING -> r < 0 ->
        usbOut d' = usbOut d
        /\ mNumFramesPending d' = mNumFramesPending d
        /\ mFrameWaitingForSubmit d' = mFrameWaitingForSubmit d).
Proof.
  intros Hcmd. unfold writeMessage. rewrite Hcmd. cbn [SetPixelColors Z.eqb].
  destruct (opcSetPixelColors msg d) as [d1|] eqn:Hset; [|discriminate].
  cbn [mbind option_bind]. intros [= <-].
  exists d1. split; [reflexivity|].
  split; [apply writeFramebuffer_framebuffer|].
  apply opcSetPixelColors_keeps in Hset.
  assert (Hn : mNumFramesPending d1 = mNumFramesPending d)
    by (apply (f_equal mNumFramesPending) in Hset; exact Hset).
  assert (Hw : mFrameWaitingForSubmit d1 = mFrameWaitingForSubmit d)
    by (apply (f_equal mFrameWaitingForSubmit) in Hset; exact Hset).
  assert (Ho : usbOut d1 = usbOut d)
    by (apply (f_equal usbOut) in Hset; exact Hset).
  split; [|split].
  - intros Hcap Hr. rewrite writeFramebuffer_submits by lia.
    unfold_setters. rewrite Ho, Hn. repeat split.
  - intros Hcap. rewrite writeFramebuffer_at_cap by lia.
    unfold_setters. rewrite Ho, Hn. repeat split.
  - intros Hcap Hr. rewrite writeFramebuffer_fails by lia.
    destruct (mVerbose d1 && negb (r =? LIBUSB_ERROR_PIPE));
      unfold_setters; rewrite Ho, Hn, Hw; repeat split.
Qed.

(** ** What a reap pass leaves in the set *)

Lemma erase_finished_lookup_None l : forall (pending : gmap positive Transfer) fct,
  pending !! fct = None -> foldl erase_finished pending l !! fct = None.
Proof.
  induction l as [|[a t] l IH]; intros pending fct Hnone; [exact Hnone|].
  cbn [foldl]. apply IH. unfold erase_finished. cbn [fst snd].
  destruct (finished t); [|exact Hnone].
  apply lookup_delete_None. now right.
Qed.

Lemma erase_finished_lookup_Some l : forall (pending : gmap positive Transfer) fct t,
  foldl erase_finished pending l !! fct = Some t -> pending !! fct = Some t.
Proof.
  induction l as [|[a t0] l IH]; intros pending fct t Hsome; [exact Hsome|].
  cbn [foldl] in Hsome. apply IH in Hsome.
  unfold erase_finished in Hsome. cbn [fst snd] in Hsome.
  destruct (finished t0); [|exact Hsome].
  apply lookup_delete_Some in Hsome. apply Hsome.
Qed.

(** A completed transfer among the elements gone through is erased. *)
Lemma erase_finished_erases l : forall (pending : gmap positive Transfer) fct t,
  (fct, t) ∈ l -> finished t = true ->
  foldl erase_finished pending l !! fct = None.
Proof.
  induction l as [|[a t0] l IH]; intros pending fct t Hel Hfin; [inversion Hel|].
  cbn [foldl]. apply elem_of_cons in Hel as [Heq|Hel].
  - injection Heq as <- <-. apply erase_finished_lookup_None.
    unfold erase_finished. cbn [fst snd]. rewrite Hfin.
    apply lookup_delete_eq.
  - now apply (IH _ fct t).
Qed.

(** A transfer that has not completed stays, provided the elements gone
    through are those of the set. *)
Lemma erase_finished_keeps l : forall (pending : gmap positive Transfer) fct t,
  (forall a t', (a, t') ∈ l -> pending !! a = Some t') ->
  NoDup l.*1 ->
  pending !! fct = Some t -> finished t = false ->
  foldl erase_finished pending l !! fct = Some t.
Proof.
  induction l as [|[a t0] l IH]; intros pending fct t Hin Hnodup Hsome Hfin;
    [exact Hsome|].
  rewrite fmap_cons in Hnodup. cbn in Hnodup.
  apply NoDup_cons in Hnodup as [Hfresh Hnodup].
  cbn [foldl]. apply IH; [|exact Hnodup| |exact Hfin].
  - intros a' t' Hel.
    assert (Hne : a' <> a).
    { intros ->. apply Hfresh. apply list_elem_of_fmap.
      exists (a, t'). split; [reflexivity | exact Hel]. }
    unfold erase_finished. cbn [fst snd].
    destruct (finished t0).
    + rewrite lookup_delete_ne by congruence. apply Hin. now right.
    + apply Hin. now right.
  - unfold erase_finished. cbn [fst snd].
    destruct (finished t0) eqn:Hfin0; [|exact Hsome].
    rewrite lookup_delete_ne; [exact Hsome|].
    intros ->. assert (Hat : pending !! fct = Some t0) by (apply Hin; left).
    congruence.
Qed.

(** The set after the loop of [flush]: the transfers that had not
    completed, each as it was. *)
Lemma flush_loop_pending d fct t :
  mPending (foldl flush_erase d (map_to_list (mPending d))) !! fct = Some t
  <-> mPending d !! fct = Some t /\ finished t = false.
Proof.
  rewrite flush_loop_eq. unfold_setters.
  destruct (pending_list_facts d) as [Hnodup Hin].
  split.
  - intros Hsome.
    assert (Hd : mPending d !! fct = Some t)
      by now apply erase_finished_lookup_Some in Hsome.
    split; [exact Hd|].
    destruct (finished t) eqn:Hfin; [|reflexivity].
    rewrite (erase_finished_erases _ (mPending d) fct t) in Hsome;
      [discriminate | | exact Hfin].
    now apply elem_of_map_to_list.
  - intros [Hd Hfin]. now apply erase_finished_keeps.
Qed.

Lemma writeFramebuffer_pending r d fct t :
  mPending (writeFramebuffer r d) !! fct = Some t ->
  mPending d !! fct = Some t
  \/ t = {| buffer := BufFramebuffer; type := FRAME; finished := false |}.
Proof.
  unfold writeFramebuffer, submitTransfer, new_Transfer.
  destruct (MAX_FRAMES_PENDING <=? mNumFramesPending d); [now left|].
  destruct (r <? 0); cbn [fst snd].
  - destruct (mVerbose d && negb (r =? LIBUSB_ERROR_PIPE)); now left.
  - unfold_setters. intros Hsome.
    apply lookup_insert_Some in Hsome as [[_ <-]|[_ Hsome]]; [now right | now left].
Qed.

Lemma flush_none_finished r d : none_finished (flush r d).
Proof.
  intros fct t Hsome. unfold flush in Hsome.
  destruct (mFrameWaitingForSubmit _ && _).
  - apply writeFramebuffer_pending in Hsome as [Hsome| ->]; [|reflexivity].
    now apply flush_loop_pending in Hsome.
  - now apply flush_loop_pending in Hsome.
Qed.

(** X6. Two reap passes in a row, with no completion and no other call in
    between, are one: when the submission of the first pass, if it makes
    one, is accepted, the second pass leaves the device exactly as the first
    left it, whatever libusb would answer. *)
Theorem flush_twice (r r' : Z) (d : FCDevice) :
  0 <= r -> flush r' (flush r d) = flush r d.
Proof.
  intros Hr.
  assert (Hidle : mFrameWaitingForSubmit (flush r d) = false
                  \/ MAX_FRAMES_PENDING <= mNumFramesPending (flush r d)).
  { unfold flush.
    set (dl := foldl flush_erase d (map_to_list (mPending d))).
    destruct (mFrameWaitingForSubmit dl) eqn:Hw; cbn [andb]; [|now left].
    destruct (Z.ltb_spec (mNumFramesPending dl) MAX_FRAMES_PENDING) as [Hcap|Hcap].
    - left. rewrite writeFramebuffer_submits by assumption. reflexivity.
    - now right. }
  unfold flush at 1.
  rewrite (flush_loop_idle (flush r d) (flush_none_finished r d)).
  destruct Hidle as [->|Hcap]; [reflexivity|].
  destruct (Z.ltb_spec (mNumFramesPending (flush r d)) MAX_FRAMES_PENDING); [lia|].
  now rewrite andb_false_r.
Qed.

Section ReapPass.

Hypothesis alloc_unused : forall X : gset positive, alloc X ∉ X.

Lemma writeFramebuffer_keeps_pending r d fct t :
  mPending d !! fct = Some t -> mPending (writeFramebuffer r d) !! fct = Some t.
Proof.
  intros Hsome. unfold writeFramebuffer, submitTransfer, new_Transfer.
  destruct (MAX_FRAMES_PENDING <=? mNumFramesPending d); [exact Hsome|].
  destruct (r <? 0); cbn [fst snd].
  - now destruct (mVerbose d && negb (r =? LIBUSB_ERROR_PIPE)).
  - unfold_setters. rewrite lookup_insert_ne; [exact Hsome|].
    intros Heq. apply (alloc_unused (dom (mPending d))).
    rewrite Heq. apply elem_of_dom. now exists t.
Qed.

(** X5. After a reap pass no transfer of the set carries the completion
    flag; every transfer that had not completed is still in the set,
    unaltered; and the only transfer the pass can add is a new frame
    transfer. *)
Theorem flush_reaps_exactly_finished (r : Z) (d : FCDevice) :
  none_finished (flush r d)
  /\ (forall fct t, mPending d !! fct = Some t -> finished t = false ->
        mPending (flush r d) !! fct = Some t)
  /\ (forall fct t, mPending (flush r d) !! fct = Some t ->
        (mPending d !! fct = Some t /\ finished t = false)
        \/ t = {| buffer := BufFramebuffer; type := FRAME; finished := false |}).
Proof.
  split; [apply flush_none_finished|]. split.
  - intros fct t Hsome Hfin.
    assert (Hloop : mPending (foldl flush_erase d (map_to_list (mPending d)))
                      !! fct = Some t)
      by now apply flush_loop_pending.
    unfold flush. destruct (mFrameWaitingForSubmit _ && _); [|exact Hloop].
    now apply writeFramebuffer_keeps_pending.
  - intros fct t Hsome. unfold flush in Hsome.
    destruct (mFrameWaitingForSubmit _ && _).
    + apply writeFramebuffer_pending in Hsome as [Hsome| ->]; [|now right].
      left. now apply flush_loop_pending.
    + left. now apply flush_loop_pending.
Qed.

(** ** The lifetime of a transfer *)

Lemma submitTransfer_keeps_pending r b ty d fct t :
  mPending d !! fct = Some t ->
  mPending (submitTransfer r (new_Transfer b ty d) d).2 !! fct = Some t.
Proof.
  intros Hsome. unfold submitTransfer, new_Transfer.
  destruct (r <? 0); cbn [fst snd].
  - now destruct (mVerbose d && negb (r =? LIBUSB_ERROR_PIPE)).
  - unfold_setters. rewrite lookup_insert_ne; [exact Hsome|].
    intros Heq. apply (alloc_unused (dom (mPending d))).
    rewrite Heq. apply elem_of_dom. now exists t.
Qed.

Lemma flush_keeps_in_flight r d fct t :
  mPending d !! fct = Some t -> finished t = false ->
  mPending (flush r d) !! fct = Some t.
Proof.
  intros Hsome Hfin.
  assert (Hloop : mPending (foldl flush_erase d (map_to_list (mPending d)))
                    !! fct = Some t)
    by now apply flush_loop_pending.
  unfold flush. destruct (mFrameWaitingForSubmit _ && _); [|exact Hloop].
  now apply writeFramebuffer_keeps_pending.
Qed.

Lemma writeColorCorrection_keeps_pending r color d d' fct t :
  writeColorCorrection r color d = Some d' ->
  mPending d !! fct = Some t -> mPending d' !! fct = Some t.
Proof.
  unfold writeColorCorrection.
  destruct (parseColor_pending color d) as [Hp _].
  destruct (parseColor color d) as [p d1]. cbn [snd] in Hp.
  destruct (fill_lut p (mColorLUT d1)) as [packets|]; [|discriminate].
  cbn [mbind option_bind]. intros [= <-] Hsome.
  apply submitTransfer_keeps_pending. cbn [set_mColorLUT mPending].
  now rewrite Hp.
Qed.

Lemma writeMessage_keeps_pending r msg d d' fct t :
  writeMessage r msg d = Some d' ->
  mPending d !! fct = Some t -> mPending d' !! fct = Some t.
Proof.
  unfold writeMessage.
  destruct (command msg =? SetPixelColors).
  - destruct (opcSetPixelColors msg d) as [d1|] eqn:Hset; [|discriminate].
    cbn [mbind option_bind]. intros [= <-] Hsome.
    apply writeFramebuffer_keeps_pending.
    apply opcSetPixelColors_keeps in Hset.
    apply (f_equal mPending) in Hset. cbn in Hset. now rewrite Hset.
  - destruct (command msg =? SystemExclusive).
    + unfold opcSysEx.
      destruct (msg_length msg <? 4).
      { intros [= <-]. unfold log_verbose. now destruct (mVerbose d). }
      cbv zeta.
      destruct (sysex_id msg =? FCSetGlobalColorCorrection).
      { unfold opcSetGlobalColorCorrection.
        destruct (ParseInsitu _) as [doc|offset err].
        - apply writeColorCorrection_keeps_pending.
        - intros [= <-]. unfold log_verbose. now destruct (mVerbose d). }
      destruct (sysex_id msg =? FCSetFirmwareConfiguration).
      { intros [= <-] Hsome. unfold opcSetFirmwareConfiguration,
          writeFirmwareConfiguration.
        now apply submitTransfer_keeps_pending. }
      now intros [= <-].
    + intros [= <-]. unfold log_verbose. now destruct (mVerbose d).
Qed.

Lemma step_keeps_in_flight op d d' fct t :
  step op d = Some d' ->
  mPending d !! fct = Some t -> finished t = false ->
  op <> OpCompleteTransfer fct ->
  mPending d' !! fct = Some t.
Proof.
  intros Hstep Hsome Hfin Hop. destruct op; cbn [step] in Hstep.
  - now apply (writeMessage_keeps_pending r msg d d').
  - injection Hstep as <-. now apply writeFramebuffer_keeps_pending.
  - now apply (writeColorCorrection_keeps_pending r color d d').
  - injection Hstep as <-. unfold writeFirmwareConfiguration.
    now apply submitTransfer_keeps_pending.
  - injection Hstep as <-. unfold configureDevice, writeFirmwareConfiguration.
    apply submitTransfer_keeps_pending. cbn [set_mFirmwareConfig mPending].
    now destruct (negb _).
  - injection Hstep as <-. exact Hsome.
  - injection Hstep as <-. unfold completeTransfer. cbn [set_mPending mPending].
    rewrite lookup_alter_ne; [exact Hsome|]. congruence.
  - injection Hstep as <-. now apply flush_keeps_in_flight.
  - injection Hstep as <-. exact Hsome.
Qed.

(** X13. No call frees or alters a transfer that is in flight: a transfer
    of the set that has not completed is still in the set, as it was, at
    the end of every session in which its completion callback does not
    run. *)
Theorem in_flight_transfer_survives (ops : list Op) (d d' : FCDevice)
    (fct : positive) (t : Transfer) :
  run ops d = Some d' ->
  mPending d !! fct = Some t -> finished t = false ->
  OpCompleteTransfer fct ∉ ops ->
  mPending d' !! fct = Some t.
Proof.
  revert d. induction ops as [|op ops IH]; intros d Hrun Hsome Hfin Hnot;
    cbn [run] in Hrun.
  - now injection Hrun as <-.
  - destruct (step op d) as [d1|] eqn:Hstep; [|discriminate].
    cbn [mbind option_bind] in Hrun.
    apply (IH d1); [exact Hrun | | exact Hfin |].
    + apply (step_keeps_in_flight op d d1); try assumption.
      intros ->. apply Hnot. now left.
    + intros Hel. apply Hnot. now right.
Qed.

End ReapPass.

(** ** System-exclusive messages *)

Lemma land_shifted_low a b n :
  0 <= n -> 0 <= b < 2 ^ n -> Z.land (a * 2 ^ n) b = 0.
Proof.
  intros Hn Hb. rewrite <- Z.shiftl_mul_pow2 by exact Hn.
  apply Z.bits_inj'. intros i Hi.
  rewrite Z.land_spec, Z.bits_0.
  destruct (Z.lt_ge_cases i n) as [Hlt|Hge].
  - now rewrite Z.shiftl_spec_low.
  - destruct (Z.eq_dec b 0) as [->|Hb0].
    + rewrite Z.testbit_0_l. apply andb_false_r.
    + rewrite (Z.bits_above_log2 b i); [apply andb_false_r | lia |].
      assert (Z.log2 b < n) by (apply Z.log2_lt_pow2; lia). lia.
Qed.

Lemma lor_shifted_low a b n :
  0 <= n -> 0 <= b < 2 ^ n -> Z.lor (a * 2 ^ n) b = a * 2 ^ n + b.
Proof.
  intros Hn Hb. symmetry. apply Z.add_nocarry_lor.
  now apply land_shifted_low.
Qed.

(** The identifier is the big-endian value of the first four bytes. *)
Lemma sysex_id_bytes ch cmd b0 b1 b2 b3 rest :
  0 <= b0 < 256 -> 0 <= b1 < 256 -> 0 <= b2 < 256 -> 0 <= b3 < 256 ->
  sysex_id {| channel := ch; command := cmd;
              data := b0 :: b1 :: b2 :: b3 :: rest |} =
    b0 * 2 ^ 24 + b1 * 2 ^ 16 + b2 * 2 ^ 8 + b3.
Proof.
  intros H0 H1 H2 H3. unfold sysex_id. cbn [data nth].
  rewrite !Z.shiftl_mul_pow2 by lia.
  rewrite !u32_small by lia.
  rewrite (lor_shifted_low b0 (b1 * 2 ^ 16) 24) by lia.
  replace (b0 * 2 ^ 24 + b1 * 2 ^ 16) with ((b0 * 2 ^ 8 + b1) * 2 ^ 16) by lia.
  rewrite (lor_shifted_low _ (b2 * 2 ^ 8) 16) by lia.
  replace ((b0 * 2 ^ 8 + b1) * 2 ^ 16 + b2 * 2 ^ 8)
    with ((b0 * 2 ^ 16 + b1 * 2 ^ 8 + b2) * 2 ^ 8) by lia.
  rewrite (lor_shifted_low _ b3 8) by lia.
  lia.
Qed.

(** X7. The identifier [opcSysEx] reads is the big-endian decoding of the
    first four payload bytes: a payload that starts with the four bytes of
    an identifier below 2^32, most significant first, yields that
    identifier, whatever follows. *)
Theorem sysex_id_round_trip (id ch cmd : Z) (rest : list Z) :
  0 <= id < 2 ^ 32 ->
  sysex_id {| channel := ch; command := cmd; data := be32 id ++ rest |} = id.
Proof.
  intros Hid. unfold be32. cbn [app].
  rewrite sysex_id_bytes by (apply Z.mod_pos_bound; lia).
  clear ParseInsitu.
  Z.to_euclidean_division_equations. lia.
Qed.

(** X8. A message that is neither a set-pixel-colors message nor a
    system-exclusive message of at least four bytes carrying one of the two
    known identifiers submits nothing and changes nothing but the log.  A
    system-exclusive message with an unknown identifier is ignored without
    a diagnostic even when [mVerbose] is set. *)
Theorem writeMessage_ignores (r : Z) (msg : Message) (d : FCDevice) :
  command msg <> SetPixelColors ->
  (command msg = SystemExclusive ->
   msg_length msg < 4
   \/ (sysex_id msg <> FCSetGlobalColorCorrection
       /\ sysex_id msg <> FCSetFirmwareConfiguration)) ->
  exists d',
    writeMessage r msg d = Some d'
    /\ forget_clog d' = forget_clog d
    /\ (mVerbose d = false -> d' = d)
    /\ (command msg = SystemExclusive -> 4 <= msg_length msg -> d' = d).
Proof.
  intros Hcmd Hsysex. unfold writeMessage.
  destruct (Z.eqb_spec (command msg) SetPixelColors) as [|_]; [contradiction|].
  destruct (Z.eqb_spec (command msg) SystemExclusive) as [Hse|Hse].
  - unfold opcSysEx.
    destruct (Z.ltb_spec (msg_length msg) 4) as [Hshort|Hlong].
    + exists (log_verbose SysExTooShort d). split; [reflexivity|].
      unfold log_verbose, forget_clog.
      split; [destruct (mVerbose d); now destruct d|].
      split; [now intros ->|]. intros _ Hlen. lia.
    + destruct (Hsysex Hse) as [Hshort|[Hid1 Hid2]]; [lia|].
      cbv zeta.
      destruct (Z.eqb_spec (sysex_id msg) FCSetGlobalColorCorrection);
        [contradiction|].
      destruct (Z.eqb_spec (sysex_id msg) FCSetFirmwareConfiguration);
        [contradiction|].
      exists d. repeat split; reflexivity.
  - exists (log_verbose (UnsupportedCommand (command msg)) d).
    split; [reflexivity|]. unfold log_verbose, forget_clog.
    split; [destruct (mVerbose d); now destruct d|].
    split; [now intros ->|]. intros Habs. contradiction.
Qed.

(** X9. The set-firmware-configuration handler overwrites the first
    [min(sizeof data, length - 4)] bytes of the configuration packet with
    the payload bytes that follow the identifier and keeps the others: the
    packet keeps its size, a longer payload is truncated, and an accepted
    submission hands libusb the packet as just written. *)
Theorem opcSetFirmwareConfiguration_truncates (r : Z) (msg : Message)
    (d : FCDevice) :
  4 <= msg_length msg ->
  Z.of_nat (length (mFirmwareConfig d)) = sizeof_data ->
  let d' := opcSetFirmwareConfiguration r msg d in
  length (mFirmwareConfig d') = length (mFirmwareConfig d)
  /\ (forall i : nat,
        mFirmwareConfig d' !! i =
          if decide (Z.of_nat i < Z.min sizeof_data (msg_length msg - 4))
          then data msg !! (4 + i)%nat
          else mFirmwareConfig d !! i)
  /\ (0 <= r ->
      usbOut d' = usbOut d ++ [(OTHER, FirmwareConfigData (mFirmwareConfig d'))])
  /\ (r < 0 -> usbOut d' = usbOut d).
Proof.
  intros Hlen Hcfg d'.
  set (n := Z.to_nat (Z.min sizeof_data (msg_length msg - 4))).
  set (new := take n (drop 4 (data msg)) ++ drop n (mFirmwareConfig d)).
  assert (Hd' : mFirmwareConfig d' = new).
  { unfold d', opcSetFirmwareConfiguration, writeFirmwareConfiguration,
      submitTransfer, new_Transfer.
    destruct (r <? 0); cbn [snd fst].
    - destruct (_ && negb (r =? LIBUSB_ERROR_PIPE)); reflexivity.
    - reflexivity. }
  assert (Htake : length (take n (drop 4 (data msg))) = n).
  { rewrite length_take, length_drop. unfold n, msg_length in *. lia. }
  split; [|split; [|split]].
  - rewrite Hd'. unfold new.
    rewrite length_app, Htake, length_drop. unfold n. lia.
  - intros i. rewrite Hd'. unfold new.
    destruct (decide (Z.of_nat i < Z.min sizeof_data (msg_length msg - 4)))
      as [Hi|Hi].
    + rewrite lookup_app_l by (rewrite Htake; unfold n; lia).
      rewrite lookup_take_lt by (unfold n; lia).
      apply lookup_drop.
    + rewrite lookup_app_r by (rewrite Htake; unfold n; lia).
      rewrite Htake, lookup_drop. f_equal. unfold n. lia.
  - intros Hr. unfold d', opcSetFirmwareConfiguration, writeFirmwareConfiguration.
    rewrite submitTransfer_succeeds by exact Hr. reflexivity.
  - intros Hr. unfold d', opcSetFirmwareConfiguration, writeFirmwareConfiguration.
    rewrite submitTransfer_fails by exact Hr. cbn [snd].
    now destruct (_ && negb (r =? LIBUSB_ERROR_PIPE)).
Qed.

Lemma writeFirmwareConfiguration_config r d :
  mFirmwareConfig (writeFirmwareConfiguration r d) = mFirmwareConfig d.
Proof.
  unfold writeFirmwareConfiguration, submitTransfer.
  destruct (r <? 0); cbn [snd]; [|reflexivity].
  now destruct (_ && negb (r =? LIBUSB_ERROR_PIPE)).
Qed.

(** X15. A system-exclusive message made of the big-endian identifier of
    set-firmware-configuration and a payload at least as long as the
    configuration packet replaces the whole packet by the first bytes of
    the payload, on any channel, and hands it to libusb; bytes of the
    payload beyond the size of the packet are dropped. *)
Theorem firmware_config_message (r ch : Z) (payload : list Z) (d : FCDevice) :
  0 <= FCSetFirmwareConfiguration < 2 ^ 32 ->
  FCSetFirmwareConfiguration <> FCSetGlobalColorCorrection ->
  Z.of_nat (length (mFirmwareConfig d)) = sizeof_data ->
  sizeof_data <= Z.of_nat (length payload) ->
  exists d',
    writeMessage r {| channel := ch; command := SystemExclusive;
                      data := be32 FCSetFirmwareConfiguration ++ payload |} d
      = Some d'
    /\ mFirmwareConfig d' = take (Z.to_nat sizeof_data) payload
    /\ (0 <= r ->
        usbOut d' = usbOut d
                    ++ [(OTHER, FirmwareConfigData
                                  (take (Z.to_nat sizeof_data) payload))])
    /\ (r < 0 -> usbOut d' = usbOut d).
Proof.
  intros Hid Hne Hcfg Hpayload.
  set (msg := {| channel := ch; command := SystemExclusive;
                 data := be32 FCSetFirmwareConfiguration ++ payload |}).
  assert (Hlen : msg_length msg = 4 + Z.of_nat (length payload)).
  { unfold msg_length, msg. cbn [data be32 app length]. lia. }
  assert (Hsys : sysex_id msg = FCSetFirmwareConfiguration).
  { unfold msg, be32. cbn [app].
    rewrite sysex_id_bytes by (apply Z.mod_pos_bound; lia).
    Z.to_euclidean_division_equations. lia. }
  assert (Hnew : take (Z.to_nat (Z.min sizeof_data (msg_length msg - 4)))
                      (drop 4 (data msg))
                 ++ drop (Z.to_nat (Z.min sizeof_data (msg_length msg - 4)))
                         (mFirmwareConfig d)
                 = take (Z.to_nat sizeof_data) payload).
  { rewrite Hlen.
    replace (Z.min sizeof_data (4 + Z.of_nat (length payload) - 4))
      with sizeof_data by lia.
    rewrite (drop_ge (mFirmwareConfig d)) by lia. rewrite app_nil_r. reflexivity. }
  unfold writeMessage. change (command msg) with SystemExclusive.
  change (SystemExclusive =? SetPixelColors) with false.
  change (SystemExclusive =? SystemExclusive) with true. cbv iota.
  unfold opcSysEx.
  destruct (Z.ltb_spec (msg_length msg) 4); [lia|].
  cbv zeta. rewrite Hsys.
  destruct (Z.eqb_spec FCSetFirmwareConfiguration FCSetGlobalColorCorrection);
    [contradiction|].
  rewrite Z.eqb_refl.
  eexists. split; [reflexivity|].
  unfold opcSetFirmwareConfiguration. rewrite Hnew.
  split; [apply writeFirmwareConfiguration_config|].
  unfold writeFirmwareConfiguration. split.
  - intros Hr. rewrite submitTransfer_succeeds by exact Hr. reflexivity.
  - intros Hr. rewrite submitTransfer_fails by exact Hr. cbn [snd].
    now destruct (_ && negb (r =? LIBUSB_ERROR_PIPE)).
Qed.

(** ** The led setting of [configureDevice] *)

Lemma writeFirmwareConfiguration_clog r d :
  exists l, clog (writeFirmwareConfiguration r d) = clog d ++ l.
Proof.
  unfold writeFirmwareConfiguration, submitTransfer.
  destruct (r <? 0); cbn [snd].
  - destruct (_ && negb (r =? LIBUSB_ERROR_PIPE)).
    + now exists [ErrorSubmittingTransfer r].
    + exists []. now rewrite app_nil_r.
  - exists []. now rewrite app_nil_r.
Qed.

Lemma lor_byte a b : 0 <= a < 256 -> 0 <= b < 256 -> 0 <= Z.lor a b < 256.
Proof.
  intros Ha Hb. split; [apply Z.lor_nonneg; lia|].
  destruct (Z.eq_dec (Z.lor a b) 0) as [->|Hne]; [lia|].
  assert (Hpos : 0 < Z.lor a b).
  { assert (0 <= Z.lor a b) by (apply Z.lor_nonneg; lia). lia. }
  change 256 with (2 ^ 8). apply Z.log2_lt_pow2; [exact Hpos|].
  rewrite Z.log2_lor by lia.
  destruct (Z.eq_dec a 0) as [->|Ha0]; destruct (Z.eq_dec b 0) as [->|Hb0];
    cbn [Z.log2]; try lia.
  - assert (Z.log2 b < 8) by (apply Z.log2_lt_pow2; lia). lia.
  - assert (Z.log2 a < 8) by (apply Z.log2_lt_pow2; lia). lia.
  - assert (Z.log2 a < 8) by (apply Z.log2_lt_pow2; lia).
    assert (Z.log2 b < 8) by (apply Z.log2_lt_pow2; lia). lia.
Qed.

(** X10. When the two led flags are distinct non-zero bits of a byte, the
    first byte of the configuration packet [configureDevice] writes tells
    the three settings apart: it is 0 exactly for a null led, both flags
    exactly for [true], and the no-activity flag alone for everything else.
    A value that is not [true], [false] or null is reported whatever
    [mVerbose] is and then treated as [false]; the other bytes of the packet
    are kept, and an accepted submission carries the packet as written. *)
Theorem configureDevice_led_flags (r : Z) (config : Value) (d : FCDevice) :
  0 < CFLAG_NO_ACTIVITY_LED < 256 ->
  0 < CFLAG_LED_CONTROL < 256 ->
  Z.land CFLAG_NO_ACTIVITY_LED CFLAG_LED_CONTROL = 0 ->
  (0 < length (mFirmwareConfig d))%nat ->
  let led := member config "led" in
  let d' := configureDevice r config d in
  let flag := mFirmwareConfig d' !! 0%nat in
  (flag = Some 0 <-> IsNull led = true)
  /\ (flag = Some (Z.lor CFLAG_NO_ACTIVITY_LED CFLAG_LED_CONTROL)
      <-> IsTrue led = true)
  /\ (flag = Some CFLAG_NO_ACTIVITY_LED
      <-> IsNull led = false /\ IsTrue led = false)
  /\ (IsNull led = false -> IsTrue led = false -> IsFalse led = false ->
      LedConfigInvalid ∈ clog d')
  /\ (forall i : nat, i <> 0%nat ->
        mFirmwareConfig d' !! i = mFirmwareConfig d !! i)
  /\ (0 <= r ->
      usbOut d' = usbOut d ++ [(OTHER, FirmwareConfigData (mFirmwareConfig d'))]).
Proof.
  intros Hno Hled Hdisj Hlen led d' flag.
  assert (Hsum : Z.lor CFLAG_NO_ACTIVITY_LED CFLAG_LED_CONTROL =
                 CFLAG_NO_ACTIVITY_LED + CFLAG_LED_CONTROL).
  { symmetry. now apply Z.add_nocarry_lor. }
  set (flags := Z.lor (if IsNull led then 0 else CFLAG_NO_ACTIVITY_LED)
                      (if IsTrue led then CFLAG_LED_CONTROL else 0)).
  set (d1 := if negb (IsTrue led || IsFalse led || IsNull led)
             then log LedConfigInvalid d else d).
  assert (Hcfg1 : mFirmwareConfig d1 = mFirmwareConfig d).
  { unfold d1. now destruct (negb _). }
  assert (Hd' : d' = writeFirmwareConfiguration r
                  (set_mFirmwareConfig (<[0%nat := u8 flags]> (mFirmwareConfig d1)) d1))
    by reflexivity.
  assert (Hcfg : mFirmwareConfig d' = <[0%nat := u8 flags]> (mFirmwareConfig d)).
  { rewrite Hd', writeFirmwareConfiguration_config. cbn [set_mFirmwareConfig mFirmwareConfig].
    now rewrite Hcfg1. }
  assert (Hflag : flag = Some flags).
  { unfold flag. rewrite Hcfg, list_lookup_insert_eq by exact Hlen.
    f_equal. unfold u8. apply Z.mod_small. change (2 ^ 8) with 256.
    unfold flags. destruct (IsNull led), (IsTrue led); apply lor_byte; lia. }
  assert (Hflags : flags = if IsNull led then 0
                           else if IsTrue led
                                then Z.lor CFLAG_NO_ACTIVITY_LED CFLAG_LED_CONTROL
                                else CFLAG_NO_ACTIVITY_LED).
  { unfold flags. destruct led; cbn [IsNull IsTrue]; try reflexivity;
      now rewrite Z.lor_0_r. }
  assert (Hexcl : IsNull led = true -> IsTrue led = false) by now destruct led.
  split; [|split; [|split; [|split; [|split]]]].
  - rewrite Hflag, Hflags. destruct (IsNull led), (IsTrue led); split;
      intros H; try reflexivity; try discriminate; injection H; lia.
  - rewrite Hflag, Hflags. destruct (IsNull led) eqn:Hn, (IsTrue led) eqn:Ht;
      split; intros H; try reflexivity; try discriminate;
      try (specialize (Hexcl eq_refl); discriminate); injection H; lia.
  - rewrite Hflag, Hflags. destruct (IsNull led), (IsTrue led); split;
      intros H; try (split; reflexivity); try reflexivity;
      try (destruct H; discriminate); injection H; lia.
  - intros Hn Ht Hf.
    destruct (writeFirmwareConfiguration_clog r
                (set_mFirmwareConfig (<[0%nat := u8 flags]> (mFirmwareConfig d1)) d1))
      as [l Hl].
    rewrite Hd', Hl. cbn [set_mFirmwareConfig clog].
    unfold d1. rewrite Ht, Hf, Hn. cbn [orb negb log set_clog clog].
    apply elem_of_app. left. apply elem_of_app. right. apply list_elem_of_singleton.
    reflexivity.
  - intros i Hi. rewrite Hcfg. now apply list_lookup_insert_ne.
  - intros Hr. rewrite Hcfg, Hd'. unfold writeFirmwareConfiguration.
    rewrite submitTransfer_succeeds by exact Hr.
    assert (Hout1 : usbOut d1 = usbOut d) by (unfold d1; now destruct (negb _)).
    cbn [snd fst set_mPending set_usbOut usbOut set_mFirmwareConfig new_Transfer
         type buffer snapshot mFirmwareConfig].
    now rewrite Hout1, Hcfg1.
Qed.

(** ** The layout of the colour table *)

Lemma quantize_exact output n :
  (output * 65535 = IZR n)%R -> 0 <= n < 2 ^ 62 ->
  quantize (Some output) = Stored (Z.max 0 (Z.min 65535 n)).
Proof.
  intros Hout Hn. unfold quantize.
  assert (H0 : (0 <= IZR n)%R) by (apply IZR_le; lia).
  assert (H1 : (IZR n <= IZR (2 ^ 62))%R) by (apply IZR_le; lia).
  change (2 ^ 62) with 4611686018427387904 in H1.
  rewrite to_int64_in_range.
  2:{ change (- 2 ^ 63) with (- 9223372036854775808).
      change (2 ^ 63) with 9223372036854775808. rewrite Hout. lra. }
  rewrite truncate_nonneg by lra.
  replace (Int_part (output * 65535 + 0.5)) with n; [reflexivity|].
  apply Int_part_spec. lra.
Qed.

(** With the default parameters entry [e] is [256 * e], the last one
    clamped. *)
Lemma lut_entry_identity ch e :
  0 <= e < 2 ^ 24 ->
  lut_entry default_params ch e = Stored (Z.min 65535 (256 * e)).
Proof.
  intros He. unfold lut_entry.
  assert (Hin : lut_input default_params ch e = (IZR (256 * e) / 65535)%R).
  { unfold lut_input, whitepoint_at, default_params. cbn [whitepoint].
    rewrite Z.shiftl_mul_pow2 by lia. rewrite u32_small by lia.
    replace (e * 2 ^ 8) with (256 * e) by lia.
    destruct (ch =? 0); [|destruct (ch =? 1)]; lra. }
  rewrite Hin.
  assert (H0 : (0 <= IZR (256 * e))%R) by (apply IZR_le; lia).
  replace (Z.min 65535 (256 * e)) with (Z.max 0 (Z.min 65535 (256 * e))) by lia.
  unfold curve_output, linear_output, nonlinear_output, default_params.
  cbn [linearSlope linearCutoff gamma].
  destruct (Rle_dec _ _) as [Hle|Hgt].
  - apply quantize_exact; [field | lia].
  - rewrite fdiv_nonzero by lra. cbn [mbind option_bind].
    rewrite pow_positive_base by lra. cbn [mbind option_bind].
    rewrite Rpower_1 by lra.
    apply quantize_exact; [field | lia].
Qed.

Lemma parseColor_not_object color d :
  IsObject color = false -> (parseColor color d).1 = default_params.
Proof.
  intros H. unfold parseColor. rewrite H.
  now destruct (negb (IsNull color) && mVerbose d).
Qed.

Lemma parseColor_LUT color d :
  mColorLUT (parseColor color d).2 = mColorLUT d
  /\ usbOut (parseColor color d).2 = usbOut d.
Proof.
  unfold parseColor, log.
  repeat match goal with
         | |- context [if ?c then _ else _] => destruct c
         end; split; reflexivity.
Qed.

Lemma store_byte_Some pks q o v pk :
  0 <= q -> 0 <= o -> pks !! Z.to_nat q = Some pk ->
  o < Z.of_nat (length pk) ->
  store_byte pks q o v = Some (<[Z.to_nat q := <[Z.to_nat o := v]> pk]> pks).
Proof.
  intros Hq Ho Hpk Hlen. unfold store_byte. rewrite Hpk.
  cbn [mbind option_bind].
  destruct (Z.ltb_spec o (Z.of_nat (length pk))); [reflexivity | lia].
Qed.

Lemma lut_byte_insert pks q o v pk i o' :
  0 <= q -> 0 <= o -> 0 <= i -> 0 <= o' ->
  pks !! Z.to_nat q = Some pk -> o < Z.of_nat (length pk) ->
  lut_byte (<[Z.to_nat q := <[Z.to_nat o := v]> pk]> pks) i o' =
    if (i =? q) && (o' =? o) then Some v else lut_byte pks i o'.
Proof.
  intros Hq Ho Hi Ho' Hpk Hlen. unfold lut_byte.
  assert (Hq' : (Z.to_nat q < length pks)%nat) by (eapply lookup_lt_Some; eauto).
  destruct (Z.eqb_spec i q) as [->|Hne].
  - rewrite list_lookup_insert_eq by exact Hq'. rewrite Hpk.
    cbn [mbind option_bind andb].
    destruct (Z.eqb_spec o' o) as [->|Hne'].
    + rewrite list_lookup_insert_eq by lia. reflexivity.
    + rewrite list_lookup_insert_ne by lia. reflexivity.
  - cbn [andb]. rewrite list_lookup_insert_ne by lia. reflexivity.
Qed.

Lemma slot_unique E i s q m :
  0 <= s < E -> 0 <= m < E -> i * E + s = q * E + m -> i = q /\ s = m.
Proof.
  intros Hs Hm Heq.
  destruct (Z.lt_trichotomy i q) as [H|[H|H]].
  - assert ((i + 1) * E <= q * E) by (apply Z.mul_le_mono_nonneg_r; lia). lia.
  - subst i. lia.
  - assert ((q + 1) * E <= i * E) by (apply Z.mul_le_mono_nonneg_r; lia). lia.
Qed.

Lemma slot_before E i s q m :
  0 <= s < E -> 0 <= m < E -> i * E + s < q * E + m ->
  i < q \/ (i = q /\ s < m).
Proof.
  intros Hs Hm Hlt.
  destruct (Z.lt_trichotomy i q) as [H|[H|H]].
  - now left.
  - subst i. right. lia.
  - assert ((q + 1) * E <= i * E) by (apply Z.mul_le_mono_nonneg_r; lia). lia.
Qed.

Section LutLayout.

(** The number of entries a packet takes. *)
Variable E : Z.
Hypothesis sizeof_data_odd : sizeof_data = 2 * E + 1.
Hypothesis E_pos : 1 <= E.
Hypothesis sizeof_data_unsigned : sizeof_data < 2 ^ 32.

Lemma lut_store_filled value packets0 k st ch e v :
  lut_filled E value packets0 k st ->
  0 <= e < LUT_ENTRIES -> k = ch * LUT_ENTRIES + e ->
  k < E * Z.of_nat (length packets0) ->
  value ch e = Stored v ->
  exists st',
    lut_store_with value ch st e = Some st' /\ lut_filled E value packets0 (k + 1) st'.
Proof.
  intros Hinv He Hk Hroom Hv.
  destruct st as [[pks q] off].
  destruct Hinv as ((m & Hm & Hq & Hkq & Hoff) & Hlen & Hshape & Hdone & Hframe).
  assert (Hqlt : q < Z.of_nat (length pks)).
  { rewrite Hlen.
    destruct (Z.lt_ge_cases q (Z.of_nat (length packets0))) as [|Hge];
      [assumption|].
    assert (Z.of_nat (length packets0) * E <= q * E)
      by (apply Z.mul_le_mono_nonneg_r; lia).
    lia. }
  destruct (lookup_lt_is_Some_2 pks (Z.to_nat q)) as [pk Hpk]; [lia|].
  assert (Hpklen : Z.of_nat (length pk) = sizeof_data).
  { eapply (proj1 (Forall_lookup _ _) Hshape); eauto. }
  set (lo := (entry_bytes v).1). set (hi := (entry_bytes v).2).
  set (pk1 := <[Z.to_nat off := lo]> pk).
  set (pks1 := <[Z.to_nat q := pk1]> pks).
  set (pk2 := <[Z.to_nat (off + 1) := hi]> pk1).
  set (pks2 := <[Z.to_nat q := pk2]> pks1).
  assert (Hs1 : store_byte pks q off lo = Some pks1).
  { apply store_byte_Some; [lia | lia | exact Hpk | lia]. }
  assert (Hpk1 : pks1 !! Z.to_nat q = Some pk1).
  { unfold pks1. apply list_lookup_insert_eq. lia. }
  assert (Hpk1len : length pk1 = length pk) by apply length_insert.
  assert (Hs2 : store_byte pks1 q (off + 1) hi = Some pks2).
  { apply store_byte_Some; [lia | lia | exact Hpk1 | lia]. }
  assert (Hbytes : forall i o, 0 <= i -> 0 <= o ->
            lut_byte pks2 i o =
              if (i =? q) && (o =? off + 1) then Some hi
              else if (i =? q) && (o =? off) then Some lo
              else lut_byte pks i o).
  { intros i o Hi Ho. unfold pks2, pk2.
    rewrite (lut_byte_insert pks1 q (off + 1) hi pk1) by (try lia; exact Hpk1).
    destruct ((i =? q) && (o =? off + 1)); [reflexivity|].
    unfold pks1, pk1. apply lut_byte_insert; try lia. exact Hpk. }
  assert (Hshape2 : Forall (fun pk => Z.of_nat (length pk) = sizeof_data) pks2).
  { unfold pks2. apply Forall_insert.
    - unfold pks1. apply Forall_insert; [exact Hshape|].
      rewrite Hpk1len. exact Hpklen.
    - unfold pk2. rewrite length_insert, Hpk1len. exact Hpklen. }
  assert (Hlen2 : length pks2 = length packets0).
  { unfold pks2, pks1. now rewrite !length_insert. }
  assert (Hstore : lut_store_with value ch (pks, q, off) e =
            Some (if sizeof_data <=? off + 2
                  then (pks2, q + 1, firstByteOffset)
                  else (pks2, q, off + 2))).
  { unfold lut_store_with. rewrite Hv. fold lo hi. rewrite Hs1.
    cbn [mbind option_bind].
    rewrite (u32_small (off + 1)) by lia. rewrite Hs2.
    cbn [mbind option_bind].
    rewrite (u32_small (off + 1 + 1)) by lia.
    replace (off + 1 + 1) with (off + 2) by lia.
    now destruct (sizeof_data <=? off + 2). }
  assert (Hdone2 : forall ch' e' i s v',
            0 <= e' < LUT_ENTRIES -> 0 <= s < E -> 0 <= i ->
            ch' * LUT_ENTRIES + e' = i * E + s -> i * E + s < k + 1 ->
            value ch' e' = Stored v' ->
            lut_byte pks2 i (1 + 2 * s) = Some (entry_bytes v').1
            /\ lut_byte pks2 i (2 + 2 * s) = Some (entry_bytes v').2).
  { intros ch' e' i s v' He' Hs Hi Heq Hlt Hv'.
    rewrite !Hbytes by lia.
    destruct (Z.eq_dec (i * E + s) k) as [Hnow|Hbefore].
    - destruct (slot_unique E i s q m) as [-> ->]; [lia | lia | lia |].
      destruct (slot_unique LUT_ENTRIES ch' e' ch e) as [-> ->];
        [lia | lia | lia |].
      assert (v' = v) by congruence. subst v'. fold lo hi.
      rewrite Z.eqb_refl. cbn [andb].
      destruct (Z.eqb_spec (1 + 2 * m) (off + 1)); [lia|].
      destruct (Z.eqb_spec (1 + 2 * m) off); [|lia].
      destruct (Z.eqb_spec (2 + 2 * m) (off + 1)); [|lia].
      split; reflexivity.
    - destruct (Hdone ch' e' i s v') as [Hlo Hhi]; try assumption; [lia|].
      assert (Hne : i <> q \/ s <> m).
      { destruct (slot_before E i s q m) as [|[_ ?]]; lia. }
      assert (Hc : forall o o', (o = 1 + 2 * s \/ o = 2 + 2 * s) ->
                     (o' = off \/ o' = off + 1) ->
                     (i =? q) && (o =? o') = false).
      { intros o o' Ho Ho'. apply andb_false_iff.
        destruct Hne; [left | right]; apply Z.eqb_neq; lia. }
      rewrite !Hc by (auto; lia). split; assumption. }
  assert (Hframe2 : forall i o, 0 <= i -> 0 <= o ->
            (o = 0 \/ exists s, 0 <= s /\ (o = 1 + 2 * s \/ o = 2 + 2 * s)
                                /\ k + 1 <= i * E + s) ->
            lut_byte pks2 i o = lut_byte packets0 i o).
  { intros i o Hi Ho Hcond. rewrite Hbytes by lia.
    assert (Hc : forall o', (o' = off \/ o' = off + 1) ->
                   (i =? q) && (o =? o') = false).
    { intros o' Ho'. apply andb_false_iff.
      destruct (Z.eq_dec i q) as [->|Hne]; [right | left]; apply Z.eqb_neq;
        [|exact Hne].
      destruct Hcond as [->|(s & Hs & Hos & Hks)]; lia. }
    rewrite !Hc by (auto; lia).
    apply Hframe; [lia | lia |].
    destruct Hcond as [->|(s & Hs & Hos & Hks)]; [now left|].
    right. exists s. repeat split; [lia | exact Hos | lia]. }
  eexists. split; [exact Hstore|].
  destruct (Z.leb_spec sizeof_data (off + 2)) as [Hwrap|Hstay].
  - split; [|split; [exact Hlen2 | split; [exact Hshape2 | split; [exact Hdone2 | exact Hframe2]]]].
    exists 0. unfold firstByteOffset. repeat split; lia.
  - split; [|split; [exact Hlen2 | split; [exact Hshape2 | split; [exact Hdone2 | exact Hframe2]]]].
    exists (m + 1). repeat split; lia.
Qed.

Lemma lut_loop_filled value packets0 ch :
  (ch + 1) * LUT_ENTRIES <= E * Z.of_nat (length packets0) ->
  (forall e, 0 <= e < LUT_ENTRIES -> exists v, value ch e = Stored v) ->
  forall (n a : nat) st,
    Z.of_nat a + Z.of_nat n <= LUT_ENTRIES ->
    lut_filled E value packets0 (ch * LUT_ENTRIES + Z.of_nat a) st ->
    exists st',
      lut_loop (lut_store_with value ch) st (Z.of_nat <$> seq a n) = Some st'
      /\ lut_filled E value packets0
           (ch * LUT_ENTRIES + Z.of_nat a + Z.of_nat n) st'.
Proof.
  intros Hroom Hstored n. induction n as [|n IH]; intros a st Han Hinv.
  - exists st. split; [reflexivity|].
    now rewrite Z.add_0_r.
  - cbn [seq fmap list_fmap lut_loop].
    destruct (Hstored (Z.of_nat a)) as [v Hv]; [lia|].
    destruct (lut_store_filled value packets0 (ch * LUT_ENTRIES + Z.of_nat a) st
                ch (Z.of_nat a) v) as (st1 & Hst1 & Hinv1);
      [exact Hinv | lia | reflexivity | lia | exact Hv |].
    rewrite Hst1. cbn [mbind option_bind].
    destruct (IH (S a) st1) as (st' & Hst' & Hinv'); [lia | |].
    { replace (ch * LUT_ENTRIES + Z.of_nat (S a))
        with (ch * LUT_ENTRIES + Z.of_nat a + 1) by lia.
      exact Hinv1. }
    exists st'. split; [exact Hst'|].
    replace (ch * LUT_ENTRIES + Z.of_nat a + Z.of_nat (S n))
      with (ch * LUT_ENTRIES + Z.of_nat (S a) + Z.of_nat n) by lia.
    exact Hinv'.
Qed.

Lemma fill_lut_filled value packets :
  0 <= LUT_ENTRIES ->
  Forall (fun pk => Z.of_nat (length pk) = sizeof_data) packets ->
  3 * LUT_ENTRIES <= E * Z.of_nat (length packets) ->
  (forall ch e, 0 <= ch < 3 -> 0 <= e < LUT_ENTRIES ->
                exists v, value ch e = Stored v) ->
  exists packets' packet byteOffset,
    fill_lut_with value packets = Some packets'
    /\ lut_filled E value packets (3 * LUT_ENTRIES) (packets', packet, byteOffset).
Proof.
  intros HL Hshape Hroom Hstored.
  assert (Hinit : lut_filled E value packets 0 (packets, 0, firstByteOffset)).
  { split; [exists 0; unfold firstByteOffset; lia|].
    split; [reflexivity|]. split; [exact Hshape|].
    split; [|reflexivity].
    intros ch e i s v _ Hs Hi _ Hlt. 
    assert (0 <= i * E) by (apply Z.mul_nonneg_nonneg; lia). lia. }
  assert (Hchan : forall ch k st, 0 <= ch < 3 -> k = ch * LUT_ENTRIES ->
            lut_filled E value packets k st ->
            exists st',
              lut_loop (lut_store_with value ch) st
                       (Z.of_nat <$> seq 0 (Z.to_nat LUT_ENTRIES)) = Some st'
              /\ lut_filled E value packets (k + LUT_ENTRIES) st').
  { intros ch k st Hch -> Hinv.
    destruct (lut_loop_filled value packets ch) with
      (n := Z.to_nat LUT_ENTRIES) (a := 0%nat) (st := st)
      as (st' & Hst' & Hinv'); [nia | auto | lia | | ].
    { now rewrite Z.add_0_r. }
    exists st'. split; [exact Hst'|].
    replace (ch * LUT_ENTRIES + LUT_ENTRIES)
      with (ch * LUT_ENTRIES + Z.of_nat 0 + Z.of_nat (Z.to_nat LUT_ENTRIES))
      by lia.
    exact Hinv'. }
  destruct (Hchan 0 0 _ ltac:(lia) ltac:(lia) Hinit) as (st1 & Hst1 & Hinv1).
  destruct (Hchan 1 (0 + LUT_ENTRIES) _ ltac:(lia) ltac:(lia) Hinv1)
    as (st2 & Hst2 & Hinv2).
  destruct (Hchan 2 (0 + LUT_ENTRIES + LUT_ENTRIES) _ ltac:(lia) ltac:(lia) Hinv2)
    as (st3 & Hst3 & Hinv3).
  destruct st3 as [[packets' packet] byteOffset].
  exists packets', packet, byteOffset.
  split.
  - unfold fill_lut_with. cbn [lut_loop].
    rewrite Hst1. cbn [mbind option_bind].
    rewrite Hst2. cbn [mbind option_bind].
    rewrite Hst3. reflexivity.
  - replace (3 * LUT_ENTRIES)
      with (0 + LUT_ENTRIES + LUT_ENTRIES + LUT_ENTRIES) by lia.
    exact Hinv3.
Qed.

Lemma lut_filled_entry value packets0 k st ch e v :
  lut_filled E value packets0 k st ->
  0 <= ch -> 0 <= e < LUT_ENTRIES -> ch * LUT_ENTRIES + e < k ->
  value ch e = Stored v ->
  let n := ch * LUT_ENTRIES + e in
  lut_byte st.1.1 (n / E) (1 + 2 * (n mod E)) = Some (entry_bytes v).1
  /\ lut_byte st.1.1 (n / E) (2 + 2 * (n mod E)) = Some (entry_bytes v).2.
Proof.
  intros Hinv Hch He Hlt Hv n.
  destruct st as [[pks q] off]. cbn [fst].
  destruct Hinv as (_ & _ & _ & Hdone & _).
  assert (Hn : 0 <= n).
  { unfold n. assert (0 <= ch * LUT_ENTRIES) by (apply Z.mul_nonneg_nonneg; lia).
    lia. }
  pose proof (Z.div_mod n E ltac:(lia)) as Hdm.
  pose proof (Z.mod_pos_bound n E ltac:(lia)) as Hmod.
  assert (Hdiv : 0 <= n / E) by (apply Z.div_pos; lia).
  apply (Hdone ch e); try assumption; fold n; lia.
Qed.

(** X12. The colour table is laid out as 16-bit little-endian entries in
    channel order, [E] to a packet after one padding byte, whatever the
    values of the entries are and however they were computed.  When a
    packet holds [2 * E + 1] bytes, the packets can take the three channels
    and every entry has a value to store, the loops succeed: the value [v]
    of entry [e] of channel [ch], number [k = ch * LUT_ENTRIES + e], has its
    low byte [uint8_t(v)] at offset [1 + 2 * (k mod E)] of packet [k / E]
    and its high byte [uint8_t(v >> 8)] next to it; the number and size of
    the packets and the padding byte of each are kept. *)
Theorem fill_lut_layout (value : Z -> Z -> Quantized)
    (packets : list (list Z)) :
  0 <= LUT_ENTRIES ->
  Forall (fun pk => Z.of_nat (length pk) = sizeof_data) packets ->
  3 * LUT_ENTRIES <= E * Z.of_nat (length packets) ->
  (forall ch e, 0 <= ch < 3 -> 0 <= e < LUT_ENTRIES ->
                exists v, value ch e = Stored v) ->
  exists packets',
    fill_lut_with value packets = Some packets'
    /\ length packets' = length packets
    /\ Forall (fun pk => Z.of_nat (length pk) = sizeof_data) packets'
    /\ (forall ch e v,
          0 <= ch < 3 -> 0 <= e < LUT_ENTRIES ->
          value ch e = Stored v ->
          let k := ch * LUT_ENTRIES + e in
          lut_byte packets' (k / E) (1 + 2 * (k mod E)) = Some (entry_bytes v).1
          /\ lut_byte packets' (k / E) (2 + 2 * (k mod E))
             = Some (entry_bytes v).2)
    /\ (forall i, 0 <= i -> lut_byte packets' i 0 = lut_byte packets i 0).
Proof.
  intros HL Hshape Hroom Hstored.
  destruct (fill_lut_filled value packets HL Hshape Hroom Hstored)
    as (packets' & packet & byteOffset & Hfill & Hinv).
  exists packets'. split; [exact Hfill|].
  pose proof Hinv as (_ & Hlen & Hshape' & _ & Hframe).
  split; [exact Hlen|]. split; [exact Hshape'|]. split.
  - intros ch e v Hch He Hv.
    apply (lut_filled_entry value packets (3 * LUT_ENTRIES)
             (packets', packet, byteOffset) ch e v Hinv); try lia; [|exact Hv].
    assert (ch * LUT_ENTRIES <= 2 * LUT_ENTRIES)
      by (apply Z.mul_le_mono_nonneg_r; lia).
    lia.
  - intros i Hi. apply Hframe; [lia | lia | now left].
Qed.

(** X11. A colour setting that is not a JSON object, null included, loads
    the identity table: when the packets can take the table,
    [writeColorCorrection] succeeds, the two bytes stored for entry [e] of
    each channel decode (low byte first) to [256 * e] clamped to 65535, and
    an accepted submission carries the table just written. *)
Theorem writeColorCorrection_identity (r : Z) (color : Value) (d : FCDevice) :
  IsObject color = false ->
  0 <= LUT_ENTRIES < 2 ^ 24 ->
  Forall (fun pk => Z.of_nat (length pk) = sizeof_data) (mColorLUT d) ->
  3 * LUT_ENTRIES <= E * Z.of_nat (length (mColorLUT d)) ->
  exists d',
    writeColorCorrection r color d = Some d'
    /\ (forall ch e, 0 <= ch < 3 -> 0 <= e < LUT_ENTRIES ->
          let k := ch * LUT_ENTRIES + e in
          exists lo hi,
            lut_byte (mColorLUT d') (k / E) (1 + 2 * (k mod E)) = Some lo
            /\ lut_byte (mColorLUT d') (k / E) (2 + 2 * (k mod E)) = Some hi
            /\ 0 <= lo < 256 /\ 0 <= hi < 256
            /\ lo + 256 * hi = Z.min 65535 (256 * e))
    /\ (0 <= r ->
        usbOut d' = usbOut d ++ [(OTHER, ColorLUTData (mColorLUT d'))]).
Proof.
  intros Hcolor HL Hshape Hroom.
  pose proof (parseColor_not_object color d Hcolor) as Hp.
  destruct (parseColor_LUT color d) as [Hlut Hout].
  unfold writeColorCorrection.
  destruct (parseColor color d) as [p d1]. cbn [fst snd] in Hp, Hlut, Hout.
  subst p.
  destruct (fill_lut_filled (lut_entry default_params) (mColorLUT d1))
    as (packets' & packet & byteOffset & Hfill & Hinv).
  { lia. }
  { now rewrite Hlut. }
  { now rewrite Hlut. }
  { intros ch e _ He. eexists. apply lut_entry_identity. lia. }
  unfold fill_lut. rewrite Hfill. cbn [mbind option_bind].
  eexists. split; [reflexivity|].
  assert (Hlut' : forall r0 fct,
            mColorLUT (submitTransfer r0 fct (set_mColorLUT packets' d1)).2
            = packets').
  { intros r0 fct. unfold submitTransfer.
    destruct (r0 <? 0); cbn [snd]; [|reflexivity].
    now destruct (_ && negb (r0 =? LIBUSB_ERROR_PIPE)). }
  split.
  - intros ch e Hch He. cbv zeta. rewrite Hlut'.
    destruct (lut_filled_entry (lut_entry default_params) (mColorLUT d1)
                (3 * LUT_ENTRIES)
                (packets', packet, byteOffset) ch e (Z.min 65535 (256 * e)) Hinv)
      as [Hlo Hhi]; try lia.
    { assert (ch * LUT_ENTRIES <= 2 * LUT_ENTRIES)
        by (apply Z.mul_le_mono_nonneg_r; lia).
      lia. }
    { apply lut_entry_identity. lia. }
    destruct (entry_bytes_value (Z.min 65535 (256 * e))) as (Hb1 & Hb2 & Hval);
      [lia|].
    exists (entry_bytes (Z.min 65535 (256 * e))).1,
           (entry_bytes (Z.min 65535 (256 * e))).2.
    split; [exact Hlo|]. split; [exact Hhi|].
    split; [exact Hb1|]. split; [exact Hb2 | exact Hval].
  - intros Hr. rewrite Hlut'.
    rewrite submitTransfer_succeeds by exact Hr.
    cbn [snd fst set_mPending set_usbOut usbOut set_mColorLUT new_Transfer
         type buffer snapshot mColorLUT].
    now rewrite Hout.
Qed.

End LutLayout.

(** ** Diagnostics *)

Lemma quiet_refl d : quiet d d.
Proof. now split. Qed.

Lemma quiet_trans d1 d2 d3 : quiet d1 d2 -> quiet d2 d3 -> quiet d1 d3.
Proof.
  intros [Hv1 Hc1] [Hv2 Hc2]. split; [congruence|].
  intros Hv. rewrite Hc2 by congruence. now apply Hc1.
Qed.

Lemma quiet_same d d' :
  mVerbose d' = mVerbose d -> clog d' = clog d -> quiet d d'.
Proof. intros Hv Hc. now split. Qed.

Lemma log_verbose_quiet m d : quiet d (log_verbose m d).
Proof.
  unfold log_verbose. destruct (mVerbose d) eqn:Hv; [|apply quiet_refl].
  split; [reflexivity|]. intros Hv'. congruence.
Qed.

Lemma submitTransfer_quiet r fct d : quiet d (submitTransfer r fct d).2.
Proof.
  unfold submitTransfer. destruct (r <? 0); cbn [snd].
  - destruct (mVerbose d) eqn:Hv; cbn [andb]; [|apply quiet_refl].
    destruct (negb _); [|apply quiet_refl].
    split; [reflexivity|]. intros Hv'. congruence.
  - now apply quiet_same.
Qed.

Lemma writeFramebuffer_quiet r d : quiet d (writeFramebuffer r d).
Proof.
  unfold writeFramebuffer.
  destruct (MAX_FRAMES_PENDING <=? mNumFramesPending d);
    [now apply quiet_same|].
  pose proof (submitTransfer_quiet r (new_Transfer BufFramebuffer FRAME d) d)
    as Hq.
  destruct (submitTransfer r (new_Transfer BufFramebuffer FRAME d) d)
    as [ok d1]. cbn [snd] in Hq.
  destruct ok; [|exact Hq].
  apply (quiet_trans d d1); [exact Hq | now apply quiet_same].
Qed.

Lemma flush_quiet r d : quiet d (flush r d).
Proof.
  unfold flush.
  assert (Hloop : quiet d (foldl flush_erase d (map_to_list (mPending d)))).
  { rewrite flush_loop_eq. now apply quiet_same. }
  destruct (mFrameWaitingForSubmit _ && _); [|exact Hloop].
  eapply quiet_trans; [exact Hloop | apply writeFramebuffer_quiet].
Qed.

Lemma opcMapPixelColors_quiet msg inst d d' :
  opcMapPixelColors msg inst d = Some d' -> quiet d d'.
Proof.
  unfold opcMapPixelColors.
  destruct (IsArray inst && (Size inst =? 4)).
  - destruct (_ && IsUint (at_ inst 3)).
    + destruct (negb _); [intros [= <-]; apply quiet_refl|].
      destruct (clampMapping _ _ _ _) as [[o t] c].
      destruct (copy_pixels _ _ _ _ _) as [fb|]; [|discriminate].
      intros [= <-]. now apply quiet_same.
    + intros [= <-]. apply log_verbose_quiet.
  - intros [= <-]. apply log_verbose_quiet.
Qed.

Lemma opcSetPixelColors_quiet msg d d' :
  opcSetPixelColors msg d = Some d' -> quiet d d'.
Proof.
  unfold opcSetPixelColors.
  destruct (mConfigMap d) as [map|]; [|intros [= <-]; apply quiet_refl].
  destruct map; try (intros [= <-]; apply quiet_refl).
  revert d. induction elements as [|inst insts IH]; intros d;
    cbn [map_instructions].
  - intros [= <-]. apply quiet_refl.
  - destruct (opcMapPixelColors msg inst d) as [d1|] eqn:Hmap; [|discriminate].
    cbn [mbind option_bind]. intros Hrest.
    eapply quiet_trans; [exact (opcMapPixelColors_quiet _ _ _ _ Hmap)|].
    now apply IH.
Qed.

Lemma parse_member_quiet {A : Type} (c b : bool) (x y : A) m d :
  quiet d (if c then (x, d)
           else if b && mVerbose d then (y, log m d) else (y, d)).2.
Proof.
  destruct c; [apply quiet_refl|].
  destruct (mVerbose d) eqn:Hv.
  - destruct (b && true); [|apply quiet_refl].
    split; [reflexivity|]. cbn [snd log set_clog mVerbose]. congruence.
  - rewrite andb_false_r. apply quiet_refl.
Qed.

Lemma parseColor_quiet color d : quiet d (parseColor color d).2.
Proof.
  unfold parseColor.
  destruct (IsObject color).
  - cbv zeta.
    pose proof (parse_member_quiet (IsNumber (member color "gamma"))
                  (negb (IsNull (member color "gamma")))
                  (GetDouble (member color "gamma")) 1%R
                  GammaMustBeNumber d) as H1.
    match type of H1 with quiet _ (?s).2 => destruct s as [g d1] end.
    pose proof (parse_member_quiet (IsNumber (member color "linearSlope"))
                  (negb (IsNull (member color "linearSlope")))
                  (GetDouble (member color "linearSlope")) 1%R
                  LinearSlopeMustBeNumber d1) as H2.
    match type of H2 with quiet _ (?s).2 => destruct s as [sl d2] end.
    pose proof (parse_member_quiet (IsNumber (member color "linearCutoff"))
                  (negb (IsNull (member color "linearCutoff")))
                  (GetDouble (member color "linearCutoff")) 0%R
                  LinearCutoffMustBeNumber d2) as H3.
    match type of H3 with quiet _ (?s).2 => destruct s as [cu d3] end.
    set (w := member color "whitepoint").
    pose proof (parse_member_quiet
                  (IsArray w && (Size w =? 3) && IsNumber (at_ w 0)
                   && IsNumber (at_ w 1) && IsNumber (at_ w 2))
                  (negb (IsNull w))
                  (GetDouble (at_ w 0), GetDouble (at_ w 1), GetDouble (at_ w 2))
                  (1, 1, 1)%R
                  WhitepointMustBeList d3) as H4.
    match type of H4 with quiet _ (?s).2 => destruct s as [wp d4] end.
    cbn [snd] in *.
    eauto using quiet_trans.
  - apply (parse_member_quiet false (negb (IsNull color)) default_params
             default_params ColorMustBeObject d).
Qed.

Lemma writeColorCorrection_quiet r color d d' :
  writeColorCorrection r color d = Some d' -> quiet d d'.
Proof.
  unfold writeColorCorrection.
  pose proof (parseColor_quiet color d) as Hq.
  destruct (parseColor color d) as [p d1]. cbn [snd] in Hq.
  destruct (fill_lut p (mColorLUT d1)) as [packets|]; [|discriminate].
  cbn [mbind option_bind]. intros [= <-].
  apply (quiet_trans d d1); [exact Hq|].
  apply (quiet_trans d1 (set_mColorLUT packets d1)); [now apply quiet_same|].
  apply submitTransfer_quiet.
Qed.

Lemma writeFirmwareConfiguration_quiet r d :
  quiet d (writeFirmwareConfiguration r d).
Proof. apply submitTransfer_quiet. Qed.

Lemma writeMessage_quiet r msg d d' :
  writeMessage r msg d = Some d' -> quiet d d'.
Proof.
  unfold writeMessage.
  destruct (command msg =? SetPixelColors).
  - destruct (opcSetPixelColors msg d) as [d1|] eqn:Hset; [|discriminate].
    cbn [mbind option_bind]. intros [= <-].
    eapply quiet_trans; [exact (opcSetPixelColors_quiet _ _ _ Hset)|].
    apply writeFramebuffer_quiet.
  - destruct (command msg =? SystemExclusive); [|intros [= <-]; apply log_verbose_quiet].
    unfold opcSysEx.
    destruct (msg_length msg <? 4); [intros [= <-]; apply log_verbose_quiet|].
    cbv zeta.
    destruct (sysex_id msg =? FCSetGlobalColorCorrection).
    { unfold opcSetGlobalColorCorrection.
      destruct (ParseInsitu _) as [doc|offset err].
      - apply writeColorCorrection_quiet.
      - intros [= <-]. apply log_verbose_quiet. }
    destruct (sysex_id msg =? FCSetFirmwareConfiguration);
      [|intros [= <-]; apply quiet_refl].
    intros [= <-]. unfold opcSetFirmwareConfiguration.
    eapply quiet_trans; [|apply writeFirmwareConfiguration_quiet].
    now apply quiet_same.
Qed.

Lemma configureDevice_clog r config d :
  mVerbose (configureDevice r config d) = mVerbose d
  /\ (mVerbose d = false ->
      clog (configureDevice r config d) = clog d
      \/ clog (configureDevice r config d) = clog d ++ [LedConfigInvalid]).
Proof.
  unfold configureDevice.
  set (led := member config "led").
  set (d1 := if negb (IsTrue led || IsFalse led || IsNull led)
             then log LedConfigInvalid d else d).
  set (d2 := set_mFirmwareConfig _ d1).
  destruct (writeFirmwareConfiguration_quiet r d2) as [Hv Hc].
  assert (Hv1 : mVerbose d2 = mVerbose d).
  { unfold d2, d1. now destruct (negb _). }
  split; [congruence|]. intros Hquiet.
  rewrite Hc by congruence. unfold d2, d1.
  destruct (negb _); [now right | now left].
Qed.

(** X14. A device that is not verbose writes no diagnostic but one: along
    every session the log grows only by the line about an invalid led
    setting, which [configureDevice] writes whatever the verbosity is, and
    a session without [configureDevice] leaves the log as it was. *)
Theorem quiet_device_log (ops : list Op) (d d' : FCDevice) :
  run ops d = Some d' ->
  mVerbose d = false ->
  exists l,
    clog d' = clog d ++ l
    /\ Forall (fun m => m = LedConfigInvalid) l
    /\ ((forall r config, OpConfigureDevice r config ∉ ops) -> l = []).
Proof.
  revert d. induction ops as [|op ops IH]; intros d Hrun Hv; cbn [run] in Hrun.
  - injection Hrun as <-. exists []. now rewrite app_nil_r.
  - destruct (step op d) as [d1|] eqn:Hstep; [|discriminate].
    cbn [mbind option_bind] in Hrun.
    assert (Hq : mVerbose d1 = mVerbose d
                 /\ ((clog d1 = clog d)
                     \/ (clog d1 = clog d ++ [LedConfigInvalid]
                         /\ exists r config, op = OpConfigureDevice r config))).
    { assert (Hquiet : quiet d d1 ->
                mVerbose d1 = mVerbose d
                /\ ((clog d1 = clog d)
                    \/ (clog d1 = clog d ++ [LedConfigInvalid]
                        /\ exists r config, op = OpConfigureDevice r config))).
      { intros [Hv1 Hc1]. split; [exact Hv1|]. left. now apply Hc1. }
      destruct op; cbn [step] in Hstep.
      - apply Hquiet. now apply (writeMessage_quiet r msg).
      - injection Hstep as <-. apply Hquiet, writeFramebuffer_quiet.
      - apply Hquiet. now apply (writeColorCorrection_quiet r color).
      - injection Hstep as <-. apply Hquiet, writeFirmwareConfiguration_quiet.
      - injection Hstep as <-.
        destruct (configureDevice_clog r config d) as [Hv1 Hc1].
        split; [exact Hv1|]. destruct (Hc1 Hv) as [Hc|Hc]; [now left|].
        right. split; [exact Hc|]. now exists r, config.
      - injection Hstep as <-. apply Hquiet. now apply quiet_same.
      - injection Hstep as <-. apply Hquiet. now apply quiet_same.
      - injection Hstep as <-. apply Hquiet, flush_quiet.
      - injection Hstep as <-. apply Hquiet, quiet_refl. }
    destruct Hq as [Hv1 Hc1].
    destruct (IH d1 Hrun) as (l & Hl & Hall & Hnone); [congruence|].
    destruct Hc1 as [Hc1|[Hc1 (r & config & ->)]].
    + exists l. rewrite Hl, Hc1. split; [reflexivity|]. split; [exact Hall|].
      intros Hnot. apply Hnone. intros r config Hel.
      apply (Hnot r config). now right.
    + exists (LedConfigInvalid :: l). rewrite Hl, Hc1, <- app_assoc.
      split; [reflexivity|]. split; [now constructor|].
      intros Hnot. exfalso. apply (Hnot r config). now left.
Qed.

Section MapperSafety.

Hypothesis NUM_PIXELS_fits : 0 <= NUM_PIXELS < 2 ^ 32.


Lemma msgPixelCount_bounds msg :
  msg_length msg <= 65535 ->
  u32 (msg_length msg / 3) = msg_length msg / 3
  /\ 0 <= msg_length msg / 3 < 2 ^ 32
  /\ msg_length msg / 3 * 3 <= msg_length msg.
Proof.
  intros Hlen.
  assert (0 <= msg_length msg) by (unfold msg_length; lia).
  assert (Hr : 0 <= msg_length msg / 3 < 2 ^ 32)
    by (Z.to_euclidean_division_equations; lia).
  split; [now apply u32_small|]. split; [exact Hr|].
  Z.to_euclidean_division_equations. lia.
Qed.




(** X2. For a recognised rule on the channel of the message, with clamped
    values [(o, t, c)], the framebuffer afterwards holds in pixel [t + k],
    for every [k < c], the three payload bytes of source pixel [o + k], in
    order; every other pixel, and everything else of the device, is
    unchanged. *)
Theorem opcMapPixelColors_copies (msg : Message) (d : FCDevice)
    (firstOPC firstOut count : Z) :
  msg_length msg <= 65535 ->
  Z.of_nat (length (mFramebuffer d)) = NUM_PIXELS ->
  0 <= channel msg < 2 ^ 32 -> 0 <= firstOPC < 2 ^ 32 ->
  0 <= firstOut < 2 ^ 32 -> 0 <= count < 2 ^ 32 ->
  let o := Z.min firstOPC (msg_length msg / 3) in
  let t := Z.min firstOut NUM_PIXELS in
  let c := Z.min (Z.min count (msg_length msg / 3 - o)) (NUM_PIXELS - t) in
  exists d',
    opcMapPixelColors msg
      (Array [Int (channel msg); Int firstOPC; Int firstOut; Int count]) d
      = Some d'
    /\ (forall k, 0 <= k < c ->
          exists px, source_pixel (data msg) (o + k) = Some px
                     /\ mFramebuffer d' !! Z.to_nat (t + k) = Some px)
    /\ (forall i : nat, ~ (t <= Z.of_nat i < t + c) ->
          mFramebuffer d' !! i = mFramebuffer d !! i)
    /\ d' = set_mFramebuffer (mFramebuffer d') d.
Proof.
  intros Hlen Hfb Hch HfirstOPC HfirstOut Hcount o t c.
  destruct (msgPixelCount_bounds msg Hlen) as (Hu & Hm & Hm3).
  rewrite opcMapPixelColors_rule by (apply IsUint_Int; lia).
  rewrite Z.eqb_refl. cbn [negb]. rewrite Hu.
  rewrite (clampMapping_spec NUM_PIXELS_fits) by lia. cbv zeta beta iota.
  fold o t c. rewrite (u32_small (o * 3)) by lia.
  destruct (copy_pixels_in_bounds (Z.to_nat c) (data msg) (o * 3) t
              (mFramebuffer d)) as (fb' & Hcopy & Hfb');
    unfold msg_length in *; try lia.
  rewrite Hcopy. cbn [mbind option_bind].
  exists (set_mFramebuffer fb' d). split; [reflexivity|].
  apply copy_pixels_result in Hcopy as [Hcopied Hother]; [|lia..].
  split; [|split].
  - intros k Hk.
    destruct (Hcopied k) as (r & g & b & Hr & Hg & Hb & Hpx); [lia|].
    exists (r, g, b). split; [|exact Hpx].
    unfold source_pixel, read_byte.
    destruct (Z.leb_spec 0 (3 * (o + k))); [|lia].
    destruct (Z.leb_spec 0 (3 * (o + k) + 1)); [|lia].
    destruct (Z.leb_spec 0 (3 * (o + k) + 2)); [|lia].
    replace (3 * (o + k)) with (o * 3 + 3 * k) by lia.
    rewrite Hr, Hg, Hb. reflexivity.
  - intros i Hi. apply Hother. lia.
  - now destruct d.
Qed.

End MapperSafety.

End Device.

(** * The definitions at the constants of the Fadecandy hardware

    Values for the constants the sources leave open, as on the Fadecandy
    board: 512 pixels, 25 LUT packets of 63 payload bytes, 257 LUT entries
    per channel, two frames in flight, the extension identifiers 0x00010001
    and 0x00010002, and [LIBUSB_ERROR_PIPE = -9].  The allocator is stdpp's
    [fresh]; the parser is rapidjson restricted to what the examples need:
    an empty text is an error at offset 0, any other text is read as
    [null]. *)

Abbreviation hw_alloc := (fresh : gset positive -> positive) (only parsing).

Abbreviation hw_parse :=
  (fun text : list Z =>
     match text with
     | [] => ParseError 0 "Text only contains white space(s)"
     | _ => ParseOk Null
     end) (only parsing).

Abbreviation hw_new := (FCDevice_new 512 25 63) (only parsing).
Abbreviation hw_submitTransfer := (submitTransfer (-9)) (only parsing).
Abbreviation hw_new_Transfer := (new_Transfer hw_alloc) (only parsing).
Abbreviation hw_writeFramebuffer :=
  (writeFramebuffer 2 (-9) hw_alloc) (only parsing).
Abbreviation hw_flush := (flush 2 (-9) hw_alloc) (only parsing).
Abbreviation hw_writeMessage :=
  (writeMessage 512 2 257 63 65537 65538 (-9) hw_alloc hw_parse)
  (only parsing).
Abbreviation hw_run :=
  (run 512 2 257 63 65537 65538 1 2 (-9) hw_alloc hw_parse) (only parsing).

(** C5, at the failing input. For the colour configuration
    [{"whitepoint": [1e20, 1e20, 1e20]}] the output of entry 1 is finite but
    its scaled value is beyond [int64_t]: the conversion that precedes the
    clamp overflows, no clamped value is stored, and [writeColorCorrection]
    has no defined result on any device. *)
Theorem quantization_overflows_before_clamp :
  let color :=
    Object [("whitepoint"%string, Array [Double 1e20; Double 1e20; Double 1e20])] in
  let p := {| gamma := 1; whitepoint := (1e20, 1e20, 1e20)%R;
              linearSlope := 1; linearCutoff := 0 |} in
  (forall d, parseColor color d = (p, d))
  /\ (exists output,
        curve_output p (lut_input p 0 1) = Some output
        /\ (IZR (2 ^ 63) <= output * 65535 + 0.5)%R
        /\ to_int64 (output * 65535 + 0.5) = None)
  /\ lut_entry p 0 1 = ConversionOverflow
  /\ forall r d, writeColorCorrection 257 63 (-9) hw_alloc r color d = None.
Proof.
  intros color p.
  assert (Hparse : forall d, parseColor color d = (p, d)) by reflexivity.
  destruct lut_entry_overflows as (output & Hout & Hbig & Hconv & Hentry).
  split; [exact Hparse|]. split.
  - exists output. split; [exact Hout|]. split; [exact Hbig | exact Hconv].
  - split; [exact Hentry|].
    intros r d. unfold writeColorCorrection. rewrite Hparse.
    rewrite (fill_lut_undefined 257 63 p 0 1); [reflexivity | | lia |].
    + apply elem_of_cons. now left.
    + intros v Hv. fold p in Hentry. rewrite Hentry in Hv. discriminate Hv.
Qed.

(** * Statements that fail, at concrete inputs *)

(** C9, counterexample. On a new device a successful [submitTransfer] of a
    frame transfer returns with one [FRAME] transfer in the set while the
    counter is still 0. *)
Lemma submitTransfer_frame_breaks_counter :
  let d := hw_new false in
  let d' := (hw_submitTransfer 0 (hw_new_Transfer BufFramebuffer FRAME d) d).2 in
  frames_consistent 2 d
  /\ framesInFlight (mPending d') = 1
  /\ mNumFramesPending d' = 0
  /\ ~ frames_consistent 2 d'.
Proof.
  intros d d'.
  assert (Hd : frames_consistent 2 d) by (split; [reflexivity | split; discriminate]).
  assert (Hfif : framesInFlight (mPending d') = 1) by reflexivity.
  assert (Hn : mNumFramesPending d' = 0) by reflexivity.
  split; [exact Hd|]. split; [exact Hfif|]. split; [exact Hn|].
  unfold frames_consistent. rewrite Hfif, Hn. intros [Heq _]. discriminate.
Qed.

(** C3, counterexample. A set-pixel-colors message handled by a new device,
    which has no mapping table, submits a frame transfer and raises the
    counter: it is not a no-op. *)
Lemma pixel_message_without_map_submits :
  let d := hw_new false in
  let msg := {| channel := 1; command := SetPixelColors; data := [10; 20; 30] |} in
  mConfigMap d = None
  /\ exists d', hw_writeMessage 0 msg d = Some d'
                /\ mNumFramesPending d = 0 /\ mNumFramesPending d' = 1
                /\ usbOut d = []
                /\ usbOut d' = [(FRAME, FramebufferData (mFramebuffer d))]
                /\ d' <> d.
Proof.
  intros d msg. split; [reflexivity|].
  eexists. split; [vm_compute; reflexivity|].
  split; [reflexivity|]. split; [reflexivity|]. split; [reflexivity|].
  split; [reflexivity|].
  intros H. apply (f_equal mNumFramesPending) in H. discriminate H.
Qed.

(** C4, counterexample. After three frames, the completion of the two in
    flight and a reap pass whose resubmission libusb refuses, the set is
    empty, so nothing in it has completed, and a frame is still waiting
    below the cap: the next reap pass submits it, changing the set, the
    counter and the flag. *)
Lemma flush_idle_counterexample :
  exists d,
    hw_run [OpWriteFramebuffer 0; OpWriteFramebuffer 0; OpWriteFramebuffer 0;
            OpCompleteTransfer 1; OpCompleteTransfer 2; OpFlush (-1)]
           (hw_new false) = Some d
    /\ none_finished d
    /\ mNumFramesPending d = 0 /\ mNumFramesPending (hw_flush 0 d) = 1
    /\ mFrameWaitingForSubmit d = true
    /\ mFrameWaitingForSubmit (hw_flush 0 d) = false
    /\ mPending d = ∅
    /\ mPending (hw_flush 0 d) =
         {[ 1%positive :=
              {| buffer := BufFramebuffer; type := FRAME; finished := false |} ]}
    /\ hw_flush 0 d <> d.
Proof.
  eexists. split; [vm_compute; reflexivity|].
  split.
  { intros fct t H.
    change ((∅ : gmap positive Transfer) !! fct = Some t) in H.
    rewrite lookup_empty in H. discriminate H. }
  split; [reflexivity|]. split; [vm_compute; reflexivity|].
  split; [reflexivity|]. split; [vm_compute; reflexivity|].
  split; [reflexivity|]. split; [vm_compute; reflexivity|].
  intros H. apply (f_equal mNumFramesPending) in H. vm_compute in H.
  discriminate H.
Qed.

(** C8, counterexample. With [mVerbose] clear, a
    set-global-color-correction message whose text does not parse is
    dropped without a word: the log stays empty. *)
Lemma parse_error_not_reported :
  let d := hw_new false in
  let msg := {| channel := 0; command := SystemExclusive; data := [0; 1; 0; 1] |} in
  sysex_id msg = 65537
  /\ hw_parse (drop 4 (data msg)) =
       ParseError 0 "Text only contains white space(s)"
  /\ hw_writeMessage 0 msg d = Some d
  /\ clog d = [].
Proof.
  intros d msg.
  split; [reflexivity|]. split; [reflexivity|].
  split; [vm_compute; reflexivity | reflexivity].
Qed.


(** C10, counterexample. Here a frame is waiting below the cap after a reap
    pass whose resubmission libusb refused.  The client draws a new frame and
    the submission fails again; the next reap pass submits that very frame. *)
Lemma failed_frame_is_resubmitted :
  let fb := replicate 512 (7, 7, 7) in
  exists d,
    hw_run [OpWriteFramebuffer 0; OpWriteFramebuffer 0; OpWriteFramebuffer 0;
            OpCompleteTransfer 1; OpFlush (-1)] (hw_new false) = Some d
    /\ mNumFramesPending (set_mFramebuffer fb d) < 2
    /\ let d' := hw_writeFramebuffer (-1) (set_mFramebuffer fb d) in
       mNumFramesPending d' = mNumFramesPending d
       /\ mFrameWaitingForSubmit d' = mFrameWaitingForSubmit d
       /\ usbOut d' = usbOut d
       /\ usbOut (hw_flush 0 d') = usbOut d' ++ [(FRAME, FramebufferData fb)].
Proof.
  intros fb. eexists. split; [vm_compute; reflexivity|].
  split; [reflexivity|]. cbv zeta.
  split; [vm_compute; reflexivity|]. split; [vm_compute; reflexivity|].
  split; [vm_compute; reflexivity|]. vm_compute. reflexivity.
Qed.

(** * The theorems at concrete inputs *)

(** C1 on a rule whose three numbers are all out of range. *)
Lemma opcMapPixelColors_in_bounds_witness :
  let msg := {| channel := 1; command := SetPixelColors;
                data := [10; 20; 30; 40; 50; 60] |} in
  let d := hw_new false in
  (0 <= 512 < 2 ^ 32 /\ msg_length msg <= 65535
   /\ Z.of_nat (length (mFramebuffer d)) = 512
   /\ 0 <= 1 < 2 ^ 32 /\ 0 <= 4294967295 < 2 ^ 32
   /\ 0 <= 600 < 2 ^ 32 /\ 0 <= 4294967295 < 2 ^ 32)
  /\ exists d',
       opcMapPixelColors 512 msg
         (Array [Int 1; Int 4294967295; Int 600; Int 4294967295]) d = Some d'
       /\ Z.of_nat (length (mFramebuffer d')) = 512.
Proof.
  intros msg d.
  assert (H1 : 0 <= 512 < 2 ^ 32) by lia.
  assert (H2 : msg_length msg <= 65535) by (vm_compute; discriminate).
  assert (H3 : Z.of_nat (length (mFramebuffer d)) = 512) by reflexivity.
  assert (H4 : 0 <= 1 < 2 ^ 32) by lia.
  assert (H5 : 0 <= 4294967295 < 2 ^ 32) by lia.
  assert (H6 : 0 <= 600 < 2 ^ 32) by lia.
  split; [repeat split; first [exact H3 | lia | apply H2]|].
  pose proof (opcMapPixelColors_in_bounds 512 H1 msg d 1 4294967295 600
                4294967295 H2 H3 H4 H5 H6 H5) as H.
  cbv zeta in H.
  destruct (clampMapping 512 _ _ _ _) as [[o t] c].
  apply H.
Defined.

(** C2 with the cap of the hardware: three frames, then the completion of
    the first and a reap pass with the framebuffer changed once more. *)
Lemma backpressure_latest_frame_wins_witness :
  let d := hw_new false in
  let f1 := (replicate 512 (1, 1, 1), 0) in
  let f2 := (replicate 512 (2, 2, 2), 0) in
  let f3 := (replicate 512 (3, 3, 3), 0) in
  let fb := replicate 512 (4, 4, 4) in
  let d1 := draw_frames 2 (-9) hw_alloc [f1; f2; f3] d in
  (frames_consistent 2 d /\ mNumFramesPending d = 0
   /\ Z.of_nat (length [f1; f2]) = 2)
  /\ framesInFlight (mPending d1) = 2
  /\ mNumFramesPending d1 = 2
  /\ mFrameWaitingForSubmit d1 = true
  /\ usbOut d1 = [(FRAME, FramebufferData f1.1); (FRAME, FramebufferData f2.1)]
  /\ usbOut (hw_flush 0 (set_mFramebuffer fb (complete_all [1%positive] d1))) =
       usbOut d1 ++ [(FRAME, FramebufferData fb)].
Proof.
  intros d f1 f2 f3 fb d1.
  assert (Hd : frames_consistent 2 d)
    by (split; [reflexivity | split; discriminate]).
  assert (Hok : forall f, f ∈ [f1; f2] ++ [f3] -> 0 <= f.2).
  { intros f Hf. cbn [app] in Hf.
    repeat (apply elem_of_cons in Hf as [->|Hf]; [discriminate|]).
    inversion Hf. }
  destruct (backpressure_latest_frame_wins 2 (-9) hw_alloc is_fresh
              [f1; f2] f3 d Hd eq_refl eq_refl Hok)
    as (Hfif & Hn & Hw & Hout & Hflush).
  split; [split; [exact Hd | split; reflexivity]|].
  split; [exact Hfif|]. split; [exact Hn|]. split; [exact Hw|].
  split; [exact Hout|].
  refine (proj1 (Hflush [1%positive] fb 0 1%positive
                   {| buffer := BufFramebuffer; type := FRAME; finished := false |}
                   _ eq_refl _ _)).
  - vm_compute. reflexivity.
  - apply list_elem_of_singleton. reflexivity.
  - discriminate.
Defined.

(** C3, amended, on a new device. *)
Lemma unbound_map_pixel_message_witness :
  let d := hw_new false in
  let msg := {| channel := 1; command := SetPixelColors; data := [10; 20; 30] |} in
  (mConfigMap d = None /\ command msg = SetPixelColors)
  /\ opcSetPixelColors 512 msg d = Some d
  /\ hw_writeMessage 0 msg d = Some (hw_writeFramebuffer 0 d)
  /\ mFramebuffer (hw_writeFramebuffer 0 d) = mFramebuffer d.
Proof.
  intros d msg. split; [split; reflexivity|].
  exact (unbound_map_pixel_message 512 2 257 63 65537 65538 (-9) hw_alloc
           hw_parse 0 msg d eq_refl eq_refl).
Defined.

(** C4, amended.  After three frames, two transfers are in flight, neither
    completed, and the third frame waits at the cap: the pass changes
    nothing.  After the completion of the first and a pass whose
    resubmission libusb refuses, one transfer is in flight, not completed,
    and the frame waits below the cap: the pass is a call of
    [writeFramebuffer]. *)
Lemma flush_idle_witness :
  let frame := {| buffer := BufFramebuffer; type := FRAME; finished := false |} in
  let d := hw_writeFramebuffer 0
             (hw_writeFramebuffer 0 (hw_writeFramebuffer 0 (hw_new false))) in
  let d2 := hw_flush (-1) (completeTransfer 1 d) in
  (none_finished d
   /\ mPending d !! 1%positive = Some frame
   /\ mPending d !! 2%positive = Some frame
   /\ mFrameWaitingForSubmit d = true /\ 2 <= mNumFramesPending d)
  /\ hw_flush 0 d = d
  /\ (none_finished d2
      /\ mPending d2 !! 2%positive = Some frame
      /\ mFrameWaitingForSubmit d2 = true /\ mNumFramesPending d2 < 2)
  /\ hw_flush 0 d2 = hw_writeFramebuffer 0 d2.
Proof.
  intros frame d d2.
  assert (Hnone : none_finished d).
  { intros fct t H. unfold d in H.
    repeat (apply writeFramebuffer_pending in H as [H| ->]; [|reflexivity]).
    change ((∅ : gmap positive Transfer) !! fct = Some t) in H.
    rewrite lookup_empty in H. discriminate H. }
  assert (Hnone2 : none_finished d2) by apply flush_none_finished.
  assert (Hflag : mFrameWaitingForSubmit d = true) by reflexivity.
  assert (Hcap : 2 <= mNumFramesPending d) by (vm_compute; discriminate).
  assert (Hflag2 : mFrameWaitingForSubmit d2 = true)
    by (vm_compute; reflexivity).
  assert (Hbelow : mNumFramesPending d2 < 2) by (vm_compute; reflexivity).
  split; [split; [exact Hnone | split; [vm_compute; reflexivity |
          split; [vm_compute; reflexivity | split; [exact Hflag | exact Hcap]]]]|].
  split; [exact (proj1 (flush_idle 2 (-9) hw_alloc 0 d Hnone) (or_intror Hcap))|].
  split; [split; [exact Hnone2 | split; [vm_compute; reflexivity |
          split; [exact Hflag2 | exact Hbelow]]]|].
  exact (proj2 (flush_idle 2 (-9) hw_alloc 0 d2 Hnone2) (conj Hflag2 Hbelow)).
Defined.


(** C7 on the hardware, the submission accepted. *)
Lemma end_to_end_scenario_witness :
  let d := set_mConfigMap (Some (Array [Array [Int 1; Int 0; Int 0; Int 2]]))
                          (hw_new false) in
  let msg c := {| channel := c; command := SetPixelColors;
                  data := [10; 20; 30; 40; 50; 60] |} in
  (0 <= 512 < 2 ^ 32
   /\ mConfigMap d = Some (Array [Array [Int 1; Int 0; Int 0; Int 2]])
   /\ Z.of_nat (length (mFramebuffer d)) = 512 /\ 2 <= 512)
  /\ (exists d', hw_writeMessage 0 (msg 1) d = Some d'
                 /\ mFramebuffer d' !! 0%nat = Some (10, 20, 30)
                 /\ mFramebuffer d' !! 1%nat = Some (40, 50, 60))
  /\ (exists d', hw_writeMessage 0 (msg 2) d = Some d'
                 /\ mFramebuffer d' = mFramebuffer d).
Proof.
  intros d msg.
  assert (H1 : 0 <= 512 < 2 ^ 32) by lia.
  assert (H2 : 2 <= 512) by lia.
  destruct (end_to_end_scenario 512 2 257 63 65537 65538 (-9) hw_alloc hw_parse
              H1 0 d eq_refl eq_refl H2)
    as [(d1 & Hrun1 & Hp0 & Hp1 & _) Hother].
  split; [repeat split; first [reflexivity | lia]|].
  split; [|exact Hother].
  exists d1. split; [exact Hrun1|]. split; [exact Hp0 | exact Hp1].
Defined.

(** C8, amended, on a verbose device: the offset is logged. *)
Lemma color_correction_parse_error_witness :
  let d := hw_new true in
  let msg := {| channel := 0; command := SystemExclusive; data := [0; 1; 0; 1] |} in
  hw_parse (drop 4 (data msg)) = ParseError 0 "Text only contains white space(s)"
  /\ exists d', hw_writeMessage 0 msg d = Some d'
                /\ clog d' = [ColorParseError 0 "Text only contains white space(s)"]
                /\ mColorLUT d' = mColorLUT d /\ usbOut d' = usbOut d.
Proof.
  intros d msg.
  assert (Hparse : hw_parse (drop 4 (data msg)) =
                   ParseError 0 "Text only contains white space(s)")
    by reflexivity.
  destruct (color_correction_parse_error 512 2 257 63 65537 65538 (-9)
              hw_alloc hw_parse 0 msg d 0
              "Text only contains white space(s)" Hparse)
    as (_ & Hmsg & Hlut & Hout & _ & _ & Hlog).
  split; [exact Hparse|].
  exists (log_verbose (ColorParseError 0 "Text only contains white space(s)") d).
  split; [apply Hmsg; [reflexivity | vm_compute; discriminate | reflexivity]|].
  split; [exact Hlog|]. split; [exact Hlut | exact Hout].
Defined.

(** C9, amended, on a new device. *)
Lemma frame_counter_invariant_witness :
  let d := hw_new false in
  frames_consistent 2 d
  /\ frames_consistent 2 (hw_writeFramebuffer 0 d)
  /\ frames_consistent 2 (hw_flush 0 d)
  /\ frames_consistent 2
       (hw_submitTransfer 0 (hw_new_Transfer BufColorLUT OTHER d) d).2.
Proof.
  intros d.
  assert (Hd : frames_consistent 2 d)
    by (split; [reflexivity | split; discriminate]).
  destruct (frame_counter_invariant 2 (-9) hw_alloc is_fresh 0 d Hd)
    as (Hwrite & Hflush & _ & Hsubmit & _).
  split; [exact Hd|]. split; [exact Hwrite|]. split; [exact Hflush|].
  apply Hsubmit. left. discriminate.
Defined.

(** C10, amended, on a new device, libusb answering [LIBUSB_ERROR_IO]. *)
Lemma writeFramebuffer_failure_schedules_nothing_witness :
  let d := hw_new true in
  let d' := hw_writeFramebuffer (-1) d in
  (mNumFramesPending d < 2 /\ -1 < 0)
  /\ mNumFramesPending d' = mNumFramesPending d
  /\ mFrameWaitingForSubmit d' = mFrameWaitingForSubmit d
  /\ exists d1', hw_run [OpFlush 0; OpFlush 0] d' = Some d1'
                 /\ usbOut d1' = usbOut d.
Proof.
  intros d d'.
  assert (H1 : mNumFramesPending d < 2) by reflexivity.
  assert (H2 : -1 < 0) by reflexivity.
  destruct (writeFramebuffer_failure_schedules_nothing 512 2 257 63 65537 65538
              1 2 (-9) hw_alloc hw_parse (-1) d H1 H2)
    as (Hn & Hw & _ & _ & Hquiet & _).
  split; [split; [exact H1 | exact H2]|].
  split; [exact Hn|]. split; [exact Hw|].
  apply (Hquiet eq_refl).
  repeat constructor.
Defined.

(** ** Instances of the further properties *)


(** X2 for a two-pixel message and a rule that asks for five pixels from the second on. *)
Lemma opcMapPixelColors_copies_witness :
  let msg := {| channel := 1; command := SetPixelColors;
                data := [10; 20; 30; 40; 50; 60] |} in
  let d := hw_new false in
  (0 <= 512 < 2 ^ 32 /\ msg_length msg <= 65535
   /\ Z.of_nat (length (mFramebuffer d)) = 512
   /\ 0 <= channel msg < 2 ^ 32 /\ 0 <= 1 < 2 ^ 32 /\ 0 <= 7 < 2 ^ 32
   /\ 0 <= 5 < 2 ^ 32)
  /\ exists d',
       opcMapPixelColors 512 msg
         (Array [Int (channel msg); Int 1; Int 7; Int 5]) d = Some d'
       /\ mFramebuffer d' !! 7%nat = Some (40, 50, 60)
       /\ mFramebuffer d' !! 8%nat = mFramebuffer d !! 8%nat.
Proof.
  intros msg d.
  assert (H1 : 0 <= 512 < 2 ^ 32) by lia.
  assert (H2 : msg_length msg <= 65535) by (vm_compute; discriminate).
  assert (H3 : Z.of_nat (length (mFramebuffer d)) = 512) by reflexivity.
  assert (H4 : 0 <= channel msg < 2 ^ 32) by (cbn; lia).
  assert (H5 : 0 <= 1 < 2 ^ 32) by lia.
  assert (H6 : 0 <= 7 < 2 ^ 32) by lia.
  assert (H7 : 0 <= 5 < 2 ^ 32) by lia.
  split; [repeat split; first [exact H3 | lia | apply H2 | apply H4]|].
  destruct (opcMapPixelColors_copies 512 H1 msg d 1 7 5 H2 H3 H4 H5 H6 H7)
    as (d' & Hrun & Hcopy & Hkeep & _).
  exists d'. split; [exact Hrun|]. split.
  - destruct (Hcopy 0) as (px & Hsrc & Hdst);
      [vm_compute; split; [discriminate | reflexivity]|].
    vm_compute in Hsrc. injection Hsrc as <-. exact Hdst.
  - apply Hkeep. intros [_ H]. vm_compute in H. discriminate.
Defined.


(** X4 on a new device with a one-rule map, libusb accepting the frame. *)
Lemma pixel_message_submits_mapped_frame_witness :
  let msg := {| channel := 1; command := SetPixelColors;
                data := [10; 20; 30; 40; 50; 60] |} in
  let d := set_mConfigMap (Some (Array [Array [Int 1; Int 0; Int 0; Int 2]]))
                          (hw_new false) in
  let d' := hw_writeFramebuffer 0
              (set_mFramebuffer
                 ((10, 20, 30) :: (40, 50, 60) :: replicate 510 (0, 0, 0)) d) in
  (command msg = SetPixelColors /\ hw_writeMessage 0 msg d = Some d')
  /\ usbOut d' = usbOut d ++ [(FRAME, FramebufferData (mFramebuffer d'))]
  /\ mNumFramesPending d' = mNumFramesPending d + 1.
Proof.
  intros msg d d'.
  assert (H1 : command msg = SetPixelColors) by reflexivity.
  assert (H2 : hw_writeMessage 0 msg d = Some d') by (vm_compute; reflexivity).
  split; [split; [exact H1 | exact H2]|].
  destruct (pixel_message_submits_mapped_frame 512 2 257 63 65537 65538 (-9)
              hw_alloc hw_parse 0 msg d d' H1 H2)
    as (d1 & _ & Hfb & Hbelow & _).
  destruct Hbelow as (Hout & Hn & _); [reflexivity | lia |].
  split; [|exact Hn].
  rewrite Hout, Hfb. reflexivity.
Defined.

(** X5 after one frame was submitted and has completed. *)
Lemma flush_reaps_exactly_finished_witness :
  let d := completeTransfer 1 (hw_writeFramebuffer 0 (hw_new false)) in
  (forall X : gset positive, hw_alloc X ∉ X)
  /\ none_finished (hw_flush 0 d)
  /\ (forall fct t, mPending d !! fct = Some t -> finished t = false ->
        mPending (hw_flush 0 d) !! fct = Some t)
  /\ (forall fct t, mPending (hw_flush 0 d) !! fct = Some t ->
        (mPending d !! fct = Some t /\ finished t = false)
        \/ t = {| buffer := BufFramebuffer; type := FRAME; finished := false |}).
Proof.
  intros d. split; [exact is_fresh|].
  exact (flush_reaps_exactly_finished 2 (-9) hw_alloc is_fresh 0 d).
Defined.

(** X6 with a frame waiting and a completed transfer to reap. *)
Lemma flush_twice_witness :
  let d := set_mFrameWaitingForSubmit true
             (completeTransfer 1 (hw_writeFramebuffer 0 (hw_new false))) in
  0 <= 0 /\ hw_flush (-1) (hw_flush 0 d) = hw_flush 0 d.
Proof.
  intros d.
  assert (H : 0 <= 0) by lia.
  split; [exact H|].
  exact (flush_twice 2 (-9) hw_alloc 0 (-1) d H).
Defined.

(** X7 for the identifier 0x00010002. *)
Lemma sysex_id_round_trip_witness :
  0 <= 65538 < 2 ^ 32
  /\ sysex_id {| channel := 0; command := SystemExclusive;
                 data := be32 65538 ++ [1; 2; 3] |} = 65538.
Proof.
  assert (H : 0 <= 65538 < 2 ^ 32) by lia.
  split; [exact H|].
  exact (sysex_id_round_trip 65538 0 SystemExclusive [1; 2; 3] H).
Defined.

(** X8 for a system-exclusive message with an unknown identifier, on a verbose device. *)
Lemma writeMessage_ignores_witness :
  let msg := {| channel := 0; command := SystemExclusive;
                data := [0; 0; 0; 9; 1] |} in
  let d := hw_new true in
  (command msg <> SetPixelColors
   /\ (command msg = SystemExclusive ->
       msg_length msg < 4
       \/ (sysex_id msg <> 65537 /\ sysex_id msg <> 65538)))
  /\ hw_writeMessage 0 msg d = Some d.
Proof.
  intros msg d.
  assert (H1 : command msg <> SetPixelColors) by discriminate.
  assert (H2 : command msg = SystemExclusive ->
               msg_length msg < 4
               \/ (sysex_id msg <> 65537 /\ sysex_id msg <> 65538)).
  { intros _. right. split; vm_compute; discriminate. }
  split; [split; [exact H1 | exact H2]|].
  destruct (writeMessage_ignores 512 2 257 63 65537 65538 (-9) hw_alloc hw_parse
              0 msg d H1 H2) as (d' & Hrun & _ & _ & Hsame).
  rewrite Hrun. f_equal. apply Hsame; [reflexivity|].
  vm_compute. discriminate.
Defined.

(** X9 for a payload of two bytes and a packet of four. *)
Lemma opcSetFirmwareConfiguration_truncates_witness :
  let msg := {| channel := 0; command := SystemExclusive;
                data := [0; 1; 0; 2; 9; 8] |} in
  let d := FCDevice_new 8 1 4 false in
  let d' := opcSetFirmwareConfiguration 4 (-9) hw_alloc 0 msg d in
  (4 <= msg_length msg /\ Z.of_nat (length (mFirmwareConfig d)) = 4)
  /\ length (mFirmwareConfig d') = length (mFirmwareConfig d)
  /\ mFirmwareConfig d' !! 1%nat = Some 8
  /\ mFirmwareConfig d' !! 2%nat = Some 0
  /\ usbOut d' = usbOut d ++ [(OTHER, FirmwareConfigData (mFirmwareConfig d'))].
Proof.
  intros msg d d'.
  assert (H1 : 4 <= msg_length msg) by (vm_compute; discriminate).
  assert (H2 : Z.of_nat (length (mFirmwareConfig d)) = 4) by reflexivity.
  split; [split; [exact H1 | exact H2]|].
  destruct (opcSetFirmwareConfiguration_truncates 4 (-9) hw_alloc 0 msg d H1 H2)
    as (Hlen & Hi & Hout & _).
  split; [exact Hlen|].
  split; [exact (Hi 1%nat)|].
  split; [exact (Hi 2%nat)|].
  apply Hout. lia.
Defined.

(** X10 for a led setting that is a number. *)
Lemma configureDevice_led_flags_witness :
  let config := Object [("led"%string, Int 3)] in
  let d := hw_new false in
  let d' := configureDevice 1 2 (-9) hw_alloc 0 config d in
  (0 < 1 < 256 /\ 0 < 2 < 256 /\ Z.land 1 2 = 0
   /\ (0 < length (mFirmwareConfig d))%nat)
  /\ mFirmwareConfig d' !! 0%nat = Some 1
  /\ LedConfigInvalid ∈ clog d'.
Proof.
  intros config d d'.
  assert (H1 : 0 < 1 < 256) by lia.
  assert (H2 : 0 < 2 < 256) by lia.
  assert (H3 : Z.land 1 2 = 0) by reflexivity.
  assert (H4 : (0 < length (mFirmwareConfig d))%nat) by (vm_compute; lia).
  split; [split; [exact H1 | split; [exact H2 | split; [exact H3 | exact H4]]]|].
  destruct (configureDevice_led_flags 1 2 (-9) hw_alloc 0 config d H1 H2 H3 H4)
    as (_ & _ & Hfalse & Hlog & _).
  split.
  - apply Hfalse. split; reflexivity.
  - apply Hlog; reflexivity.
Defined.

(** X11 for the null colour on a new device: entry 1 of the first channel. *)
Lemma writeColorCorrection_identity_witness :
  let d := hw_new false in
  (63 = 2 * 31 + 1 /\ 1 <= 31 /\ 63 < 2 ^ 32 /\ IsObject Null = false
   /\ 0 <= 257 < 2 ^ 24
   /\ Forall (fun pk => Z.of_nat (length pk) = 63) (mColorLUT d)
   /\ 3 * 257 <= 31 * Z.of_nat (length (mColorLUT d)))
  /\ exists d',
       writeColorCorrection 257 63 (-9) hw_alloc 0 Null d = Some d'
       /\ (exists lo hi,
             lut_byte (mColorLUT d') 0 3 = Some lo
             /\ lut_byte (mColorLUT d') 0 4 = Some hi
             /\ lo + 256 * hi = 256)
       /\ usbOut d' = usbOut d ++ [(OTHER, ColorLUTData (mColorLUT d'))].
Proof.
  intros d.
  assert (H1 : 63 = 2 * 31 + 1) by reflexivity.
  assert (H2 : 1 <= 31) by lia.
  assert (H3 : 63 < 2 ^ 32) by lia.
  assert (H4 : IsObject Null = false) by reflexivity.
  assert (H5 : 0 <= 257 < 2 ^ 24) by lia.
  assert (H6 : Forall (fun pk => Z.of_nat (length pk) = 63) (mColorLUT d)).
  { apply Forall_forall. intros pk Hin.
    apply elem_of_replicate in Hin as [-> _]. reflexivity. }
  assert (H7 : 3 * 257 <= 31 * Z.of_nat (length (mColorLUT d)))
    by (vm_compute; discriminate).
  split; [repeat split; first [exact H6 | exact H7 | lia]|].
  destruct (writeColorCorrection_identity 257 63 (-9) hw_alloc 31 H1 H2 H3
              0 Null d H4 H5 H6 H7) as (d' & Hrun & Hent & Hout).
  exists d'. split; [exact Hrun|]. split; [|apply Hout; lia].
  destruct (Hent 0 1) as (lo & hi & Hlo & Hhi & _ & _ & Hval); [lia | lia |].
  exists lo, hi. split; [exact Hlo|]. split; [exact Hhi | exact Hval].
Defined.

(** X12 for entry values that are not those of a curve, [1000 * ch + e]: the
    first entry of the second channel and the last entry of the third. *)
Lemma fill_lut_layout_witness :
  let packets := replicate 25 (replicate 63 0) in
  let value := fun ch e : Z => Stored (1000 * ch + e) in
  (63 = 2 * 31 + 1 /\ 1 <= 31 /\ 63 < 2 ^ 32 /\ 0 <= 257
   /\ Forall (fun pk => Z.of_nat (length pk) = 63) packets
   /\ 3 * 257 <= 31 * Z.of_nat (length packets)
   /\ (forall ch e, 0 <= ch < 3 -> 0 <= e < 257 ->
         exists v, value ch e = Stored v))
  /\ exists packets',
       fill_lut_with 257 63 value packets = Some packets'
       /\ length packets' = length packets
       /\ lut_byte packets' 8 19 = Some 232
       /\ lut_byte packets' 8 20 = Some 3
       /\ lut_byte packets' 24 53 = Some 208
       /\ lut_byte packets' 24 54 = Some 8
       /\ lut_byte packets' 24 0 = Some 0.
Proof.
  intros packets value.
  assert (H1 : 63 = 2 * 31 + 1) by reflexivity.
  assert (H2 : 1 <= 31) by lia.
  assert (H3 : 63 < 2 ^ 32) by lia.
  assert (H4 : 0 <= 257) by lia.
  assert (H5 : Forall (fun pk => Z.of_nat (length pk) = 63) packets).
  { apply Forall_forall. intros pk Hin.
    apply elem_of_replicate in Hin as [-> _]. reflexivity. }
  assert (H6 : 3 * 257 <= 31 * Z.of_nat (length packets))
    by (vm_compute; discriminate).
  assert (H7 : forall ch e, 0 <= ch < 3 -> 0 <= e < 257 ->
                 exists v, value ch e = Stored v).
  { intros ch e _ _. eexists. reflexivity. }
  split; [repeat split; first [exact H5 | exact H6 | apply H7 | lia]|].
  destruct (fill_lut_layout 257 63 31 H1 H2 H3 value packets H4 H5 H6 H7)
    as (packets' & Hfill & Hlen & _ & Hent & Hpad).
  exists packets'. split; [exact Hfill|]. split; [exact Hlen|].
  destruct (Hent 1 0 1000) as [Hlo1 Hhi1]; [lia | lia | reflexivity |].
  destruct (Hent 2 256 2256) as [Hlo2 Hhi2]; [lia | lia | reflexivity |].
  split; [exact Hlo1|]. split; [exact Hhi1|].
  split; [exact Hlo2|]. split; [exact Hhi2|].
  rewrite Hpad by lia. reflexivity.
Defined.

(** X13 for a frame in flight, through another frame, a reap pass and the destructor. *)
Lemma in_flight_transfer_survives_witness :
  let d := hw_writeFramebuffer 0 (hw_new false) in
  let t := {| buffer := BufFramebuffer; type := FRAME; finished := false |} in
  let ops := [OpWriteFramebuffer 0; OpFlush 0; OpDestroy] in
  let d' := hw_flush 0 (hw_writeFramebuffer 0 d) in
  ((forall X : gset positive, hw_alloc X ∉ X)
   /\ hw_run ops d = Some d'
   /\ mPending d !! 1%positive = Some t /\ finished t = false
   /\ OpCompleteTransfer 1 ∉ ops)
  /\ mPending d' !! 1%positive = Some t.
Proof.
  intros d t ops d'.
  assert (H1 : hw_run ops d = Some d') by reflexivity.
  assert (H2 : mPending d !! 1%positive = Some t) by (vm_compute; reflexivity).
  assert (H3 : finished t = false) by reflexivity.
  assert (H4 : OpCompleteTransfer 1 ∉ ops).
  { intros H. repeat (apply elem_of_cons in H as [H|H]; [discriminate|]).
    inversion H. }
  split; [split; [exact is_fresh | split; [exact H1 | split; [exact H2 |
          split; [exact H3 | exact H4]]]]|].
  exact (in_flight_transfer_survives 512 2 257 63 65537 65538 1 2 (-9) hw_alloc
           hw_parse is_fresh ops d d' 1%positive t H1 H2 H3 H4).
Defined.

(** X14 for an unsupported command followed by an invalid led setting. *)
Lemma quiet_device_log_witness :
  let d := hw_new false in
  let ops := [OpWriteMessage 0 {| channel := 0; command := 7; data := [] |};
              OpConfigureDevice 0 (Object [("led"%string, Int 3)])] in
  let d' := configureDevice 1 2 (-9) hw_alloc 0
              (Object [("led"%string, Int 3)]) d in
  (hw_run ops d = Some d' /\ mVerbose d = false)
  /\ exists l,
       clog d' = clog d ++ l
       /\ Forall (fun m => m = LedConfigInvalid) l
       /\ ((forall r config, OpConfigureDevice r config ∉ ops) -> l = []).
Proof.
  intros d ops d'.
  assert (H1 : hw_run ops d = Some d') by reflexivity.
  assert (H2 : mVerbose d = false) by reflexivity.
  split; [split; [exact H1 | exact H2]|].
  exact (quiet_device_log 512 2 257 63 65537 65538 1 2 (-9) hw_alloc hw_parse
           ops d d' H1 H2).
Defined.

(** X15 for a payload one byte longer than a packet of four. *)
Lemma firmware_config_message_witness :
  let d := FCDevice_new 8 1 4 false in
  let payload := [1; 2; 3; 4; 5] in
  (0 <= 65538 < 2 ^ 32 /\ 65538 <> 65537
   /\ Z.of_nat (length (mFirmwareConfig d)) = 4
   /\ 4 <= Z.of_nat (length payload))
  /\ exists d',
       writeMessage 8 2 257 4 65537 65538 (-9) hw_alloc hw_parse 0
         {| channel := 3; command := SystemExclusive;
            data := be32 65538 ++ payload |} d = Some d'
       /\ mFirmwareConfig d' = [1; 2; 3; 4]
       /\ usbOut d' = usbOut d ++ [(OTHER, FirmwareConfigData [1; 2; 3; 4])].
Proof.
  intros d payload.
  assert (H1 : 0 <= 65538 < 2 ^ 32) by lia.
  assert (H2 : 65538 <> 65537) by discriminate.
  assert (H3 : Z.of_nat (length (mFirmwareConfig d)) = 4) by reflexivity.
  assert (H4 : 4 <= Z.of_nat (length payload)) by (vm_compute; discriminate).
  split; [split; [exact H1 | split; [exact H2 | split; [exact H3 | exact H4]]]|].
  destruct (firmware_config_message 8 2 257 4 65537 65538 (-9) hw_alloc hw_parse
              0 3 payload d H1 H2 H3 H4) as (d' & Hrun & Hcfg & Hout & _).
  exists d'. split; [exact Hrun|]. split; [exact Hcfg|].
  apply Hout. lia.
Defined.

(** X16 for three frames, a completion and a reap pass. *)
Lemma reachable_consistent_witness :
  let ops := [OpWriteFramebuffer 0; OpWriteFramebuffer 0; OpWriteFramebuffer 0;
              OpCompleteTransfer 1; OpFlush 0] in
  let d := hw_flush 0
             (completeTransfer 1
                (hw_writeFramebuffer 0
                   (hw_writeFramebuffer 0
                      (hw_writeFramebuffer 0 (hw_new false))))) in
  ((forall X : gset positive, hw_alloc X ∉ X) /\ 0 <= 2
   /\ hw_run ops (hw_new false) = Some d)
  /\ frames_consistent 2 d.
Proof.
  intros ops d.
  assert (H1 : 0 <= 2) by lia.
  assert (H2 : hw_run ops (hw_new false) = Some d) by reflexivity.
  split; [split; [exact is_fresh | split; [exact H1 | exact H2]]|].
  exact (reachable_consistent 512 2 257 25 63 65537 65538 1 2 (-9) hw_alloc
           hw_parse is_fresh H1 ops false d H2).
Defined.
